(** * m3u8-downloader: manifest parsing, segment fetching and the download scheduler

    A shallow embedding of [m3u8_downloader/main.py]:
    [extract_segments], [calculate_file_md5], [download_segment],
    [download_segments_in_parallel], [merge_segments_to_mp4],
    [extract_id_from_m3u8] and [m3u8_to_mp4], together with the parts of
    Python
    they rest on (text files, [str.strip], [os.path], the values
    [json.load] returns, MD5).

    Conventions of the model.
    - Bytes are a [string], one character for each byte.
    - A [str] is a [string] too: the UTF-8 encoding of the [str]. A file
      opened in text mode is decoded in the encoding of the platform,
      which is UTF-8; bytes that are no UTF-8 raise [UnicodeDecodeError].
      White space is the white space of Unicode, as [str.strip] has it.
      The value of a response header is a [str] of characters below 256
      and is held one character for each byte.
    - Paths follow [posixpath].
    - The disk is a record of two finite maps: the bytes of the regular
      files, and, for the files read with [json.load], what the decoder
      makes of them.  A file is named by its path as it is spelled.  The
      disk holds no directories: a directory is there, or can be made,
      unless its path is empty or a file stands in its way.
    - Exceptions are values of [result]; a function that can raise returns
      [Raise e].
    - Logging and the progress bars are display only and are left out. *)

From Stdlib Require Import ZArith Lia List Ascii String Permutation Sorted.
From stdpp Require Import gmap strings list fin_maps pretty sorting.

#[local] Set Warnings "-register-all".
Open Scope string_scope.

(** ** MD5 ([hashlib.md5], RFC 1321) *)

Module MD5.

#[local] Open Scope Z_scope.

Definition wrap32 (x : Z) : Z := x mod 2 ^ 32.

Definition not32 (x : Z) : Z := Z.lxor x (2 ^ 32 - 1).

Definition rotl32 (x c : Z) : Z :=
  Z.lor (wrap32 (Z.shiftl x c)) (Z.shiftr x (32 - c)).

(** Per-round shift amounts. *)
Definition S_table : list Z :=
  [ 7; 12; 17; 22; 7; 12; 17; 22; 7; 12; 17; 22; 7; 12; 17; 22;
    5; 9; 14; 20; 5; 9; 14; 20; 5; 9; 14; 20; 5; 9; 14; 20;
    4; 11; 16; 23; 4; 11; 16; 23; 4; 11; 16; 23; 4; 11; 16; 23;
    6; 10; 15; 21; 6; 10; 15; 21; 6; 10; 15; 21; 6; 10; 15; 21 ].

(** [K_table !! i = floor (2^32 * abs (sin (i + 1)))]. *)
Definition K_table : list Z :=
  [ 3614090360; 3905402710; 606105819; 3250441966;
    4118548399; 1200080426; 2821735955; 4249261313;
    1770035416; 2336552879; 4294925233; 2304563134;
    1804603682; 4254626195; 2792965006; 1236535329;
    4129170786; 3225465664; 643717713; 3921069994;
    3593408605; 38016083; 3634488961; 3889429448;
    568446438; 3275163606; 4107603335; 1163531501;
    2850285829; 4243563512; 1735328473; 2368359562;
    4294588738; 2272392833; 1839030562; 4259657740;
    2763975236; 1272893353; 4139469664; 3200236656;
    681279174; 3936430074; 3572445317; 76029189;
    3654602809; 3873151461; 530742520; 3299628645;
    4096336452; 1126891415; 2878612391; 4237533241;
    1700485571; 2399980690; 4293915773; 2240044497;
    1873313359; 4264355552; 2734768916; 1309151649;
    4149444226; 3174756917; 718787259; 3951481745 ].

Definition nthZ (l : list Z) (i : nat) : Z := nth i l 0.

Record state := State { sa : Z; sb : Z; sc : Z; sd : Z }.

Definition init : state :=
  State 0x67452301 0xefcdab89 0x98badcfe 0x10325476.

(** One of the 64 operations of a block; [m] is the block as sixteen
    little-endian 32-bit words. *)
Definition step (m : list Z) (st : state) (i : nat) : state :=
  let '(State a b c d) := st in
  let '(f, g) :=
    if (i <? 16)%nat then
      (Z.lor (Z.land b c) (Z.land (not32 b) d), i)
    else if (i <? 32)%nat then
      (Z.lor (Z.land d b) (Z.land (not32 d) c), ((5 * i + 1) mod 16)%nat)
    else if (i <? 48)%nat then
      (Z.lxor b (Z.lxor c d), ((3 * i + 5) mod 16)%nat)
    else
      (Z.lxor c (Z.lor b (not32 d)), ((7 * i) mod 16)%nat) in
  let f' := wrap32 (f + a + nthZ K_table i + nthZ m g) in
  State d (wrap32 (b + rotl32 f' (nthZ S_table i))) b c.

Definition process_block (st : state) (m : list Z) : state :=
  let '(State a b c d) := fold_left (step m) (seq 0 64) st in
  State (wrap32 (sa st + a)) (wrap32 (sb st + b))
        (wrap32 (sc st + c)) (wrap32 (sd st + d)).

(** [n] little-endian bytes of [x]. *)
Fixpoint le_bytes (n : nat) (x : Z) : list Z :=
  match n with
  | O => []
  | S n' => x mod 256 :: le_bytes n' (x / 256)
  end.

Fixpoint le_word (bs : list Z) : Z :=
  match bs with
  | [] => 0
  | b :: bs' => b + 256 * le_word bs'
  end.

(** The message followed by 0x80, zero bytes up to 56 modulo 64, and
    the bit length as eight little-endian bytes. *)
Definition pad (msg : list Z) : list Z :=
  let len := Z.of_nat (length msg) in
  let zeros := Z.to_nat ((55 - len) mod 64) in
  msg ++ [128] ++ repeat 0 zeros ++ le_bytes 8 ((8 * len) mod 2 ^ 64).

(** Cut a byte list into groups of [k] bytes ([fuel] bounds the number
    of groups). *)
Fixpoint groups (fuel k : nat) (bs : list Z) : list (list Z) :=
  match fuel with
  | O => []
  | S fuel' =>
      match bs with
      | [] => []
      | _ => firstn k bs :: groups fuel' k (skipn k bs)
      end
  end.

Definition words_of_block (block : list Z) : list Z :=
  List.map le_word (groups 16 4 block).

Definition blocks (bs : list Z) : list (list Z) :=
  List.map words_of_block (groups (length bs) 64 bs).

Definition digest_bytes (msg : list Z) : list Z :=
  let '(State a b c d) := fold_left process_block (blocks (pad msg)) init in
  le_bytes 4 a ++ le_bytes 4 b ++ le_bytes 4 c ++ le_bytes 4 d.

Definition hex_digit (n : Z) : ascii :=
  nth (Z.to_nat n)
      (list_ascii_of_string "0123456789abcdef") "0"%char.

Fixpoint hex (bs : list Z) : string :=
  match bs with
  | [] => ""
  | b :: bs' =>
      String (hex_digit (b / 16)) (String (hex_digit (b mod 16)) (hex bs'))
  end.

Definition bytes_of_string (s : string) : list Z :=
  List.map (fun c => Z.of_nat (nat_of_ascii c)) (list_ascii_of_string s).

(** [hashlib.md5(data).hexdigest()]. *)
Definition hexdigest (data : string) : string :=
  hex (digest_bytes (bytes_of_string data)).

End MD5.

(** ** Exceptions *)

Inductive exn :=
| FileNotFoundError
| FileExistsError
| NotADirectoryError
| JSONDecodeError
| TypeError
| KeyError
| IndexError
| ValueError
| UnicodeDecodeError
| RequestException.

Inductive result (A : Type) :=
| Ok (a : A)
| Raise (e : exn).
Arguments Ok {A} a.
Arguments Raise {A} e.

Definition bind {A B} (r : result A) (k : A -> result B) : result B :=
  match r with
  | Ok a => k a
  | Raise e => Raise e
  end.

Notation "'try' x := r 'in' k" := (bind r (fun x => k))
  (at level 10, x name, r at level 100, k at level 200).

(** ** Python text *)

Definition code (c : ascii) : nat := nat_of_ascii c.

Definition between (lo hi : nat) (c : ascii) : bool :=
  ((lo <=? code c) && (code c <=? hi))%nat.

(** The bytes of a [string], given by their values. *)
Definition bytes (l : list nat) : string :=
  string_of_list_ascii (List.map ascii_of_nat l).

(** *** UTF-8 *)

(** The well-formed byte sequences of two, three and four bytes: no
    overlong form, no surrogate, nothing above U+10FFFF. *)
Definition continuation (c : ascii) : bool := between 128 191 c.

Definition utf8_two (a b : ascii) : bool :=
  between 194 223 a && continuation b.

Definition utf8_three (a b c : ascii) : bool :=
  ((code a =? 224)%nat && between 160 191 b
   || between 225 236 a && continuation b
   || (code a =? 237)%nat && between 128 159 b
   || between 238 239 a && continuation b)
  && continuation c.

Definition utf8_four (a b c d : ascii) : bool :=
  ((code a =? 240)%nat && between 144 191 b
   || between 241 243 a && continuation b
   || (code a =? 244)%nat && between 128 143 b)
  && continuation c && continuation d.

(** The bytes decode: [bytes.decode('utf-8')] does not raise. *)
Fixpoint valid_utf8 (s : string) : bool :=
  match s with
  | EmptyString => true
  | String a r1 =>
      if (code a <? 128)%nat then valid_utf8 r1
      else
        match r1 with
        | String b r2 =>
            if utf8_two a b then valid_utf8 r2
            else
              match r2 with
              | String c r3 =>
                  if utf8_three a b c then valid_utf8 r3
                  else
                    match r3 with
                    | String d r4 => utf8_four a b c d && valid_utf8 r4
                    | EmptyString => false
                    end
              | EmptyString => false
              end
        | EmptyString => false
        end
  end.

(** *** White space *)

(** [str.isspace]: the white space of Unicode, by the number of bytes of
    its encoding. One byte: U+0009 to U+000D, U+001C to U+0020. Two:
    U+0085, U+00A0. Three: U+1680, U+2000 to U+200A, U+2028, U+2029,
    U+202F, U+205F, U+3000. *)
Definition isspace1 (a : ascii) : bool := between 9 13 a || between 28 32 a.

Definition isspace2 (a b : ascii) : bool :=
  ((code a =? 194) && ((code b =? 133) || (code b =? 160)))%nat.

Definition isspace3 (a b c : ascii) : bool :=
  ((code a =? 225) && (code b =? 154) && (code c =? 128))%nat
  || ((code a =? 226) && (code b =? 128))%nat
     && (between 128 138 c || between 168 169 c || (code c =? 175)%nat)
  || ((code a =? 226) && (code b =? 129) && (code c =? 159))%nat
  || ((code a =? 227) && (code b =? 128) && (code c =? 128))%nat.

(** [ch.isspace()] for one character, given by its encoding. *)
Definition isspace (ch : string) : bool :=
  match ch with
  | String a EmptyString => isspace1 a
  | String a (String b EmptyString) => isspace2 a b
  | String a (String b (String c EmptyString)) => isspace3 a b c
  | _ => false
  end.

(** [s.lstrip()] *)
Fixpoint lstrip (s : string) : string :=
  match s with
  | EmptyString => EmptyString
  | String a r1 =>
      if isspace1 a then lstrip r1
      else
        match r1 with
        | String b r2 =>
            if isspace2 a b then lstrip r2
            else
              match r2 with
              | String c r3 => if isspace3 a b c then lstrip r3 else s
              | EmptyString => s
              end
        | EmptyString => s
        end
  end.

(** [s.rstrip()]: what is left of the rest, with the character before it,
    is dropped when it is one character of white space. *)
Fixpoint rstrip (s : string) : string :=
  match s with
  | EmptyString => EmptyString
  | String a s' =>
      let t := String a (rstrip s') in
      if isspace t then EmptyString else t
  end.

(** [s.strip()] *)
Definition strip (s : string) : string := rstrip (lstrip s).

(** The same for a class of one-byte characters. *)
Fixpoint lstrip_by (f : ascii -> bool) (s : string) : string :=
  match s with
  | EmptyString => EmptyString
  | String c s' => if f c then lstrip_by f s' else s
  end.

Fixpoint rstrip_by (f : ascii -> bool) (s : string) : string :=
  match s with
  | EmptyString => EmptyString
  | String c s' =>
      match rstrip_by f s' with
      | EmptyString => if f c then EmptyString else String c EmptyString
      | r => String c r
      end
  end.

(** [s.startswith(p)] *)
Definition startswith (s p : string) : bool := String.prefix p s.

(** [s.endswith(p)], for a one-character [p]. *)
Fixpoint endswith_char (s : string) (c : ascii) : bool :=
  match s with
  | EmptyString => false
  | String a EmptyString => Ascii.eqb a c
  | String _ s' => endswith_char s' c
  end.

(** Truth value of a [str]: non-empty. *)
Definition truthy (s : string) : bool :=
  match s with
  | EmptyString => false
  | String _ _ => true
  end.

Definition LF : ascii := ascii_of_nat 10.
Definition CR : ascii := ascii_of_nat 13.

(** Text mode with universal newlines: a carriage return, alone or
    followed by a line feed, is read as one line feed. *)
Fixpoint universal_newlines (s : string) : string :=
  match s with
  | EmptyString => EmptyString
  | String c s' =>
      if Ascii.eqb c CR then
        match s' with
        | String c' s'' =>
            if Ascii.eqb c' LF then String LF (universal_newlines s'')
            else String LF (universal_newlines s')
        | EmptyString => String LF EmptyString
        end
      else String c (universal_newlines s')
  end.

(** [for line in file]: the lines of the text, each with its line feed;
    no line is produced after a final line feed. *)
Fixpoint readlines (s : string) : list string :=
  match s with
  | EmptyString => []
  | String c s' =>
      if Ascii.eqb c LF then String c EmptyString :: readlines s'
      else
        match readlines s' with
        | [] => [String c EmptyString]
        | l :: ls => String c l :: ls
        end
  end.

(** [str(i)] for a non-negative integer. *)
Definition str (i : nat) : string := pretty i.

(** [f"{i:05d}"]: decimal, padded with zeros on the left to five
    characters. *)
Definition fmt_05d (i : nat) : string :=
  let d := str i in
  String.concat "" (repeat "0" (5 - String.length d)) ++ d.

(** [int(s)] for a [str]: a decimal integer with an optional sign, single
    underscores between the digits, and white space around it (here the
    white space of C, and the two characters above 127). *)
Definition isspace_int (c : ascii) : bool :=
  let n := nat_of_ascii c in
  (((9 <=? n) && (n <=? 13)) || (n =? 32) || (n =? 133) || (n =? 160))%nat.

Definition digit_of (c : ascii) : option Z :=
  let n := nat_of_ascii c in
  if ((48 <=? n) && (n <=? 57))%nat then Some (Z.of_nat (n - 48)) else None.

Fixpoint int_digits (acc : Z) (after_digit : bool) (s : string) : option Z :=
  match s with
  | EmptyString => if after_digit then Some acc else None
  | String c s' =>
      match digit_of c with
      | Some d => int_digits (10 * acc + d)%Z true s'
      | None =>
          if Ascii.eqb c "_" && after_digit then int_digits acc false s'
          else None
      end
  end.

Definition int_of_str (s : string) : result Z :=
  let unsigned (t : string) : result Z :=
    match int_digits 0%Z false t with
    | Some z => Ok z
    | None => Raise ValueError
    end in
  match rstrip_by isspace_int (lstrip_by isspace_int s) with
  | String "-" t => try z := unsigned t in Ok (- z)%Z
  | String "+" t => unsigned t
  | t => unsigned t
  end.

(** ** [posixpath] *)

Definition sep : ascii := "/".
Definition is_sep (c : ascii) : bool := Ascii.eqb c sep.

(** [p[:p.rfind('/') + 1]] *)
Fixpoint path_head (p : string) : string :=
  match p with
  | EmptyString => EmptyString
  | String c p' =>
      match path_head p' with
      | EmptyString => if is_sep c then String c EmptyString else EmptyString
      | h => String c h
      end
  end.

Definition all_sep (s : string) : bool := forallb is_sep (list_ascii_of_string s).

(** [os.path.dirname] *)
Definition dirname (p : string) : string :=
  let head := path_head p in
  if truthy head && negb (all_sep head) then rstrip_by is_sep head else head.

(** [os.path.join(a, b)] *)
Definition path_join (a b : string) : string :=
  if startswith b "/" then b
  else if negb (truthy a) || endswith_char a sep then a ++ b
  else a ++ "/" ++ b.

(** ** Python values, as [json.load] returns them *)

(** A number is kept as its literal: the code under study never computes
    with one. A [dict] decoded from JSON has [str] keys. *)
Inductive pyval :=
| PyNone
| PyBool (b : bool)
| PyNum (literal : string)
| PyStr (s : string)
| PyList (items : list pyval)
| PyDict (d : gmap string pyval).

(** [v == s] for a [str] [s]. *)
Definition py_eq_str (v : pyval) (s : string) : bool :=
  match v with
  | PyStr t => String.eqb t s
  | _ => false
  end.

Definition is_substring (k s : string) : bool :=
  match String.index 0 k s with
  | Some _ => true
  | None => false
  end.

(** [k in v] for a [str] [k]. *)
Definition py_contains (v : pyval) (k : string) : result bool :=
  match v with
  | PyDict d => Ok (bool_decide (is_Some (d !! k)))
  | PyList items => Ok (existsb (fun x => py_eq_str x k) items)
  | PyStr s => Ok (is_substring k s)
  | _ => Raise TypeError
  end.

(** [v[k]] for a [str] [k]. *)
Definition py_getitem (v : pyval) (k : string) : result pyval :=
  match v with
  | PyDict d =>
      match d !! k with
      | Some x => Ok x
      | None => Raise KeyError
      end
  | _ => Raise TypeError
  end.

(** [v[k] = x] for a [str] [k]: the value of [v] afterwards. *)
Definition py_setitem (v : pyval) (k : string) (x : pyval) : result pyval :=
  match v with
  | PyDict d => Ok (PyDict (<[k := x]> d))
  | _ => Raise TypeError
  end.

(** ** The disk *)

(** What [json.load] makes of a file: it raises, or returns a value. *)
Inductive document :=
| Undecodable
| Decoded (v : pyval).

Record disk := Disk {
  files : gmap string string;
  documents : gmap string document
}.

Definition write_file (fs : disk) (path data : string) : disk :=
  Disk (<[path := data]> (files fs)) (documents fs).

(** [os.remove] of a file that exists. *)
Definition remove_file (fs : disk) (path : string) : disk :=
  Disk (delete path (files fs)) (documents fs).

(** [json.dump(v, f)] into a file opened with ['w']. *)
Definition json_dump (fs : disk) (path : string) (v : pyval) : disk :=
  Disk (files fs) (<[path := Decoded v]> (documents fs)).

(** [calculate_file_md5]: the digest of the whole file (fed to the hash in
    blocks of 4096 bytes, which gives the digest of their concatenation). *)
Definition calculate_file_md5 (fs : disk) (filename : string) : result string :=
  match files fs !! filename with
  | Some data => Ok (MD5.hexdigest data)
  | None => Raise FileNotFoundError
  end.

(** ** The network *)

(** What [requests.get(url, stream=True, timeout=10)] meets. The request
    carries the URL and nothing else (no [Range] header), so the answer
    depends on the URL alone.
    - [NoResponse]: the call raises a [RequestException] (connection
      error, timeout).
    - [Response status content_length chunks intact]: the status code, the
      [content-length] header if there is one, the pieces of the body that
      [iter_content] delivers, and whether the stream ends normally
      ([intact = false]: a [RequestException] is raised after the
      pieces). *)
Inductive response :=
| NoResponse
| Response (status : Z) (content_length : option string)
           (chunks : list string) (intact : bool).

Definition network := string -> response.

(** The statuses [requests] reports as errors: 4xx and 5xx. *)
Definition is_error_status (status : Z) : bool :=
  ((400 <=? status) && (status <? 600))%Z.

(** [response.raise_for_status()] *)
Definition raise_for_status (status : Z) : result unit :=
  if is_error_status status then Raise RequestException else Ok tt.

(** [int(response.headers.get('content-length', 0))] *)
Definition total_size_of (content_length : option string) : result Z :=
  match content_length with
  | Some h => int_of_str h
  | None => Ok 0%Z
  end.

(** ** [download_segment] *)

(** The body of the streaming loop: each piece is written at the end of
    the file and counted. *)
Definition write_chunks (chunks : list string) (content : string)
    (downloaded : nat) : string * nat :=
  fold_left
    (fun st data => (fst st ++ data, snd st + String.length data))
    chunks (content, downloaded).

(** The [except requests.RequestException] handler. *)
Definition on_request_exception (fs : disk) (output_filename : string)
    : disk * result (option string) :=
  match files fs !! output_filename with
  | Some _ => (remove_file fs output_filename, Ok None)
  | None => (fs, Ok None)
  end.

(** Returns the disk afterwards and either the value returned ([Some md5]
    or [None]) or the exception that leaves the function.
    [segment_index] and [total_segments] only label the progress bar.
    Opening the file for writing is taken to succeed (the directory was
    made by the caller). *)
Definition download_segment (net : network) (fs : disk)
    (url output_filename : string) (segment_index total_segments : nat)
    : disk * result (option string) :=
  match net url with
  | NoResponse => on_request_exception fs output_filename
  | Response status content_length chunks intact =>
      match raise_for_status status with
      | Raise _ => on_request_exception fs output_filename
      | Ok _ =>
          match total_size_of content_length with
          | Raise e => (fs, Raise e)
          | Ok total_size =>
              let stream (start : string) (initial_pos : nat) :=
                let fs' :=
                  write_file fs output_filename
                    (fst (write_chunks chunks start initial_pos)) in
                if intact then
                  (fs', try md5 := calculate_file_md5 fs' output_filename in
                        Ok (Some md5))
                else on_request_exception fs' output_filename in
              match files fs !! output_filename with
              | Some old =>
                  (* mode = 'ab' *)
                  let initial_pos := String.length old in
                  if (total_size <=? Z.of_nat initial_pos)%Z then
                    (fs, try md5 := calculate_file_md5 fs output_filename in
                         Ok (Some md5))
                  else stream old initial_pos
              | None =>
                  (* mode = 'wb' *)
                  stream "" 0
              end
          end
      end
  end.

(** ** [extract_segments] *)

(** [open(path, 'r')] and reading the text: the bytes are decoded as
    UTF-8 and the line ends are translated. *)
Definition open_text (fs : disk) (path : string) : result string :=
  match files fs !! path with
  | Some data =>
      if valid_utf8 data then Ok (universal_newlines data)
      else Raise UnicodeDecodeError
  | None => Raise FileNotFoundError
  end.

(** The body of [for line in file]. *)
Definition extract_line (base_url : string) (segments : list string)
    (line : string) : list string :=
  let line := strip line in
  if truthy line && negb (startswith line "#") then
    let line :=
      if negb (startswith line "http") then path_join base_url line
      else line in
    (segments ++ [line])%list
  else segments.

Definition extract_segments (fs : disk) (m3u8_filename : string)
    : result (list string) :=
  let base_url := dirname m3u8_filename in
  try text := open_text fs m3u8_filename in
  Ok (fold_left (extract_line base_url) (readlines text) []).

(** ** [download_segments_in_parallel] *)

(** The directories above a path, the nearest first: [os.path.dirname]
    again and again, as long as it gives a shorter path that is not
    empty. *)
Fixpoint parents (fuel : nat) (path : string) : list string :=
  match fuel with
  | O => []
  | S fuel' =>
      let head := dirname path in
      if truthy head && (String.length head <? String.length path)%nat
      then head :: parents fuel' head
      else []
  end.

(** [os.path.isfile] *)
Definition isfile (fs : disk) (path : string) : bool :=
  bool_decide (is_Some (files fs !! path)).

(** [os.makedirs(path, exist_ok=True)]. The empty path names no
    directory. A file at the path (slashes at its end aside) is no
    directory, and below a file no directory can be made. *)
Definition makedirs (fs : disk) (path : string) : result unit :=
  let name := if all_sep path then path else rstrip_by is_sep path in
  if negb (truthy path) then Raise FileNotFoundError
  else if isfile fs name then Raise FileExistsError
  else if existsb (isfile fs) (parents (String.length name) name)
  then Raise NotADirectoryError
  else Ok tt.

(** [os.path.join(output_dir, f"segment_{i:05d}.ts")] *)
Definition segment_filename (output_dir : string) (i : nat) : string :=
  path_join output_dir ("segment_" ++ fmt_05d i ++ ".ts").

(** A task given to the executor: the arguments of the [download_segment]
    call, and the index [future_to_index] maps it to. *)
Record future := Future {
  fut_index : nat;
  fut_url : string;
  fut_file : string
}.

(** The lists and the counter the first loop fills. *)
Record dispatched := Dispatched {
  downloaded_segments : list (nat * string);
  skipped_counter : nat;
  future_to_index : list future
}.

Definition load_segment_info (fs : disk) (segment_info_file : string)
    : result pyval :=
  match documents fs !! segment_info_file with
  | Some (Decoded v) => Ok v
  | Some Undecodable => Raise JSONDecodeError
  | None => Ok (PyDict ∅)
  end.

(** The test of the first loop: [str(i) in segment_info and
    os.path.exists(segment_filename)], then the comparison of the stored
    digest with the digest of the file. *)
Definition already_downloaded (fs : disk) (segment_info : pyval)
    (output_dir : string) (i : nat) : result bool :=
  let filename := segment_filename output_dir i in
  try known := py_contains segment_info (str i) in
  if known && bool_decide (is_Some (files fs !! filename)) then
    try entry := py_getitem segment_info (str i) in
    try stored := py_getitem entry "md5" in
    try md5 := calculate_file_md5 fs filename in
    Ok (py_eq_str stored md5)
  else Ok false.

(** The body of [for i, seg in enumerate(segments)]. *)
Definition dispatch_step (fs : disk) (segment_info : pyval)
    (output_dir : string) (st : dispatched) (i : nat) (seg : string)
    : result dispatched :=
  try done := already_downloaded fs segment_info output_dir i in
  if done then
    Ok (Dispatched
          (downloaded_segments st ++ [(i, segment_filename output_dir i)])%list
          (S (skipped_counter st))
          (future_to_index st))
  else
    Ok (Dispatched
          (downloaded_segments st)
          (skipped_counter st)
          (future_to_index st
             ++ [Future i seg (segment_filename output_dir i)])%list).

Fixpoint dispatch (fs : disk) (segment_info : pyval) (output_dir : string)
    (i : nat) (segments : list string) (st : dispatched)
    : result dispatched :=
  match segments with
  | [] => Ok st
  | seg :: rest =>
      try st' := dispatch_step fs segment_info output_dir st i seg in
      dispatch fs segment_info output_dir (S i) rest st'
  end.

(** What the second loop works on. *)
Record progress := Progress {
  on_disk : disk;
  downloaded : list (nat * string);
  segment_info : pyval
}.

(** [{'url': url, 'md5': md5}] *)
Definition ledger_entry (url md5 : string) : pyval :=
  PyDict (<["url" := PyStr url]> (<["md5" := PyStr md5]> ∅)).

(** [segment_info[str(segment_index)] = {'url': segments[segment_index],
    'md5': md5}] *)
Definition record_segment (segments : list string) (info : pyval)
    (segment_index : nat) (md5 : string) : result pyval :=
  match segments !! segment_index with
  | Some url => py_setitem info (str segment_index) (ledger_entry url md5)
  | None => Raise IndexError
  end.

(** The body of [for future in as_completed(future_to_index)], with the
    download the future stands for. [net i] is the network as the fetch
    of segment [i] finds it. An exception inside the [try] is logged and
    the loop goes on. *)
Definition complete_step (net : nat -> network) (segments : list string)
    (output_dir : string) (st : progress) (fut : future) : progress :=
  let segment_index := fut_index fut in
  let '(fs', outcome) :=
    download_segment (net segment_index) (on_disk st) (fut_url fut)
      (fut_file fut) (S segment_index) (length segments) in
  match outcome with
  | Ok (Some md5) =>
      if truthy md5 then
        let downloaded' :=
          (downloaded st
             ++ [(segment_index, segment_filename output_dir segment_index)])%list in
        match record_segment segments (segment_info st) segment_index md5 with
        | Ok info' => Progress fs' downloaded' info'
        | Raise _ => Progress fs' downloaded' (segment_info st)
        end
      else Progress fs' (downloaded st) (segment_info st)
  | Ok None => Progress fs' (downloaded st) (segment_info st)
  | Raise _ => Progress fs' (downloaded st) (segment_info st)
  end.

(** [sorted(l, key=lambda x: x[0])]: a stable sort on the index. *)
Fixpoint insert_by_key (x : nat * string) (l : list (nat * string))
    : list (nat * string) :=
  match l with
  | [] => [x]
  | y :: l' =>
      if (fst x <=? fst y)%nat then x :: y :: l'
      else y :: insert_by_key x l'
  end.

Definition sorted_by_key (l : list (nat * string)) : list (nat * string) :=
  foldr insert_by_key [] l.

(** [as_completed] is the order in which the tasks finish; the downloads
    take effect in that order. Each one reads and writes its own segment
    file only, so the order does not show in the result
    ([completion_order_irrelevant] below). [ThreadPoolExecutor] refuses a
    number of workers that is not positive. The disk an aborted call
    leaves behind is not described. *)
Definition download_segments_in_parallel (net : nat -> network)
    (as_completed : list future -> list future) (fs : disk)
    (segments : list string) (output_dir : string) (num_threads : Z)
    : result (disk * list (nat * string)) :=
  try _ := makedirs fs output_dir in
  let segment_info_file := path_join output_dir "segment_info.json" in
  try info := load_segment_info fs segment_info_file in
  if (num_threads <=? 0)%Z then Raise ValueError
  else
    try d := dispatch fs info output_dir 0 segments (Dispatched [] 0 []) in
    let final :=
      fold_left (complete_step net segments output_dir)
        (as_completed (future_to_index d))
        (Progress fs (downloaded_segments d) info) in
    Ok (json_dump (on_disk final) segment_info_file (segment_info final),
        sorted_by_key (downloaded final)).

(** ** The manifest, in the words of the specification *)

(** A blank line holds nothing but white space. *)
Fixpoint is_blank (line : string) : bool :=
  match line with
  | EmptyString => true
  | String a r1 =>
      if isspace1 a then is_blank r1
      else
        match r1 with
        | String b r2 =>
            if isspace2 a b then is_blank r2
            else
              match r2 with
              | String c r3 => isspace3 a b c && is_blank r3
              | EmptyString => false
              end
        | EmptyString => false
        end
  end.

(** A comment line begins with the comment marker, white space before it
    aside. *)
Fixpoint is_comment (line : string) : bool :=
  match line with
  | EmptyString => false
  | String a r1 =>
      if isspace1 a then is_comment r1
      else
        match r1 with
        | String b r2 =>
            if isspace2 a b then is_comment r2
            else
              match r2 with
              | String c r3 =>
                  if isspace3 a b c then is_comment r3 else Ascii.eqb a "#"
              | EmptyString => Ascii.eqb a "#"
              end
        | EmptyString => Ascii.eqb a "#"
        end
  end.

(** The lines of a manifest that stand for a segment. *)
Definition segment_lines (text : string) : list string :=
  List.filter (fun line => negb (is_blank line) && negb (is_comment line))
    (readlines text).

(** An absolute URL: a scheme (a letter, then letters, digits, [+], [-] or
    [.]), then [://]. *)
Definition is_alpha (c : ascii) : bool :=
  let n := nat_of_ascii c in
  (((65 <=? n) && (n <=? 90)) || ((97 <=? n) && (n <=? 122)))%nat.

Definition is_scheme_char (c : ascii) : bool :=
  let n := nat_of_ascii c in
  (is_alpha c || ((48 <=? n) && (n <=? 57))
   || (n =? 43) || (n =? 45) || (n =? 46))%nat.

Fixpoint after_scheme (s : string) : bool :=
  match s with
  | EmptyString => false
  | String c rest =>
      if Ascii.eqb c ":" then startswith rest "//"
      else is_scheme_char c && after_scheme rest
  end.

Definition is_absolute_url (s : string) : bool :=
  match s with
  | EmptyString => false
  | String c rest => is_alpha c && after_scheme rest
  end.

(** The locator of a line as the specification words it: an absolute URL
    as it is, anything else joined to the manifest's directory. *)
Definition locator_by_url_kind (base_url line : string) : string :=
  if is_absolute_url line then line else path_join base_url line.

(** What the parser makes of a segment line: the line without the white
    space around it, joined to the manifest's directory unless it begins
    with [http]. *)
Definition locator (base_url line : string) : string :=
  let line := strip line in
  if startswith line "http" then line else path_join base_url line.

(** ** The fetch, in the words of the specification *)

(** A fetch that fails at the network layer: no response (connection
    error, timeout), a response with an error status, or a body whose
    stream breaks while it is being written (the size was read from the
    header and the file on disk, if any, is shorter). *)
Definition network_failure (fs : disk) (output_filename : string)
    (r : response) : bool :=
  match r with
  | NoResponse => true
  | Response status cl chunks intact =>
      is_error_status status
      || (negb intact
          && match total_size_of cl, files fs !! output_filename with
             | Ok total, Some old => (Z.of_nat (String.length old) <? total)%Z
             | Ok _, None => true
             | Raise _, _ => false
             end)
  end.

(** ** The ledger and the scheduler, in the words of the specification *)

(** [segment_info.json] in the run directory. *)
Definition segment_info_file (output_dir : string) : string :=
  path_join output_dir "segment_info.json".

(** Segment [index] is already done: the ledger has an entry for it, its
    file is on the disk, and the digest of the file is the one the entry
    stores. *)
Definition is_already_done (fs : disk) (info : pyval) (output_dir : string)
    (index : nat) : Prop :=
  exists (ledger entry : gmap string pyval) (data : string),
    info = PyDict ledger
    /\ ledger !! str index = Some (PyDict entry)
    /\ files fs !! segment_filename output_dir index = Some data
    /\ entry !! "md5" = Some (PyStr (MD5.hexdigest data)).

(** A ledger of the shape the scheduler writes: a [dict] whose values are
    [dict]s with an [md5] key. *)
Definition well_formed_entry (v : pyval) : bool :=
  match v with
  | PyDict entry => bool_decide (is_Some (entry !! "md5"))
  | _ => false
  end.

Definition well_formed_ledger (info : pyval) : Prop :=
  match info with
  | PyDict ledger => map_Forall (fun _ v => well_formed_entry v = true) ledger
  | _ => False
  end.

(** The keys of the ledger, and the entry under a key. *)
Definition ledger_keys (info : pyval) : gset string :=
  match info with
  | PyDict ledger => dom ledger
  | _ => ∅
  end.

Definition ledger_lookup (info : pyval) (k : string) : option pyval :=
  match info with
  | PyDict ledger => ledger !! k
  | _ => None
  end.

(** The key stands for an index of [[0, segment_count)]. *)
Definition in_index_range (segment_count : nat) (k : string) : Prop :=
  exists i, i < segment_count /\ k = str i.

(** A fetch is dispatched for segment [index]. *)
Definition dispatched_for (d : dispatched) (index : nat) : Prop :=
  index ∈ (fut_index <$> future_to_index d).

(** The order of the result, and an entry of it. *)
Definition key_le (a b : nat * string) : Prop := fst a <= fst b.

Definition completed_entry (output_dir : string) (j : nat) : nat * string :=
  (j, segment_filename output_dir j).

(** The number a string of decimal digits stands for. *)
Fixpoint decimal_value (acc : N) (s : string) : N :=
  match s with
  | EmptyString => acc
  | String c s' =>
      decimal_value (acc * 10 + (N.of_nat (nat_of_ascii c) - 48))%N s'
  end.

(** One pass of the second loop, part by part: the download of the
    future, the digest of a success, what is added to the list, and what
    becomes of the ledger. *)
Definition fetch (net : nat -> network) (segments : list string)
    (fs : disk) (fut : future) : disk * result (option string) :=
  download_segment (net (fut_index fut)) fs (fut_url fut) (fut_file fut)
    (S (fut_index fut)) (length segments).

Definition step_result (outcome : result (option string)) : option string :=
  match outcome with
  | Ok (Some md5) => if truthy md5 then Some md5 else None
  | _ => None
  end.

Definition step_added (output_dir : string) (fut : future)
    (outcome : result (option string)) : list (nat * string) :=
  match step_result outcome with
  | Some _ => [completed_entry output_dir (fut_index fut)]
  | None => []
  end.

Definition step_info (segments : list string) (fut : future)
    (outcome : result (option string)) (info : pyval) : pyval :=
  match step_result outcome with
  | Some md5 =>
      match record_segment segments info (fut_index fut) md5 with
      | Ok info' => info'
      | Raise _ => info
      end
  | None => info
  end.

(** Two states of the second loop that differ in the order of the list
    only. *)
Definition same_run (st st' : progress) : Prop :=
  on_disk st = on_disk st'
  /\ segment_info st = segment_info st'
  /\ downloaded st ≡ₚ downloaded st'.

(** ** A run directory to try things on *)

Definition one_file (path data : string) : disk := Disk {[ path := data ]} ∅.

Definition serves (chunks : list string) : network :=
  fun _ => Response 200 (Some (str (String.length (String.concat "" chunks)))) chunks true.

Definition lines (ls : list string) : string :=
  String.concat (String LF "") ls.

(** Three segments; the fetch of the second one meets no server. *)
Definition demo_segments : list string :=
  ["http://cdn.example/a/0.ts"; "http://cdn.example/a/1.ts";
   "http://cdn.example/a/2.ts"].

Definition demo_net (i : nat) : network :=
  if (i =? 1)%nat then fun _ => NoResponse else serves ["AB"; "CD"].

(** The ledger of an earlier run over a longer manifest: segment 0, whose
    file is on the disk, and segment 7. *)
Definition demo_ledger : pyval :=
  PyDict
    (<["0" := ledger_entry "http://cdn.example/a/0.ts"
                "cb08ca4a7bb5f9683c19133a84872ca7"]>
       (<["7" := ledger_entry "http://cdn.example/b/7.ts"
                   "900150983cd24fb0d6963f7d28e17f72"]> ∅)).

Definition demo_disk : disk :=
  Disk {[ "/t/segment_00000.ts" := "ABCD" ]}
       {[ "/t/segment_info.json" := Decoded demo_ledger ]}.

(** The same run directory with a ledger document that does not decode. *)
Definition damaged_disk : disk :=
  Disk {[ "/t/segment_00000.ts" := "ABCD" ]}
       {[ "/t/segment_info.json" := Undecodable ]}.

Definition demo_manifest : disk :=
  one_file "/v/index.m3u8"
    (lines ["#EXTM3U"; "seg0.ts"; ""; "  sub/seg1.ts "; "https://cdn/seg2.ts"]).

(** ** Reading a file in blocks *)

Fixpoint take_str (n : nat) (s : string) : string :=
  match n, s with
  | S n', String c s' => String c (take_str n' s')
  | _, _ => EmptyString
  end.

Fixpoint drop_str (n : nat) (s : string) : string :=
  match n, s with
  | S n', String _ s' => drop_str n' s'
  | _, _ => s
  end.

(** [iter(lambda: f.read(size), b"")]: the blocks read until a read
    returns nothing. Each read takes at least one byte, so the length of
    the data bounds the number of reads. *)
Fixpoint read_blocks (fuel size : nat) (data : string) : list string :=
  match fuel with
  | O => []
  | S fuel' =>
      match take_str size data with
      | EmptyString => []
      | block => block :: read_blocks fuel' size (drop_str size data)
      end
  end.

(** A hash object is what it was fed; [update] feeds it more. *)
Definition md5_update (fed chunk : string) : string := fed ++ chunk.

(** [calculate_file_md5], block by block as the source reads the file. *)
Definition calculate_file_md5_blocks (fs : disk) (filename : string)
    : result string :=
  match files fs !! filename with
  | Some data =>
      Ok (MD5.hexdigest
            (fold_left md5_update
               (read_blocks (S (String.length data)) 4096 data) ""))
  | None => Raise FileNotFoundError
  end.

(** A lower-case hexadecimal digit. *)
Definition is_lower_hex (c : ascii) : bool :=
  existsb (Ascii.eqb c) (list_ascii_of_string "0123456789abcdef").

(** ** The scheduler, segment by segment *)

(** The download of segment [i], run on the disk [fs], returns a digest. *)
Definition fetch_succeeds (net : nat -> network) (segments : list string)
    (fs : disk) (output_dir : string) (i : nat) : Prop :=
  exists url md5,
    segments !! i = Some url
    /\ snd (download_segment (net i) fs url (segment_filename output_dir i)
              (S i) (length segments)) = Ok (Some md5).

(** ** [extract_id_from_m3u8] *)

Definition is_ascii_digit (c : ascii) : bool :=
  let n := nat_of_ascii c in ((48 <=? n) && (n <=? 57))%nat.

Definition not_underscore (c : ascii) : bool := negb (Ascii.eqb c "_").

(** The longest prefix of characters of a class, and the rest. *)
Fixpoint span (p : ascii -> bool) (s : string) : string * string :=
  match s with
  | EmptyString => (EmptyString, EmptyString)
  | String c s' =>
      if p c then (String c (fst (span p s')), snd (span p s'))
      else (EmptyString, s)
  end.

(** The rest of [s] after the character [c] it begins with. *)
Definition expect (c : ascii) (s : string) : option string :=
  match s with
  | String x s' => if Ascii.eqb x c then Some s' else None
  | EmptyString => None
  end.

(** The pattern [_([^_]+_[0-9]+_[0-9]+)/] matched where its first
    underscore has just been read: the group, if the pattern matches. Each
    [+] can only end where the class ends, since the character after it
    (an underscore, a slash) is not of the class: there is one way to
    match at most, the one the greedy search finds. *)
Definition match_id_at (s : string) : option string :=
  let a := span not_underscore s in
  if truthy (fst a) then
    match expect "_" (snd a) with
    | Some r2 =>
        let b := span is_ascii_digit r2 in
        if truthy (fst b) then
          match expect "_" (snd b) with
          | Some r4 =>
              let c := span is_ascii_digit r4 in
              if truthy (fst c) then
                match expect "/" (snd c) with
                | Some _ => Some (fst a ++ "_" ++ fst b ++ "_" ++ fst c)
                | None => None
                end
              else None
          | None => None
          end
        else None
    | None => None
    end
  else None.

(** [re.search(r'_([^_]+_[0-9]+_[0-9]+)/', line)]: group 1 of the match
    that starts first. *)
Fixpoint re_search_id (line : string) : option string :=
  match line with
  | EmptyString => None
  | String ch rest =>
      match (if Ascii.eqb ch "_" then match_id_at rest else None) with
      | Some group => Some group
      | None => re_search_id rest
      end
  end.

(** [s.partition(c)] without the separator: the text before the first [c]
    and the text after it. *)
Fixpoint break_at (c : ascii) (s : string) : option (string * string) :=
  match s with
  | EmptyString => None
  | String x s' =>
      if Ascii.eqb x c then Some (EmptyString, s')
      else
        match break_at c s' with
        | Some (before, after) => Some (String x before, after)
        | None => None
        end
  end.

(** [s.split(c, maxsplit)] for a one-character separator. *)
Fixpoint py_split (c : ascii) (maxsplit : nat) (s : string) : list string :=
  match maxsplit with
  | O => [s]
  | S m =>
      match break_at c s with
      | Some (before, after) => before :: py_split c m after
      | None => [s]
      end
  end.

(** The identifier made of a match: the first two of the parts between
    underscores. *)
Definition id_of_match (full_match : string) : string :=
  String.concat "_" (firstn 2 (py_split "_" 2 full_match)).

(** The test on a line and what the loop returns for it. *)
Definition extract_id_line (line : string) : option string :=
  if truthy (strip line) && negb (startswith line "#") then
    match re_search_id line with
    | Some full_match => Some (id_of_match full_match)
    | None => None
    end
  else None.

(** The first line that gives an identifier. *)
Fixpoint extract_id_lines (ls : list string) : option string :=
  match ls with
  | [] => None
  | line :: rest =>
      match extract_id_line line with
      | Some id => Some id
      | None => extract_id_lines rest
      end
  end.

(** Every exception is caught: with no file, with a file that does not
    decode, or with no match, the function returns [None]. The text
    layer decodes the file block by block as the loop reads it; the
    manifest is taken to come in one block, so that it is decoded before
    its first line is looked at. *)
Definition extract_id_from_m3u8 (fs : disk) (m3u8_filename : string)
    : option string :=
  match open_text fs m3u8_filename with
  | Ok text => extract_id_lines (readlines text)
  | Raise _ => None
  end.

(** Every character of the string is of the class. *)
Definition all_chars (p : ascii -> bool) (s : string) : bool :=
  forallb p (list_ascii_of_string s).

(** An occurrence of the pattern in a line, in the words of the pattern:
    an underscore, a part [a] without underscore, an underscore, digits
    [b], an underscore, digits [c], a slash; none of the parts empty. *)
Definition id_occurrence (line pre a b c suf : string) : Prop :=
  line = pre ++ "_" ++ a ++ "_" ++ b ++ "_" ++ c ++ "/" ++ suf
  /\ truthy a = true /\ all_chars not_underscore a = true
  /\ truthy b = true /\ all_chars is_ascii_digit b = true
  /\ truthy c = true /\ all_chars is_ascii_digit c = true.

(** ** [merge_segments_to_mp4] *)

(** How [subprocess.run(command, check=True, ...)] ends: the program ran
    and exited with a code (a code other than 0 raises
    [CalledProcessError]), or the call raised something else (the program
    is not installed: [FileNotFoundError]). *)
Inductive process_end :=
| Exited (code : Z)
| NotRun (e : exn).

(** A program: what it makes of the disk, and how it ends. *)
Definition program := list string -> disk -> disk * process_end.

Definition concat_filename : string := "concat_list.txt".

(** [f"file '{seg}'\n"] *)
Definition concat_line (seg : string) : string :=
  "file '" ++ seg ++ "'" ++ String LF "".

(** What the loop writes to the list file. *)
Definition concat_list (segments : list (nat * string)) : string :=
  String.concat "" (List.map (fun x => concat_line (snd x)) segments).

(** The command: the options, when there are some, come after the output
    file. *)
Definition ffmpeg_command (output_file : string)
    (ffmpeg_options : option (list string)) : list string :=
  (["ffmpeg"; "-y"; "-f"; "concat"; "-safe"; "0"; "-i"; concat_filename;
    "-c"; "copy"; "-movflags"; "+faststart"; output_file]
   ++ match ffmpeg_options with
      | Some options => options
      | None => []
      end)%list.

(** The list file is written in the working directory, the program is run,
    a [CalledProcessError] is logged, and the list file is removed in the
    [finally] clause. [os.remove] raises when the file is gone. *)
Definition merge_segments_to_mp4 (run : program) (fs : disk)
    (segments : list (nat * string)) (output_file : string)
    (ffmpeg_options : option (list string)) : disk * result unit :=
  let fs1 := write_file fs concat_filename (concat_list segments) in
  let ran := run (ffmpeg_command output_file ffmpeg_options) fs1 in
  match files (fst ran) !! concat_filename with
  | Some _ =>
      (remove_file (fst ran) concat_filename,
       match snd ran with
       | Exited _ => Ok tt
       | NotRun e => Raise e
       end)
  | None => (fst ran, Raise FileNotFoundError)
  end.

(** ** [m3u8_to_mp4] *)

(** [shutil.rmtree(dir, ignore_errors=True)]: nothing is left below the
    directory. *)
Definition below (dir path : string) : bool := startswith path (dir ++ "/").

Definition rmtree (fs : disk) (dir : string) : disk :=
  Disk (filter (fun kv => below dir (fst kv) = false) (files fs))
       (filter (fun kv => below dir (fst kv) = false) (documents fs)).

(** The identifier of the run, [default] when none is found. *)
Definition video_id_of (fs : disk) (m3u8_filename : string) : string :=
  match extract_id_from_m3u8 fs m3u8_filename with
  | Some id => if truthy id then id else "default"
  | None => "default"
  end.

(** [os.path.join(os.getcwd(), "tmp", f"m3u8_segments_{video_id}")] *)
Definition run_directory (cwd : string) (fs : disk) (m3u8_filename : string)
    : string :=
  path_join (path_join cwd "tmp")
    ("m3u8_segments_" ++ video_id_of fs m3u8_filename).

(** The pipeline. [cwd] is the working directory. The exception of a
    failed step leaves the function after the [finally] clause; the disk
    is then not described. *)
Definition m3u8_to_mp4 (net : nat -> network)
    (as_completed : list future -> list future) (run : program)
    (cwd : string) (fs : disk) (m3u8_filename : string)
    (output_mp4 : option string) (num_threads : Z) (keep_segments : bool)
    (ffmpeg_options : option (list string)) : result disk :=
  let video_id := video_id_of fs m3u8_filename in
  let output_mp4 :=
    match output_mp4 with
    | Some name => name
    | None => video_id ++ ".mp4"
    end in
  try segments := extract_segments fs m3u8_filename in
  let output_dir := run_directory cwd fs m3u8_filename in
  try _ := makedirs fs output_dir in
  try downloaded :=
    download_segments_in_parallel net as_completed fs segments output_dir
      num_threads in
  let merged :=
    merge_segments_to_mp4 run (fst downloaded) (snd downloaded) output_mp4
      ffmpeg_options in
  let fs' :=
    if keep_segments then fst merged else rmtree (fst merged) output_dir in
  try _ := snd merged in
  Ok fs'.

(** ** A job to try the pipeline on *)

(** A manifest whose locators carry the identifier [abc_12]. *)
Definition demo_job : disk :=
  one_file "/v/index.m3u8"
    (lines ["#EXTM3U"; "http://cdn.example/v_abc_12_3/0.ts";
            "http://cdn.example/v_abc_12_3/1.ts"; ""]).

(** A program that writes something to the file named where the command
    has its output file, and exits with code 1. *)
Definition demo_program : program :=
  fun command fs =>
    match command !! 12 with
    | Some output_file => (write_file fs output_file "mp4", Exited 1)
    | None => (fs, Exited 2)
    end.

Definition no_line_feed (c : ascii) : bool := negb (Ascii.eqb c LF).

(** * Properties *)

(** ** The model at work *)

Example md5_empty : MD5.hexdigest "" = "d41d8cd98f00b204e9800998ecf8427e".
Proof. vm_compute. reflexivity. Qed.

Example md5_abc : MD5.hexdigest "abc" = "900150983cd24fb0d6963f7d28e17f72".
Proof. vm_compute. reflexivity. Qed.

Example md5_two_blocks :
  MD5.hexdigest
    "aaaaaaaaaaaaaaaaaaaaaaaaaaaaaaaaaaaaaaaaaaaaaaaaaaaaaaaaaaaaaaaa"
  = "014842d480b571495a4a0363793f7367".
Proof. vm_compute. reflexivity. Qed.

Example dirname_ex1 : dirname "/tmp/video/index.m3u8" = "/tmp/video".
Proof. reflexivity. Qed.
Example dirname_ex2 : dirname "index.m3u8" = "".
Proof. reflexivity. Qed.
Example dirname_ex3 : dirname "/index.m3u8" = "/".
Proof. reflexivity. Qed.
Example dirname_ex4 : dirname "a//b" = "a".
Proof. reflexivity. Qed.
Example join_ex1 : path_join "/tmp/video" "seg0.ts" = "/tmp/video/seg0.ts".
Proof. reflexivity. Qed.
Example join_ex2 : path_join "" "seg0.ts" = "seg0.ts".
Proof. reflexivity. Qed.
Example join_ex3 : path_join "/tmp/video" "/abs/seg0.ts" = "/abs/seg0.ts".
Proof. reflexivity. Qed.
Example fmt_ex1 : fmt_05d 7 = "00007".
Proof. reflexivity. Qed.
Example fmt_ex2 : fmt_05d 4321 = "04321".
Proof. vm_compute. reflexivity. Qed.
Example strip_ex : strip (String LF " a b  " ++ String CR (String LF "")) = "a b".
Proof. reflexivity. Qed.
Example readlines_ex :
  readlines (String "a" (String LF (String LF "b")))
  = [String "a" (String LF ""); String LF ""; "b"].
Proof. reflexivity. Qed.
Example int_ex1 : int_of_str " 1024 " = Ok 1024%Z.
Proof. reflexivity. Qed.
Example int_ex2 : int_of_str "12a" = Raise ValueError.
Proof. reflexivity. Qed.
Example int_ex3 : int_of_str "1_024" = Ok 1024%Z.
Proof. reflexivity. Qed.
Example int_ex4 : int_of_str "1__0" = Raise ValueError.
Proof. reflexivity. Qed.
Example int_ex5 : int_of_str "-" = Raise ValueError.
Proof. reflexivity. Qed.
Example int_ex6 : int_of_str "" = Raise ValueError.
Proof. reflexivity. Qed.
Example int_ex7 : int_of_str "7_" = Raise ValueError.
Proof. reflexivity. Qed.

Example download_fresh :
  download_segment (serves ["AB"; "CD"]) (Disk ∅ ∅) "http://h/0.ts" "/t/segment_00000.ts" 1 1
  = (one_file "/t/segment_00000.ts" "ABCD", Ok (Some "cb08ca4a7bb5f9683c19133a84872ca7")).
Proof. vm_compute. reflexivity. Qed.

Example download_complete :
  download_segment (serves ["AB"; "CD"]) (one_file "/t/segment_00000.ts" "WXYZ")
    "http://h/0.ts" "/t/segment_00000.ts" 1 1
  = (one_file "/t/segment_00000.ts" "WXYZ", Ok (Some (MD5.hexdigest "WXYZ"))).
Proof. vm_compute. reflexivity. Qed.

Example extract_ex :
  extract_segments
    (one_file "/v/index.m3u8"
       (lines ["#EXTM3U"; "seg0.ts"; ""; "  sub/seg1.ts "; "https://cdn/seg2.ts"]))
    "/v/index.m3u8"
  = Ok ["/v/seg0.ts"; "/v/sub/seg1.ts"; "https://cdn/seg2.ts"].
Proof. vm_compute. reflexivity. Qed.

(** A no-break space (the bytes C2 A0) is white space: it is stripped
    from a line, and a line of nothing else is blank. *)
Example extract_no_break_space :
  extract_segments
    (one_file "/v/index.m3u8"
       (bytes [194; 160] ++ "seg.ts" ++ bytes [10; 194; 160; 10]))
    "/v/index.m3u8"
  = Ok ["/v/seg.ts"].
Proof. vm_compute. reflexivity. Qed.

(** A character of more than one byte is kept whole: U+00E0 (the bytes
    C3 A0) does not end in white space. *)
Example strip_keeps_characters :
  strip (bytes [32; 195; 160; 226; 128; 168]) = bytes [195; 160].
Proof. vm_compute. reflexivity. Qed.

(** A manifest that is no UTF-8 (a lone byte E9) makes the parser raise. *)
Example extract_undecodable :
  extract_segments
    (one_file "/v/index.m3u8" (bytes [233; 10] ++ "seg.ts"))
    "/v/index.m3u8"
  = Raise UnicodeDecodeError.
Proof. vm_compute. reflexivity. Qed.

(** [os.makedirs]: the empty path, a file at the path, a file above it. *)
Example makedirs_ex1 : makedirs (Disk ∅ ∅) "" = Raise FileNotFoundError.
Proof. reflexivity. Qed.
Example makedirs_ex2 : makedirs (one_file "/t" "x") "/t/" = Raise FileExistsError.
Proof. vm_compute. reflexivity. Qed.
Example makedirs_ex3 :
  makedirs (one_file "/t" "x") "/t/a/b" = Raise NotADirectoryError.
Proof. vm_compute. reflexivity. Qed.
Example makedirs_ex4 : makedirs (one_file "/t/a" "x") "/t/b/c" = Ok tt.
Proof. vm_compute. reflexivity. Qed.

(** With the empty path as run directory the scheduler raises at once. *)
Example scheduler_empty_path :
  download_segments_in_parallel (fun _ => serves ["AB"]) (@rev future)
    (Disk ∅ ∅) ["u0"] "" 8
  = Raise FileNotFoundError.
Proof. reflexivity. Qed.

(** Three segments, the second fails: the result lists segments 0 and 2. *)
Example scheduler_ex :
  match
    download_segments_in_parallel
      (fun i => if (i =? 1)%nat then fun _ => NoResponse else serves ["AB"])
      (@rev future) (Disk ∅ ∅) ["u0"; "u1"; "u2"] "/t" 8
  with
  | Ok (_, out) => out = [(0, "/t/segment_00000.ts"); (2, "/t/segment_00002.ts")]
  | Raise _ => False
  end.
Proof. vm_compute. reflexivity. Qed.

(** ** The manifest parser *)

Lemma string_length_ind (P : string -> Prop) :
  (forall s, (forall t, String.length t < String.length s -> P t) -> P s) ->
  forall s, P s.
Proof.
  intros H s. remember (String.length s) as n eqn:Hn. revert s Hn.
  induction n as [n IH] using lt_wf_ind. intros s ->.
  apply H. intros t Ht. now apply (IH (String.length t)).
Qed.

Lemma isspace2_lead (a b : ascii) : isspace2 a b = true -> code a = 194.
Proof.
  unfold isspace2. intros [Ha _]%andb_true_iff. now apply Nat.eqb_eq.
Qed.

Lemma isspace3_lead (a b c : ascii) :
  isspace3 a b c = true -> code a = 225 \/ code a = 226 \/ code a = 227.
Proof.
  unfold isspace3.
  destruct (code a =? 225)%nat eqn:E1; [apply Nat.eqb_eq in E1; auto|].
  destruct (code a =? 226)%nat eqn:E2; [apply Nat.eqb_eq in E2; auto|].
  destruct (code a =? 227)%nat eqn:E3; [apply Nat.eqb_eq in E3; auto|].
  discriminate.
Qed.

Lemma isspace2_not1 (a b : ascii) : isspace2 a b = true -> isspace1 a = false.
Proof.
  intros H%isspace2_lead. unfold isspace1, between. now rewrite H.
Qed.

Lemma isspace3_not1 (a b c : ascii) :
  isspace3 a b c = true -> isspace1 a = false.
Proof.
  intros H%isspace3_lead. unfold isspace1, between.
  destruct H as [->|[->| ->]]; reflexivity.
Qed.

Lemma isspace3_not2 (a b c : ascii) :
  isspace3 a b c = true -> isspace2 a b = false.
Proof.
  intros H%isspace3_lead. unfold isspace2.
  destruct H as [->|[->| ->]]; reflexivity.
Qed.

(** What [lstrip] leaves is blank when the line is. *)
Lemma lstrip_is_blank (s : string) : is_blank (lstrip s) = is_blank s.
Proof.
  induction s as [s IH] using string_length_ind.
  destruct s as [|a r1]; [reflexivity|]. cbn [lstrip is_blank].
  destruct (isspace1 a) eqn:H1; [apply IH; cbn; lia|].
  destruct r1 as [|b r2]; [cbn [is_blank]; now rewrite H1|].
  destruct (isspace2 a b) eqn:H2; [apply IH; cbn; lia|].
  destruct r2 as [|c r3]; [cbn [is_blank]; now rewrite H1, H2|].
  destruct (isspace3 a b c) eqn:H3.
  - rewrite IH by (cbn; lia). reflexivity.
  - cbn [is_blank]. now rewrite H1, H2, H3.
Qed.

Lemma blank_lstrip (s : string) : is_blank s = true -> lstrip s = "".
Proof.
  induction s as [s IH] using string_length_ind.
  destruct s as [|a r1]; [reflexivity|]. cbn [lstrip is_blank].
  destruct (isspace1 a); [apply IH; cbn; lia|].
  destruct r1 as [|b r2]; [discriminate|].
  destruct (isspace2 a b); [apply IH; cbn; lia|].
  destruct r2 as [|c r3]; [discriminate|].
  destruct (isspace3 a b c); [apply IH; cbn; lia|discriminate].
Qed.

Lemma isspace_blank_app (ch w : string) :
  isspace ch = true -> is_blank (ch ++ w) = is_blank w.
Proof.
  destruct ch as [|a [|b [|c [|d ch]]]]; cbn [isspace]; try discriminate;
    intros H.
  - change (is_blank (String a w) = is_blank w). cbn [is_blank].
    now rewrite H.
  - change (is_blank (String a (String b w)) = is_blank w). cbn [is_blank].
    now rewrite (isspace2_not1 a b H), H.
  - change (is_blank (String a (String b (String c w))) = is_blank w).
    cbn [is_blank].
    now rewrite (isspace3_not1 a b c H), (isspace3_not2 a b c H), H.
Qed.

(** What [rstrip] drops is white space. *)
Lemma rstrip_split (s : string) :
  exists w, s = rstrip s ++ w /\ is_blank w = true.
Proof.
  induction s as [|a s (w & Hs & Hw)]; [now exists ""|].
  cbn [rstrip]. destruct (isspace (String a (rstrip s))) eqn:E.
  - exists (String a (rstrip s) ++ w). split.
    + change (String a s = String a (rstrip s ++ w)). now f_equal.
    + now rewrite isspace_blank_app.
  - exists w. split; [|exact Hw].
    change (String a s = String a (rstrip s ++ w)). now f_equal.
Qed.

Lemma rstrip_empty_blank (s : string) : rstrip s = "" -> is_blank s = true.
Proof.
  intros H. destruct (rstrip_split s) as (w & Hs & Hw).
  rewrite H in Hs. now subst.
Qed.

Lemma truthy_strip (line : string) :
  truthy (strip line) = negb (is_blank line).
Proof.
  unfold strip. destruct (is_blank line) eqn:B.
  - now rewrite blank_lstrip.
  - destruct (rstrip (lstrip line)) eqn:E; [|reflexivity].
    apply rstrip_empty_blank in E. rewrite lstrip_is_blank in E. congruence.
Qed.

Lemma startswith_marker (c : ascii) (r : string) :
  startswith (String c r) "#" = Ascii.eqb c "#".
Proof.
  unfold startswith. cbn [String.prefix].
  destruct (ascii_dec "#" c) as [<-|Hne].
  - rewrite Ascii.eqb_refl. now destruct r.
  - symmetry. apply Ascii.eqb_neq. congruence.
Qed.

Lemma is_comment_lstrip (s : string) :
  is_comment s = startswith (lstrip s) "#".
Proof.
  induction s as [s IH] using string_length_ind.
  destruct s as [|a r1]; [reflexivity|]. cbn [lstrip is_comment].
  destruct (isspace1 a); [apply IH; cbn; lia|].
  destruct r1 as [|b r2]; [now rewrite startswith_marker|].
  destruct (isspace2 a b); [apply IH; cbn; lia|].
  destruct r2 as [|c r3]; [now rewrite startswith_marker|].
  destruct (isspace3 a b c); [apply IH; cbn; lia|].
  now rewrite startswith_marker.
Qed.

Lemma isspace_marker (r : string) : isspace (String "#" r) = false.
Proof. destruct r as [|b [|c [|d r]]]; reflexivity. Qed.

Lemma startswith_rstrip (t : string) :
  startswith (rstrip t) "#" = startswith t "#".
Proof.
  destruct t as [|a r]; [reflexivity|]. cbn [rstrip].
  destruct (isspace (String a (rstrip r))) eqn:E.
  - rewrite startswith_marker.
    destruct (Ascii.eqb_spec a "#") as [->|]; [|reflexivity].
    rewrite isspace_marker in E. discriminate.
  - now rewrite !startswith_marker.
Qed.

Lemma comment_strip (line : string) :
  startswith (strip line) "#" = is_comment line.
Proof.
  unfold strip. now rewrite startswith_rstrip, is_comment_lstrip.
Qed.

Lemma extract_line_keep (base_url : string) (segments : list string) (line : string) :
  extract_line base_url segments line
  = if negb (is_blank line) && negb (is_comment line)
    then (segments ++ [locator base_url line])%list
    else segments.
Proof.
  unfold extract_line, locator.
  rewrite truthy_strip, comment_strip.
  destruct (negb (is_blank line) && negb (is_comment line)); [|reflexivity].
  destruct (startswith (strip line) "http"); reflexivity.
Qed.

Lemma extract_fold (base_url : string) (ls : list string) (acc : list string) :
  fold_left (extract_line base_url) ls acc
  = (acc ++ List.map (locator base_url)
       (List.filter (fun line => negb (is_blank line) && negb (is_comment line)) ls))%list.
Proof.
  revert acc. induction ls as [|l ls IH]; intros acc; simpl.
  - now rewrite app_nil_r.
  - rewrite IH, extract_line_keep.
    destruct (negb (is_blank l) && negb (is_comment l)); simpl.
    + now rewrite <- app_assoc.
    + reflexivity.
Qed.

Lemma lookup_map {A B} (g : A -> B) (l : list A) (k : nat) :
  List.map g l !! k = g <$> (l !! k).
Proof.
  revert k. induction l as [|x l IH]; intros [|k]; simpl; auto.
Qed.

(** The parser returns one locator for each segment line, in the order of
    the lines. *)
Lemma extract_segments_map (fs : disk) (m3u8_filename data : string) :
  files fs !! m3u8_filename = Some data ->
  valid_utf8 data = true ->
  extract_segments fs m3u8_filename
  = Ok (List.map (locator (dirname m3u8_filename))
          (segment_lines (universal_newlines data))).
Proof.
  intros Hf Hv. unfold extract_segments, open_text. rewrite Hf, Hv. simpl.
  now rewrite extract_fold.
Qed.

(** A manifest that does not decode makes the parser raise. *)
Lemma extract_segments_undecodable (fs : disk) (m3u8_filename data : string) :
  files fs !! m3u8_filename = Some data ->
  valid_utf8 data = false ->
  extract_segments fs m3u8_filename = Raise UnicodeDecodeError.
Proof.
  intros Hf Hv. unfold extract_segments, open_text. now rewrite Hf, Hv.
Qed.


(** C8, as amended. For every segment line of a manifest that is text
    (its bytes decode), the line without the white space around it is
    used as it is when it begins with the characters [http], and is
    otherwise joined to the manifest's directory by [os.path.join]. *)
Theorem extract_segments_resolution
    (fs : disk) (m3u8_filename data : string) :
  files fs !! m3u8_filename = Some data ->
  valid_utf8 data = true ->
  exists segments,
    extract_segments fs m3u8_filename = Ok segments
    /\ forall (k : nat) (line : string),
         segment_lines (universal_newlines data) !! k = Some line ->
         (startswith (strip line) "http" = true ->
          segments !! k = Some (strip line))
         /\ (startswith (strip line) "http" = false ->
             segments !! k
             = Some (path_join (dirname m3u8_filename) (strip line))).
Proof.
  intros Hf Hv. eexists. split; [apply (extract_segments_map _ _ _ Hf Hv)|].
  intros k line Hk. rewrite lookup_map, Hk. unfold locator. simpl.
  split; intros ->; reflexivity.
Qed.

(** C8, as stated, fails: an absolute URL whose scheme is not spelled
    with the lower-case letters [http] is joined to the manifest's
    directory, and a relative path that begins with [http] is not. *)
Lemma extract_segments_not_by_url_kind :
  let fs :=
    one_file "/v/index.m3u8"
      (lines ["HTTPS://cdn.example/seg0.ts"; "httpdocs/seg1.ts"]) in
  extract_segments fs "/v/index.m3u8"
  = Ok ["/v/HTTPS://cdn.example/seg0.ts"; "httpdocs/seg1.ts"]
  /\ List.map (locator_by_url_kind (dirname "/v/index.m3u8"))
       ["HTTPS://cdn.example/seg0.ts"; "httpdocs/seg1.ts"]
     = ["HTTPS://cdn.example/seg0.ts"; "/v/httpdocs/seg1.ts"]
  /\ extract_segments fs "/v/index.m3u8"
     <> Ok (List.map (locator_by_url_kind (dirname "/v/index.m3u8"))
              ["HTTPS://cdn.example/seg0.ts"; "httpdocs/seg1.ts"]).
Proof.
  repeat split; try (vm_compute; reflexivity). vm_compute. discriminate.
Qed.

(** ** The fetch worker *)

Lemma append_cons (x : ascii) (a b : string) :
  String x a ++ b = String x (a ++ b).
Proof. reflexivity. Qed.

Lemma append_assoc (a b c : string) : (a ++ b) ++ c = a ++ (b ++ c).
Proof.
  induction a as [|x a IH]; [reflexivity|].
  rewrite !append_cons. now f_equal.
Qed.

Lemma append_empty_r (a : string) : a ++ "" = a.
Proof.
  induction a as [|x a IH]; [reflexivity|].
  rewrite append_cons. now f_equal.
Qed.

Lemma concat_empty_cons (x : string) (l : list string) :
  String.concat "" (x :: l) = x ++ String.concat "" l.
Proof. destruct l; simpl; [now rewrite append_empty_r|reflexivity]. Qed.

(** The streaming loop appends the whole body to what the file holds. *)
Lemma write_chunks_fst (chunks : list string) (content : string) (n : nat) :
  fst (write_chunks chunks content n) = content ++ String.concat "" chunks.
Proof.
  unfold write_chunks. revert content n.
  induction chunks as [|x l IH]; intros content n.
  - simpl. now rewrite append_empty_r.
  - rewrite concat_empty_cons. cbn [fold_left fst snd].
    rewrite IH. apply append_assoc.
Qed.

Lemma md5_of_written (fs : disk) (path data : string) :
  calculate_file_md5 (write_file fs path data) path = Ok (MD5.hexdigest data).
Proof.
  unfold calculate_file_md5, write_file. simpl.
  now rewrite lookup_insert_eq.
Qed.

Lemma remove_written (fs : disk) (path data : string) :
  remove_file (write_file fs path data) path = remove_file fs path.
Proof.
  unfold remove_file, write_file. simpl. now rewrite delete_insert_eq.
Qed.

Lemma remove_absent (fs : disk) (path : string) :
  files fs !! path = None -> remove_file fs path = fs.
Proof.
  intros H. destruct fs as [f d]. unfold remove_file. simpl in *.
  now rewrite delete_id.
Qed.

(** The handler leaves no file at the path and returns [None]. *)
Lemma on_request_exception_removes (fs : disk) (path : string) :
  on_request_exception fs path = (remove_file fs path, Ok None).
Proof.
  unfold on_request_exception. destruct (files fs !! path) eqn:H.
  - reflexivity.
  - now rewrite remove_absent.
Qed.

(** A fetch touches no file but its own, and no document. *)
Lemma download_segment_frame (net : network) (fs : disk)
    (url path : string) (i n : nat) :
  let fs' := fst (download_segment net fs url path i n) in
  documents fs' = documents fs
  /\ forall p, p <> path -> files fs' !! p = files fs !! p.
Proof.
  assert (Hrm : forall fs0 : disk,
            documents (remove_file fs0 path) = documents fs0
            /\ forall p, p <> path ->
                 files (remove_file fs0 path) !! p = files fs0 !! p).
  { intros fs0. split; [reflexivity|]. intros p Hp. now apply lookup_delete_ne. }
  assert (Hwr : forall data,
            documents (write_file fs path data) = documents fs
            /\ forall p, p <> path ->
                 files (write_file fs path data) !! p = files fs !! p).
  { intros data. split; [reflexivity|]. intros p Hp. now apply lookup_insert_ne. }
  assert (Hst : forall data (b : bool),
            let fs' :=
              fst (if b
                   then (write_file fs path data,
                         try md5 := calculate_file_md5 (write_file fs path data) path in
                         Ok (Some md5))
                   else on_request_exception (write_file fs path data) path) in
            documents fs' = documents fs
            /\ forall p, p <> path -> files fs' !! p = files fs !! p).
  { intros data [|]; cbn zeta; [apply Hwr|].
    rewrite on_request_exception_removes, remove_written. apply Hrm. }
  unfold download_segment, raise_for_status.
  destruct (net url) as [|status cl chunks intact].
  - rewrite on_request_exception_removes. apply Hrm.
  - destruct (is_error_status status).
    + rewrite on_request_exception_removes. apply Hrm.
    + destruct (total_size_of cl) as [total|]; [|now split].
      destruct (files fs !! path) as [old|].
      * destruct (total <=? Z.of_nat (String.length old))%Z; [now split|].
        apply Hst.
      * apply Hst.
Qed.

(** A file shorter than the reported size is opened for appending and the
    body, which the server sends from its first byte, is written after
    it. *)
Lemma download_segment_appends (net : network) (fs : disk)
    (url path : string) (i n : nat) (status : Z) (cl : option string)
    (chunks : list string) (old : string) (total : Z) :
  net url = Response status cl chunks true ->
  is_error_status status = false ->
  total_size_of cl = Ok total ->
  files fs !! path = Some old ->
  (Z.of_nat (String.length old) < total)%Z ->
  download_segment net fs url path i n
  = (write_file fs path (old ++ String.concat "" chunks),
     Ok (Some (MD5.hexdigest (old ++ String.concat "" chunks)))).
Proof.
  intros Hnet Hst Hcl Hold Hlt. unfold download_segment, raise_for_status.
  rewrite Hnet, Hst, Hcl, Hold.
  destruct (Z.leb_spec total (Z.of_nat (String.length old))); [lia|].
  rewrite write_chunks_fst, md5_of_written. reflexivity.
Qed.

(** C1. When a partial file shorter than the reported size is there,
    [download_segment] opens it for appending but requests the resource
    from its first byte: with [AB] on disk and a resource [ABCD], the
    file afterwards is [ABABCD], not the resource. *)
Theorem download_segment_resume_repeats_prefix :
  let fs := one_file "/t/segment_00000.ts" "AB" in
  let net : network := fun _ => Response 200 (Some "4") ["AB"; "CD"] true in
  download_segment net fs "http://h/0.ts" "/t/segment_00000.ts" 1 1
  = (one_file "/t/segment_00000.ts" "ABABCD",
     Ok (Some "5806dc3ca1c0d6992c34b42b58118336"))
  /\ "ABABCD" <> String.concat "" ["AB"; "CD"].
Proof.
  split; [vm_compute; reflexivity|vm_compute; discriminate].
Qed.



(** C5. When the fetch fails at the network layer, [download_segment]
    returns [None] (it does not raise), no file is left at the target
    path, and nothing else on the disk changes. *)
Theorem download_segment_network_failure (net : network) (fs : disk)
    (url output_filename : string) (i n : nat) :
  network_failure fs output_filename (net url) = true ->
  exists fs',
    download_segment net fs url output_filename i n = (fs', Ok None)
    /\ files fs' !! output_filename = None
    /\ (forall p, p <> output_filename -> files fs' !! p = files fs !! p)
    /\ documents fs' = documents fs.
Proof.
  intros Hfail. exists (remove_file fs output_filename).
  split; [|split; [|split]].
  - unfold download_segment, raise_for_status.
    unfold network_failure in Hfail.
    destruct (net url) as [|status cl chunks intact].
    + apply on_request_exception_removes.
    + destruct (is_error_status status).
      * apply on_request_exception_removes.
      * cbn [orb] in Hfail. apply andb_prop in Hfail as [Hint Hlt].
        destruct intact; [discriminate|].
        destruct (total_size_of cl) as [total|]; [|discriminate].
        destruct (files fs !! output_filename) as [old|] eqn:Hold.
        -- apply Z.ltb_lt in Hlt.
           destruct (Z.leb_spec total (Z.of_nat (String.length old))); [lia|].
           now rewrite on_request_exception_removes, remove_written.
        -- now rewrite on_request_exception_removes, remove_written.
  - apply lookup_delete_eq.
  - intros p Hp. simpl. now apply lookup_delete_ne.
  - reflexivity.
Qed.

(** ** Sorting by index *)

Lemma insert_by_key_perm (x : nat * string) (l : list (nat * string)) :
  Permutation (insert_by_key x l) (x :: l).
Proof.
  induction l as [|y l IH]; simpl.
  - reflexivity.
  - destruct (fst x <=? fst y)%nat.
    + reflexivity.
    + rewrite IH. apply perm_swap.
Qed.

Lemma sorted_by_key_perm (l : list (nat * string)) :
  Permutation (sorted_by_key l) l.
Proof.
  induction l as [|x l IH]; simpl.
  - reflexivity.
  - rewrite insert_by_key_perm. now constructor.
Qed.

Lemma insert_by_key_sorted (x : nat * string) (l : list (nat * string)) :
  StronglySorted key_le l -> StronglySorted key_le (insert_by_key x l).
Proof.
  induction 1 as [|y l Hs IH Hall]; simpl.
  - repeat constructor.
  - destruct (Nat.leb_spec (fst x) (fst y)) as [Hle|Hgt].
    + constructor; [now constructor|].
      constructor; [exact Hle|].
      eapply Forall_impl; [exact Hall|].
      intros z Hz. unfold key_le in *. lia.
    + constructor; [exact IH|].
      rewrite insert_by_key_perm. constructor; [|exact Hall].
      unfold key_le. lia.
Qed.

Lemma sorted_by_key_sorted (l : list (nat * string)) :
  StronglySorted key_le (sorted_by_key l).
Proof.
  induction l as [|x l IH]; simpl.
  - constructor.
  - now apply insert_by_key_sorted.
Qed.

(** Sorted keys without a repetition increase strictly. *)
Lemma sorted_nodup_strict (l : list (nat * string)) :
  StronglySorted key_le l -> NoDup (fst <$> l) ->
  StronglySorted lt (fst <$> l).
Proof.
  induction 1 as [|x l Hs IH Hall]; simpl; intros Hnd.
  - constructor.
  - apply NoDup_cons in Hnd as [Hx Hnd].
    constructor; [now apply IH|].
    apply Forall_forall. intros j Hj.
    apply list_elem_of_fmap in Hj as (y & -> & Hy).
    rewrite Forall_forall in Hall. specialize (Hall y Hy).
    unfold key_le in Hall.
    assert (fst x <> fst y).
    { intros Heq. apply Hx. rewrite Heq.
      apply list_elem_of_fmap. eauto. }
    lia.
Qed.

(** ** The scheduler: which segments are skipped *)

Lemma already_downloaded_spec (fs : disk) (info : pyval) (output_dir : string)
    (i : nat) (b : bool) :
  already_downloaded fs info output_dir i = Ok b ->
  (b = true <-> is_already_done fs info output_dir i).
Proof.
  unfold already_downloaded, is_already_done.
  destruct info as [| |?|s|items|ledger]; cbn [py_contains bind];
    try discriminate.
  - destruct (is_substring (str i) s
              && bool_decide (is_Some (files fs !! segment_filename output_dir i)));
      cbn [py_getitem bind]; [discriminate|].
    intros [= <-]. split; [discriminate|]. intros (? & ? & ? & [=] & _).
  - destruct (existsb (fun x => py_eq_str x (str i)) items
              && bool_decide (is_Some (files fs !! segment_filename output_dir i)));
      cbn [py_getitem bind]; [discriminate|].
    intros [= <-]. split; [discriminate|]. intros (? & ? & ? & [=] & _).
  - destruct (ledger !! str i) as [e|] eqn:He.
    2:{ rewrite bool_decide_eq_false_2 by (intros [? [=]]).
        cbn. intros [= <-]. split; [discriminate|].
        intros (l & ? & ? & [= <-] & Hl & _). congruence. }
    rewrite bool_decide_eq_true_2 by eauto.
    destruct (files fs !! segment_filename output_dir i) as [data|] eqn:Hf.
    2:{ rewrite bool_decide_eq_false_2 by (intros [? [=]]).
        cbn. intros [= <-]. split; [discriminate|].
        intros (? & ? & ? & _ & _ & [=] & _). }
    rewrite bool_decide_eq_true_2 by eauto.
    cbn [andb py_getitem bind]. rewrite He. cbn [bind].
    unfold calculate_file_md5. rewrite Hf.
    destruct e as [| |?|?|?|entry]; cbn [py_getitem bind]; try discriminate.
    destruct (entry !! "md5") as [stored|] eqn:Hs; cbn [bind]; [|discriminate].
    intros [= <-]. split.
    + intros Heq. exists ledger, entry, data.
      repeat split; try assumption.
      destruct stored; try discriminate. simpl in Heq.
      apply String.eqb_eq in Heq. now subst.
    + intros (l & en & dat & [= <-] & Hl & [= <-] & Hm).
      rewrite He in Hl. injection Hl as <-. rewrite Hs in Hm.
      injection Hm as ->. simpl. apply String.eqb_refl.
Qed.

Lemma already_downloaded_total (fs : disk) (info : pyval) (output_dir : string)
    (i : nat) :
  well_formed_ledger info ->
  exists b, already_downloaded fs info output_dir i = Ok b.
Proof.
  unfold already_downloaded, well_formed_ledger.
  destruct info as [| |?|?|?|ledger]; try contradiction.
  intros Hwf. cbn [py_contains bind].
  destruct (ledger !! str i) as [e|] eqn:He.
  2:{ rewrite bool_decide_eq_false_2 by (intros [? [=]]). cbn. eauto. }
  rewrite bool_decide_eq_true_2 by eauto.
  destruct (files fs !! segment_filename output_dir i) as [data|] eqn:Hf.
  2:{ rewrite bool_decide_eq_false_2 by (intros [? [=]]). cbn. eauto. }
  rewrite bool_decide_eq_true_2 by eauto.
  cbn [andb py_getitem bind]. rewrite He. cbn [bind].
  specialize (Hwf _ _ He). cbn beta in Hwf.
  destruct e as [| |?|?|?|entry]; try discriminate.
  simpl in Hwf. apply bool_decide_eq_true_1 in Hwf as [stored Hs].
  cbn [py_getitem]. rewrite Hs. cbn [bind].
  unfold calculate_file_md5. rewrite Hf. cbn. eauto.
Qed.

Lemma dispatch_step_spec (fs : disk) (info : pyval) (output_dir : string)
    (st st' : dispatched) (i : nat) (seg : string) :
  dispatch_step fs info output_dir st i seg = Ok st' ->
  (is_already_done fs info output_dir i
   /\ st' = Dispatched
              (downloaded_segments st ++ [(i, segment_filename output_dir i)])
              (S (skipped_counter st)) (future_to_index st))
  \/ (~ is_already_done fs info output_dir i
      /\ st' = Dispatched (downloaded_segments st) (skipped_counter st)
                 (future_to_index st
                    ++ [Future i seg (segment_filename output_dir i)])).
Proof.
  unfold dispatch_step.
  destruct (already_downloaded fs info output_dir i) as [b|e] eqn:Hb;
    cbn [bind]; [|discriminate].
  apply already_downloaded_spec in Hb.
  destruct b; intros [= <-]; [left|right]; split; try reflexivity.
  - now apply Hb.
  - intros H. apply Hb in H. discriminate.
Qed.

(** What the first loop adds to its lists, from index [i] on. *)
Lemma dispatch_spec (fs : disk) (info : pyval) (output_dir : string)
    (segments : list string) :
  forall (i : nat) (st st' : dispatched),
    dispatch fs info output_dir i segments st = Ok st' ->
    exists (X : list (nat * string)) (Y : list future),
      downloaded_segments st' = (downloaded_segments st ++ X)%list
      /\ future_to_index st' = (future_to_index st ++ Y)%list
      /\ ((fst <$> X) ++ (fut_index <$> Y))%list ≡ₚ seq i (length segments)
      /\ Forall (fun x => is_already_done fs info output_dir (fst x)
                          /\ snd x = segment_filename output_dir (fst x)) X
      /\ Forall (fun f => ~ is_already_done fs info output_dir (fut_index f)
                          /\ fut_file f = segment_filename output_dir (fut_index f)
                          /\ exists k, fut_index f = i + k
                                       /\ segments !! k = Some (fut_url f)) Y.
Proof.
  induction segments as [|seg rest IH]; intros i st st' H.
  - injection H as <-. exists [], []. rewrite !app_nil_r. repeat split; constructor.
  - cbn [dispatch] in H.
    destruct (dispatch_step fs info output_dir st i seg) as [st1|] eqn:H1;
      cbn [bind] in H; [|discriminate].
    apply dispatch_step_spec in H1.
    destruct (IH _ _ _ H) as (X & Y & HX & HY & Hperm & HFX & HFY).
    assert (HFY' : Forall (fun f => ~ is_already_done fs info output_dir (fut_index f)
                          /\ fut_file f = segment_filename output_dir (fut_index f)
                          /\ exists k, fut_index f = i + k
                                       /\ (seg :: rest) !! k = Some (fut_url f)) Y).
    { eapply Forall_impl; [exact HFY|].
      intros f (Hn & Hfile & k & Hk & Hl). repeat split; try assumption.
      exists (S k). split; [lia|exact Hl]. }
    destruct H1 as [[Hdone ->]|[Hnot ->]]; cbn [downloaded_segments future_to_index] in *.
    + exists ((i, segment_filename output_dir i) :: X), Y.
      split; [rewrite HX, <- app_assoc; reflexivity|].
      split; [exact HY|].
      split; [cbn; now rewrite Hperm|].
      split; [constructor; [split; [exact Hdone|reflexivity]|exact HFX]|exact HFY'].
    + exists X, (Future i seg (segment_filename output_dir i) :: Y).
      split; [exact HX|].
      split; [rewrite HY, <- app_assoc; reflexivity|].
      split.
      { cbn. rewrite <- Permutation_middle. now rewrite Hperm. }
      split; [exact HFX|].
      constructor; [|exact HFY'].
      cbn. repeat split; try assumption.
      exists 0. split; [lia|reflexivity].
Qed.

Lemma dispatch_total (fs : disk) (info : pyval) (output_dir : string)
    (segments : list string) :
  well_formed_ledger info ->
  forall (i : nat) (st : dispatched),
    exists st', dispatch fs info output_dir i segments st = Ok st'.
Proof.
  intros Hwf. induction segments as [|seg rest IH]; intros i st.
  - eexists. reflexivity.
  - cbn [dispatch]. unfold dispatch_step.
    destruct (already_downloaded_total fs info output_dir i Hwf) as [b ->].
    cbn [bind]. destruct b; apply IH.
Qed.

(** C3. For every segment index [i] of the list, the first loop of the
    scheduler skips the fetch for [i], and lists [i] as downloaded, if and
    only if the ledger has an entry for [i], the segment file is on the
    disk, and the digest of the file is the stored one; otherwise it
    dispatches the fetch for [i]. *)
Theorem skip_iff_already_done (fs : disk) (info : pyval)
    (output_dir : string) (segments : list string) (d : dispatched)
    (i : nat) :
  dispatch fs info output_dir 0 segments (Dispatched [] 0 []) = Ok d ->
  i < length segments ->
  (~ dispatched_for d i <-> is_already_done fs info output_dir i)
  /\ ((i, segment_filename output_dir i) ∈ downloaded_segments d
      <-> is_already_done fs info output_dir i).
Proof.
  intros Hd Hi. unfold dispatched_for.
  destruct (dispatch_spec _ _ _ _ _ _ _ Hd) as (X & Y & HX & HY & Hperm & HFX & HFY).
  cbn in HX, HY. rewrite HX, HY.
  rewrite Forall_forall in HFX. rewrite Forall_forall in HFY.
  assert (Hin : i ∈ ((fst <$> X) ++ (fut_index <$> Y))%list).
  { rewrite Hperm. apply list_elem_of_In, in_seq. lia. }
  apply elem_of_app in Hin.
  assert (HY' : i ∈ (fut_index <$> Y) -> ~ is_already_done fs info output_dir i).
  { intros (f & -> & Hf)%list_elem_of_fmap. now apply HFY. }
  assert (HX' : i ∈ (fst <$> X) ->
                is_already_done fs info output_dir i
                /\ (i, segment_filename output_dir i) ∈ X).
  { intros ([j p] & -> & Hx)%list_elem_of_fmap.
    destruct (HFX _ Hx) as [Hdone Hp]. cbn in *. now subst p. }
  split; split.
  - intros Hno. destruct Hin as [Hin|Hin]; [now apply HX'|contradiction].
  - intros Hdone Hy. now apply HY'.
  - intros Hx. apply (HFX _ Hx).
  - intros Hdone. destruct Hin as [Hin|Hin]; [now apply HX'|].
    now apply HY' in Hin.
Qed.

(** ** The scheduler: the second loop *)

(** One pass of the second loop leaves the list and the ledger as they
    are, or appends the segment of the future, with or without its
    entry. *)
Lemma complete_step_cases (net : nat -> network) (segments : list string)
    (output_dir : string) (st : progress) (fut : future) :
  let st' := complete_step net segments output_dir st fut in
  (downloaded st' = downloaded st /\ segment_info st' = segment_info st)
  \/ (downloaded st'
      = (downloaded st ++ [completed_entry output_dir (fut_index fut)])%list
      /\ (segment_info st' = segment_info st
          \/ exists ledger url md5,
               segments !! fut_index fut = Some url
               /\ segment_info st = PyDict ledger
               /\ segment_info st'
                  = PyDict (<[str (fut_index fut) := ledger_entry url md5]> ledger))).
Proof.
  unfold complete_step.
  destruct (download_segment _ _ _ _ _ _) as [fs' [[md5|]|e]]; cbn;
    try (left; split; reflexivity).
  destruct (truthy md5); [|left; split; reflexivity].
  unfold record_segment.
  destruct (segments !! fut_index fut) as [url|] eqn:Hu;
    [|right; split; [reflexivity|left; reflexivity]].
  destruct (segment_info st) as [| |?|?|?|ledger] eqn:Hi; cbn;
    try (right; split; [reflexivity|left; reflexivity]).
  right. split; [reflexivity|]. right. exists ledger, url, md5. auto.
Qed.

(** What the second loop adds: the segments [L] it lists are among the
    futures, in their order; it only adds ledger keys, of listed indices;
    it leaves every other entry as it was. *)
Lemma complete_spec (net : nat -> network) (segments : list string)
    (output_dir : string) (futs : list future) :
  forall st : progress,
    let final := fold_left (complete_step net segments output_dir) futs st in
    exists L : list nat,
      downloaded final
      = (downloaded st ++ (completed_entry output_dir <$> L))%list
      /\ L `sublist_of` (fut_index <$> futs)
      /\ ledger_keys (segment_info st) ⊆ ledger_keys (segment_info final)
      /\ (forall k, k ∈ ledger_keys (segment_info final) ->
            k ∈ ledger_keys (segment_info st)
            \/ exists j, j ∈ L /\ j < length segments /\ k = str j)
      /\ (forall k, (forall j, j ∈ L -> j < length segments -> k <> str j) ->
            ledger_lookup (segment_info final) k
            = ledger_lookup (segment_info st) k).
Proof.
  induction futs as [|fut futs IH]; intros st; cbn [fold_left].
  - exists []. cbn. rewrite app_nil_r.
    repeat split; auto.
  - destruct (IH (complete_step net segments output_dir st fut))
      as (L & Hd & Hsub & Hkeys & Hnew & Hsame).
    destruct (complete_step_cases net segments output_dir st fut)
      as [[Hd1 Hi1]|[Hd1 Hi1]].
    + exists L. rewrite Hd, Hd1. rewrite Hi1 in Hkeys, Hnew, Hsame.
      repeat split; auto. cbn. now apply sublist_cons.
    + exists (fut_index fut :: L). rewrite Hd, Hd1, <- app_assoc.
      split; [reflexivity|].
      split; [cbn; now apply sublist_skip|].
      destruct Hi1 as [Hi1|(ledger & url & md5 & Hu & Hi0 & Hi1)].
      * rewrite Hi1 in Hkeys, Hnew, Hsame.
        split; [exact Hkeys|]. split.
        -- intros k Hk. destruct (Hnew k Hk) as [?|(j & Hj & ?)]; [now left|].
           right. exists j. split; [now right|assumption].
        -- intros k Hk. apply Hsame. intros j Hj. apply Hk. now right.
      * rewrite Hi1 in Hkeys, Hnew, Hsame. rewrite Hi0.
        cbn [ledger_keys ledger_lookup] in *.
        rewrite dom_insert_L in Hkeys, Hnew.
        split; [set_solver|]. split.
        -- intros k Hk. destruct (Hnew k Hk) as [Hin|(j & Hj & ?)].
           ++ apply elem_of_union in Hin as [Hin|Hin]; [|now left].
              apply elem_of_singleton in Hin. right.
              exists (fut_index fut). split; [now left|].
              split; [|exact Hin]. now apply lookup_lt_Some in Hu.
           ++ right. exists j. split; [now right|assumption].
        -- intros k Hk. rewrite Hsame by (intros j Hj; apply Hk; now right).
           apply lookup_insert_ne. intros Heq. apply (Hk (fut_index fut)).
           ++ now left.
           ++ now apply lookup_lt_Some in Hu.
           ++ now symmetry.
Qed.

(** The parts of a call that returns. *)
Lemma scheduler_returns (net : nat -> network)
    (as_completed : list future -> list future) (fs : disk)
    (segments : list string) (output_dir : string) (num_threads : Z)
    (fs' : disk) (out : list (nat * string)) :
  download_segments_in_parallel net as_completed fs segments output_dir
    num_threads = Ok (fs', out) ->
  exists info d,
    load_segment_info fs (segment_info_file output_dir) = Ok info
    /\ dispatch fs info output_dir 0 segments (Dispatched [] 0 []) = Ok d
    /\ let final :=
         fold_left (complete_step net segments output_dir)
           (as_completed (future_to_index d))
           (Progress fs (downloaded_segments d) info) in
       fs' = json_dump (on_disk final) (segment_info_file output_dir)
               (segment_info final)
       /\ out = sorted_by_key (downloaded final).
Proof.
  unfold download_segments_in_parallel. fold (segment_info_file output_dir).
  destruct (makedirs fs output_dir); cbn [bind]; [|discriminate].
  destruct (load_segment_info fs (segment_info_file output_dir))
    as [info|] eqn:Hload; cbn [bind]; [|discriminate].
  destruct (num_threads <=? 0)%Z; [discriminate|].
  destruct (dispatch fs info output_dir 0 segments (Dispatched [] 0 []))
    as [d|] eqn:Hd; cbn [bind]; [|discriminate].
  intros [= <- <-]. exists info, d.
  split; [reflexivity|]. split; [exact Hd|]. split; reflexivity.
Qed.

(** ** The scheduler: the order of the result *)

(** The indices of the list the second loop ends with: none twice, all of
    the list of locators. *)
Lemma completed_keys (net : nat -> network) (fs : disk) (info : pyval)
    (segments : list string) (output_dir : string) (d : dispatched)
    (futs : list future) :
  dispatch fs info output_dir 0 segments (Dispatched [] 0 []) = Ok d ->
  futs ≡ₚ future_to_index d ->
  let final :=
    fold_left (complete_step net segments output_dir) futs
      (Progress fs (downloaded_segments d) info) in
  NoDup (fst <$> downloaded final)
  /\ forall i, i ∈ (fst <$> downloaded final) -> i < length segments.
Proof.
  intros Hd Hperm.
  destruct (dispatch_spec _ _ _ _ _ _ _ Hd)
    as (X & Y & HX & HY & Hseq & _ & _).
  cbn in HX, HY.
  destruct (complete_spec net segments output_dir futs
              (Progress fs (downloaded_segments d) info))
    as (L & HL & Hsub & _).
  cbn [downloaded] in HL. cbn zeta.
  set (final := fold_left _ _ _) in *. clearbody final.
  assert (Hkeys : fst <$> downloaded final = ((fst <$> X) ++ L)%list).
  { rewrite HL, HX, fmap_app. f_equal.
    rewrite <- list_fmap_compose. clear. induction L; cbn; congruence. }
  assert (Hall : ((fst <$> X) ++ (fut_index <$> futs))%list
                 ≡ₚ seq 0 (length segments)).
  { now rewrite Hperm, HY. }
  assert (Hsubl : ((fst <$> X) ++ L)%list
                  `sublist_of` ((fst <$> X) ++ (fut_index <$> futs))%list).
  { now apply sublist_app. }
  rewrite Hkeys. split.
  - eapply sublist_NoDup; [|exact Hsubl].
    rewrite Hall. apply NoDup_ListNoDup, seq_NoDup.
  - intros i Hi. eapply elem_of_sublist in Hi; [|exact Hsubl].
    rewrite Hall in Hi. apply list_elem_of_In, in_seq in Hi. lia.
Qed.

(** C4. For every list of locators, and whatever the order in which the
    downloads complete, the list the scheduler returns is strictly
    increasing in the segment index (so no index occurs twice), and every
    index is one of the list of locators. *)
Theorem merge_input_strictly_sorted (net : nat -> network)
    (as_completed : list future -> list future) (fs : disk)
    (segments : list string) (output_dir : string) (num_threads : Z)
    (fs' : disk) (out : list (nat * string)) :
  (forall l, as_completed l ≡ₚ l) ->
  download_segments_in_parallel net as_completed fs segments output_dir
    num_threads = Ok (fs', out) ->
  StronglySorted lt (fst <$> out)
  /\ NoDup (fst <$> out)
  /\ forall i, i ∈ (fst <$> out) -> i < length segments.
Proof.
  intros Hperm Hrun.
  destruct (scheduler_returns _ _ _ _ _ _ _ _ Hrun)
    as (info & d & _ & Hd & _ & ->).
  destruct (completed_keys net fs info segments output_dir d
              (as_completed (future_to_index d)) Hd (Hperm _))
    as [Hnd Hrange].
  set (final := fold_left _ _ _) in *. clearbody final.
  assert (Hout : fst <$> sorted_by_key (downloaded final)
                 ≡ₚ fst <$> downloaded final).
  { apply fmap_Permutation, sorted_by_key_perm. }
  split; [|split].
  - apply sorted_nodup_strict; [apply sorted_by_key_sorted|].
    now rewrite Hout.
  - now rewrite Hout.
  - intros i Hi. rewrite Hout in Hi. now apply Hrange.
Qed.

(** ** The scheduler: the ledger *)

(** A call that returns has made its run directory. *)
Lemma scheduler_returns_dir (net : nat -> network)
    (as_completed : list future -> list future) (fs : disk)
    (segments : list string) (output_dir : string) (num_threads : Z)
    (r : disk * list (nat * string)) :
  download_segments_in_parallel net as_completed fs segments output_dir
    num_threads = Ok r ->
  makedirs fs output_dir = Ok tt.
Proof.
  unfold download_segments_in_parallel.
  destruct (makedirs fs output_dir) as [[]|]; [reflexivity|discriminate].
Qed.

(** When the run directory cannot be made, the call raises what
    [os.makedirs] raises, before it looks at the ledger. *)
Lemma scheduler_needs_directory (net : nat -> network)
    (as_completed : list future -> list future) (fs : disk)
    (segments : list string) (output_dir : string) (num_threads : Z)
    (e : exn) :
  makedirs fs output_dir = Raise e ->
  download_segments_in_parallel net as_completed fs segments output_dir
    num_threads = Raise e.
Proof.
  intros H. unfold download_segments_in_parallel. now rewrite H.
Qed.

(** What [os.makedirs] does depends on the files at the paths that are
    not longer than the path of the directory. *)
Lemma rstrip_by_length (f : ascii -> bool) (s : string) :
  String.length (rstrip_by f s) <= String.length s.
Proof.
  induction s as [|c s IH]; [reflexivity|]. cbn [rstrip_by].
  destruct (rstrip_by f s) as [|c' r].
  - destruct (f c); cbn; lia.
  - cbn in *. lia.
Qed.

Lemma parents_shorter (fuel : nat) (path a : string) :
  a ∈ parents fuel path -> String.length a < String.length path.
Proof.
  revert path. induction fuel as [|fuel IH]; intros path; cbn [parents].
  - now intros ?%elem_of_nil.
  - destruct (truthy (dirname path)); cbn [andb];
      [|now intros ?%elem_of_nil].
    destruct (Nat.ltb_spec (String.length (dirname path)) (String.length path))
      as [Hlt|Hge]; [|now intros ?%elem_of_nil].
    intros [->|Hin]%elem_of_cons; [exact Hlt|].
    specialize (IH _ Hin). lia.
Qed.

Lemma existsb_agree {A} (f g : A -> bool) (l : list A) :
  (forall a, a ∈ l -> f a = g a) -> existsb f l = existsb g l.
Proof.
  induction l as [|x l IH]; intros H; [reflexivity|]. cbn.
  rewrite (H x) by left. rewrite IH; [reflexivity|].
  intros a Ha. apply H. now right.
Qed.

Lemma makedirs_agree (fs fs' : disk) (path : string) :
  (forall p, String.length p <= String.length path ->
     files fs' !! p = files fs !! p) ->
  makedirs fs' path = makedirs fs path.
Proof.
  intros H. unfold makedirs.
  set (name := if all_sep path then path else rstrip_by is_sep path).
  assert (Hname : String.length name <= String.length path).
  { unfold name. destruct (all_sep path); [lia|apply rstrip_by_length]. }
  assert (Hfile : forall p, String.length p <= String.length name ->
                    isfile fs' p = isfile fs p).
  { intros p Hp. unfold isfile. rewrite H by lia. reflexivity. }
  rewrite (Hfile name) by lia.
  rewrite (existsb_agree (isfile fs') (isfile fs)); [reflexivity|].
  intros a Ha%parents_shorter. apply Hfile. lia.
Qed.

(** With a run directory that can be made, a ledger of the shape the
    scheduler writes, or none, and a positive number of threads, the
    scheduler returns. *)
Lemma scheduler_total (net : nat -> network)
    (as_completed : list future -> list future) (fs : disk)
    (segments : list string) (output_dir : string) (num_threads : Z)
    (info : pyval) :
  makedirs fs output_dir = Ok tt ->
  load_segment_info fs (segment_info_file output_dir) = Ok info ->
  well_formed_ledger info ->
  (0 < num_threads)%Z ->
  exists fs' out,
    download_segments_in_parallel net as_completed fs segments output_dir
      num_threads = Ok (fs', out).
Proof.
  intros Hdir Hload Hwf Hn. unfold download_segments_in_parallel.
  rewrite Hdir. cbn [bind].
  fold (segment_info_file output_dir). rewrite Hload. cbn [bind].
  destruct (Z.leb_spec num_threads 0); [lia|].
  destruct (dispatch_total fs info output_dir segments Hwf 0 (Dispatched [] 0 []))
    as [d ->].
  cbn [bind]. eauto.
Qed.

(** The ledger written at the end is the ledger of the second loop. *)
Lemma persisted_ledger (fs : disk) (path : string) (info : pyval) :
  documents (json_dump fs path info) !! path = Some (Decoded info).
Proof. unfold json_dump. cbn. apply lookup_insert_eq. Qed.

(** C7, as amended. The scheduler adds to the ledger only keys of indices
    of [[0, segment_count)] and removes none: at every point of the second
    loop, and in the document written at the end, a ledger key is a key of
    the document loaded or the key of such an index. So the keys stay
    within the range when those of the loaded document are. *)
Theorem ledger_keys_loaded_or_in_range (net : nat -> network)
    (as_completed : list future -> list future) (fs : disk)
    (segments : list string) (output_dir : string) (num_threads : Z)
    (fs' : disk) (out : list (nat * string)) :
  download_segments_in_parallel net as_completed fs segments output_dir
    num_threads = Ok (fs', out) ->
  exists info d info',
    load_segment_info fs (segment_info_file output_dir) = Ok info
    /\ dispatch fs info output_dir 0 segments (Dispatched [] 0 []) = Ok d
    /\ (forall done rest k,
          as_completed (future_to_index d) = (done ++ rest)%list ->
          k ∈ ledger_keys
                (segment_info
                   (fold_left (complete_step net segments output_dir) done
                      (Progress fs (downloaded_segments d) info))) ->
          k ∈ ledger_keys info \/ in_index_range (length segments) k)
    /\ documents fs' !! segment_info_file output_dir = Some (Decoded info')
    /\ (forall k, k ∈ ledger_keys info' ->
          k ∈ ledger_keys info \/ in_index_range (length segments) k)
    /\ ((forall k, k ∈ ledger_keys info ->
           in_index_range (length segments) k) ->
        forall k, k ∈ ledger_keys info' ->
          in_index_range (length segments) k).
Proof.
  intros Hrun.
  destruct (scheduler_returns _ _ _ _ _ _ _ _ Hrun)
    as (info & d & Hload & Hd & -> & _).
  assert (Hloop : forall futs k,
            k ∈ ledger_keys
                  (segment_info
                     (fold_left (complete_step net segments output_dir) futs
                        (Progress fs (downloaded_segments d) info))) ->
            k ∈ ledger_keys info \/ in_index_range (length segments) k).
  { intros futs k Hk.
    destruct (complete_spec net segments output_dir futs
                (Progress fs (downloaded_segments d) info))
      as (L & _ & _ & _ & Hnew & _).
    destruct (Hnew k Hk) as [?|(j & _ & Hj & ->)]; [now left|].
    right. exists j. auto. }
  eexists info, d, _. split; [exact Hload|]. split; [exact Hd|].
  split; [intros done rest k _; apply Hloop|].
  split; [apply persisted_ledger|].
  split; [apply Hloop|].
  intros Hin k Hk. destruct (Hloop _ k Hk) as [?|?]; auto.
Qed.

(** C10. The scheduler removes no ledger entry: every key of the document
    loaded is a key of the document written at the end; the entry of a key
    that stands for no index of the list of locators, and the entry of a
    segment that is not in the result (its download failed), are the ones
    loaded. *)
Theorem ledger_entries_kept (net : nat -> network)
    (as_completed : list future -> list future) (fs : disk)
    (segments : list string) (output_dir : string) (num_threads : Z)
    (fs' : disk) (out : list (nat * string)) :
  download_segments_in_parallel net as_completed fs segments output_dir
    num_threads = Ok (fs', out) ->
  exists info info',
    load_segment_info fs (segment_info_file output_dir) = Ok info
    /\ documents fs' !! segment_info_file output_dir = Some (Decoded info')
    /\ ledger_keys info ⊆ ledger_keys info'
    /\ (forall k, ~ in_index_range (length segments) k ->
          ledger_lookup info' k = ledger_lookup info k)
    /\ (forall i, i ∉ (fst <$> out) ->
          ledger_lookup info' (str i) = ledger_lookup info (str i)).
Proof.
  intros Hrun.
  destruct (scheduler_returns _ _ _ _ _ _ _ _ Hrun)
    as (info & d & Hload & Hd & -> & ->).
  destruct (complete_spec net segments output_dir
              (as_completed (future_to_index d))
              (Progress fs (downloaded_segments d) info))
    as (L & HL & _ & Hkeys & _ & Hsame).
  cbn [segment_info downloaded] in *.
  eexists info, _. split; [exact Hload|].
  split; [apply persisted_ledger|].
  split; [exact Hkeys|]. split.
  - intros k Hk. apply Hsame. intros j _ Hj ->. apply Hk. exists j. auto.
  - intros i Hi. apply Hsame. intros j Hj _ Heq.
    apply (inj pretty) in Heq. subst j. apply Hi.
    rewrite (fmap_Permutation fst _ _ (sorted_by_key_perm _)).
    rewrite HL, fmap_app. apply elem_of_app. right.
    apply list_elem_of_fmap. exists (completed_entry output_dir i).
    split; [reflexivity|]. apply list_elem_of_fmap. eauto.
Qed.

(** C6, as amended. With a run directory that can be made (its path is
    not empty and no file stands in its way) and a positive number of
    threads: when the run directory has no ledger document the scheduler
    starts from the empty ledger and returns; when the document is there
    and cannot be decoded, the scheduler raises the decoder's error. *)
Theorem ledger_absent_or_undecodable (net : nat -> network)
    (as_completed : list future -> list future) (fs : disk)
    (segments : list string) (output_dir : string) (num_threads : Z) :
  makedirs fs output_dir = Ok tt ->
  (0 < num_threads)%Z ->
  match documents fs !! segment_info_file output_dir with
  | None =>
      load_segment_info fs (segment_info_file output_dir) = Ok (PyDict ∅)
      /\ exists fs' out,
           download_segments_in_parallel net as_completed fs segments
             output_dir num_threads = Ok (fs', out)
  | Some Undecodable =>
      download_segments_in_parallel net as_completed fs segments output_dir
        num_threads = Raise JSONDecodeError
  | Some (Decoded _) => True
  end.
Proof.
  intros Hdir Hn.
  destruct (documents fs !! segment_info_file output_dir) as [[|v]|] eqn:Hdoc.
  - unfold download_segments_in_parallel, load_segment_info.
    rewrite Hdir. cbn [bind].
    fold (segment_info_file output_dir). now rewrite Hdoc.
  - exact I.
  - assert (Hload : load_segment_info fs (segment_info_file output_dir)
                    = Ok (PyDict ∅)).
    { unfold load_segment_info. now rewrite Hdoc. }
    split; [exact Hload|].
    eapply scheduler_total; [exact Hdir|exact Hload| |exact Hn].
    cbn. apply map_Forall_empty.
Qed.

(** ** Segment files are distinct *)

Lemma length_append (a b : string) :
  String.length (a ++ b) = String.length a + String.length b.
Proof.
  induction a as [|x a IH]; [reflexivity|].
  rewrite append_cons. cbn [String.length]. now rewrite IH.
Qed.

Lemma append_inj_r (a b t : string) : a ++ t = b ++ t -> a = b.
Proof.
  revert b. induction a as [|x a IH]; intros [|y b] H.
  - reflexivity.
  - apply (f_equal String.length) in H.
    change ("" ++ t) with t in H.
    rewrite append_cons in H. cbn [String.length] in H.
    rewrite length_append in H. lia.
  - apply (f_equal String.length) in H.
    change ("" ++ t) with t in H.
    rewrite append_cons in H. cbn [String.length] in H.
    rewrite length_append in H. lia.
  - rewrite !append_cons in H. injection H as -> H. f_equal. now apply IH.
Qed.

Lemma decimal_value_app (acc : N) (a b : string) :
  decimal_value acc (a ++ b) = decimal_value (decimal_value acc a) b.
Proof.
  revert acc. induction a as [|x a IH]; intros acc; [reflexivity|].
  rewrite append_cons. cbn [decimal_value]. apply IH.
Qed.

Lemma pretty_N_char_value (d : N) :
  (d < 10)%N -> (N.of_nat (nat_of_ascii (pretty_N_char d)) - 48)%N = d.
Proof.
  intros Hd.
  assert (d = 0 \/ d = 1 \/ d = 2 \/ d = 3 \/ d = 4 \/ d = 5 \/ d = 6
          \/ d = 7 \/ d = 8 \/ d = 9)%N as H by lia.
  repeat (destruct H as [->|H]; [reflexivity|]). now subst.
Qed.

(** The digits [pretty_N_go] puts in front stand for the number. *)
Lemma pretty_N_go_digits (x : N) :
  exists t,
    (forall s, pretty_N_go x s = t ++ s)
    /\ forall acc,
         decimal_value acc t
         = (acc * 10 ^ N.of_nat (String.length t) + x)%N.
Proof.
  induction (N.lt_wf_0 x) as [x _ IH].
  destruct (N.eq_0_gt_0_cases x) as [->|Hpos].
  - exists "". split; [reflexivity|]. intros acc. cbn. lia.
  - destruct (IH (x `div` 10)%N) as (t & Happ & Hval).
    { apply N.div_lt; lia. }
    exists (t ++ String (pretty_N_char (x `mod` 10)) "").
    split.
    + intros s. rewrite pretty_N_go_step by exact Hpos.
      now rewrite Happ, append_assoc.
    + intros acc. rewrite decimal_value_app, Hval. cbn [decimal_value].
      rewrite pretty_N_char_value by (apply N.mod_lt; lia).
      rewrite length_append. cbn [String.length].
      replace (N.of_nat (String.length t + 1))
        with (N.succ (N.of_nat (String.length t))) by lia.
      rewrite N.pow_succ_r'.
      pose proof (N.div_mod x 10). lia.
Qed.

Lemma str_value (i : nat) : decimal_value 0 (str i) = N.of_nat i.
Proof.
  unfold str, pretty, pretty_nat, pretty, pretty_N.
  case_decide as H0; [now rewrite H0|].
  destruct (pretty_N_go_digits (N.of_nat i)) as (t & Happ & Hval).
  rewrite Happ, append_empty_r, Hval. lia.
Qed.

Lemma zeros_value (k : nat) (s : string) :
  decimal_value 0 (String.concat "" (repeat "0" k) ++ s) = decimal_value 0 s.
Proof.
  induction k as [|k IH]; [reflexivity|].
  cbn [repeat]. rewrite concat_empty_cons, append_assoc.
  exact IH.
Qed.

Lemma fmt_05d_inj (i j : nat) : fmt_05d i = fmt_05d j -> i = j.
Proof.
  intros H. apply (f_equal (decimal_value 0)) in H.
  unfold fmt_05d in H. rewrite !zeros_value, !str_value in H. lia.
Qed.

Lemma segment_name_relative (x : string) :
  startswith ("segment_" ++ x) "/" = false.
Proof. reflexivity. Qed.

(** The path of a segment file is longer than the path of its
    directory. *)
Lemma segment_filename_longer (output_dir : string) (i : nat) :
  String.length output_dir < String.length (segment_filename output_dir i).
Proof.
  unfold segment_filename, path_join. rewrite segment_name_relative.
  destruct (negb (truthy output_dir) || endswith_char output_dir sep);
    rewrite !length_append; cbn [String.length]; lia.
Qed.

Lemma segment_filename_inj (output_dir : string) (i j : nat) :
  segment_filename output_dir i = segment_filename output_dir j -> i = j.
Proof.
  unfold segment_filename, path_join. rewrite !segment_name_relative.
  intros H. apply fmt_05d_inj, (append_inj_r _ _ ".ts").
  destruct (negb (truthy output_dir) || endswith_char output_dir sep).
  - now apply String.app_inj, String.app_inj in H.
  - now apply String.app_inj, String.app_inj, String.app_inj in H.
Qed.

(** ** The order of completion does not matter *)

Lemma complete_step_parts (net : nat -> network) (segments : list string)
    (output_dir : string) (st : progress) (fut : future) :
  complete_step net segments output_dir st fut
  = Progress (fst (fetch net segments (on_disk st) fut))
      (downloaded st
         ++ step_added output_dir fut (snd (fetch net segments (on_disk st) fut)))
      (step_info segments fut (snd (fetch net segments (on_disk st) fut))
         (segment_info st)).
Proof.
  unfold complete_step, fetch, step_added, step_info, step_result.
  destruct (download_segment _ _ _ _ _ _) as [fs' [[md5|]|e]];
    cbn [fst snd]; rewrite ?app_nil_r; try (now destruct st).
  destruct (truthy md5); rewrite ?app_nil_r; [|now destruct st].
  now destruct (record_segment _ _ _ _).
Qed.

(** The outcome of a fetch, and its file afterwards, depend on the disk
    through that file only. *)
Lemma download_segment_local (net : network) (fs1 fs2 : disk)
    (url path : string) (i n : nat) :
  files fs1 !! path = files fs2 !! path ->
  snd (download_segment net fs1 url path i n)
  = snd (download_segment net fs2 url path i n)
  /\ files (fst (download_segment net fs1 url path i n)) !! path
     = files (fst (download_segment net fs2 url path i n)) !! path.
Proof.
  intros H.
  assert (Hrm : forall fsa fsb : disk,
            snd (on_request_exception fsa path)
            = snd (on_request_exception fsb path)
            /\ files (fst (on_request_exception fsa path)) !! path
               = files (fst (on_request_exception fsb path)) !! path).
  { intros fsa fsb. rewrite !on_request_exception_removes. cbn.
    now rewrite !lookup_delete_eq. }
  unfold download_segment.
  destruct (net url) as [|status cl chunks intact]; [apply Hrm|].
  destruct (raise_for_status status); [|apply Hrm].
  destruct (total_size_of cl) as [total|]; [|now split].
  assert (Hst : forall data,
            snd (if intact
                 then (write_file fs1 path data,
                       try md5 := calculate_file_md5 (write_file fs1 path data) path in
                       Ok (Some md5))
                 else on_request_exception (write_file fs1 path data) path)
            = snd (if intact
                   then (write_file fs2 path data,
                         try md5 := calculate_file_md5 (write_file fs2 path data) path in
                         Ok (Some md5))
                   else on_request_exception (write_file fs2 path data) path)
            /\ files (fst (if intact
                 then (write_file fs1 path data,
                       try md5 := calculate_file_md5 (write_file fs1 path data) path in
                       Ok (Some md5))
                 else on_request_exception (write_file fs1 path data) path)) !! path
            = files (fst (if intact
                   then (write_file fs2 path data,
                         try md5 := calculate_file_md5 (write_file fs2 path data) path in
                         Ok (Some md5))
                   else on_request_exception (write_file fs2 path data) path)) !! path).
  { intros data. destruct intact; [|apply Hrm].
    rewrite !md5_of_written. cbn. now rewrite !lookup_insert_eq. }
  rewrite <- H.
  destruct (files fs1 !! path) as [old|] eqn:Hold.
  - destruct (total <=? Z.of_nat (String.length old))%Z; [|apply Hst].
    unfold calculate_file_md5. cbn. now rewrite <- H, Hold.
  - apply Hst.
Qed.

Lemma disk_eq (fs1 fs2 : disk) :
  documents fs1 = documents fs2 ->
  (forall p, files fs1 !! p = files fs2 !! p) ->
  fs1 = fs2.
Proof.
  destruct fs1, fs2. cbn. intros -> H. f_equal. now apply map_eq.
Qed.

Lemma step_info_comm (segments : list string) (f1 f2 : future)
    (o1 o2 : result (option string)) (info : pyval) :
  fut_index f1 <> fut_index f2 ->
  step_info segments f2 o2 (step_info segments f1 o1 info)
  = step_info segments f1 o1 (step_info segments f2 o2 info).
Proof.
  intros Hne. unfold step_info, record_segment.
  destruct (step_result o1) as [m1|], (step_result o2) as [m2|];
    try reflexivity.
  destruct (segments !! fut_index f1) as [u1|],
           (segments !! fut_index f2) as [u2|];
    destruct info; cbn; try reflexivity.
  f_equal. apply insert_insert_ne. intros Heq.
  apply (inj pretty) in Heq. congruence.
Qed.

#[local] Instance same_run_equivalence : Equivalence same_run.
Proof.
  split.
  - intros st. repeat split; reflexivity.
  - intros st st' (? & ? & ?). repeat split; now symmetry.
  - intros a b c (? & ? & ?) (? & ? & ?).
    repeat split; etransitivity; eassumption.
Qed.

Lemma step_same_run (net : nat -> network) (segments : list string)
    (output_dir : string) (st st' : progress) (fut : future) :
  same_run st st' ->
  same_run (complete_step net segments output_dir st fut)
           (complete_step net segments output_dir st' fut).
Proof.
  intros (Hd & Hi & Hl). rewrite !complete_step_parts, Hd, Hi.
  repeat split; cbn; try reflexivity. now apply Permutation_app_tail.
Qed.

Lemma fold_same_run (net : nat -> network) (segments : list string)
    (output_dir : string) (futs : list future) :
  forall st st',
    same_run st st' ->
    same_run (fold_left (complete_step net segments output_dir) futs st)
             (fold_left (complete_step net segments output_dir) futs st').
Proof.
  induction futs as [|fut futs IH]; intros st st' H; cbn [fold_left].
  - exact H.
  - now apply IH, step_same_run.
Qed.

(** Two futures for different segments, with different files, can finish
    in either order. *)
Lemma step_swap (net : nat -> network) (segments : list string)
    (output_dir : string) (st : progress) (f1 f2 : future) :
  fut_index f1 <> fut_index f2 ->
  fut_file f1 <> fut_file f2 ->
  same_run
    (complete_step net segments output_dir
       (complete_step net segments output_dir st f1) f2)
    (complete_step net segments output_dir
       (complete_step net segments output_dir st f2) f1).
Proof.
  intros Hidx Hfile. rewrite !complete_step_parts.
  cbn [on_disk downloaded segment_info].
  set (fs := on_disk st).
  destruct (download_segment_frame (net (fut_index f1)) fs (fut_url f1)
              (fut_file f1) (S (fut_index f1)) (length segments))
    as [Hdoc1 Hfr1].
  destruct (download_segment_frame (net (fut_index f2)) fs (fut_url f2)
              (fut_file f2) (S (fut_index f2)) (length segments))
    as [Hdoc2 Hfr2].
  fold (fetch net segments fs f1) in Hdoc1, Hfr1.
  fold (fetch net segments fs f2) in Hdoc2, Hfr2.
  set (r1 := fetch net segments fs f1) in *.
  set (r2 := fetch net segments fs f2) in *.
  destruct (download_segment_frame (net (fut_index f2)) (fst r1) (fut_url f2)
              (fut_file f2) (S (fut_index f2)) (length segments))
    as [Hdoc12 Hfr12].
  destruct (download_segment_frame (net (fut_index f1)) (fst r2) (fut_url f1)
              (fut_file f1) (S (fut_index f1)) (length segments))
    as [Hdoc21 Hfr21].
  fold (fetch net segments (fst r1) f2) in Hdoc12, Hfr12.
  fold (fetch net segments (fst r2) f1) in Hdoc21, Hfr21.
  destruct (download_segment_local (net (fut_index f2)) (fst r1) fs
              (fut_url f2) (fut_file f2) (S (fut_index f2)) (length segments))
    as [Ho12 Hl12]; [now apply Hfr1, not_eq_sym|].
  destruct (download_segment_local (net (fut_index f1)) (fst r2) fs
              (fut_url f1) (fut_file f1) (S (fut_index f1)) (length segments))
    as [Ho21 Hl21]; [now apply Hfr2|].
  fold (fetch net segments (fst r1) f2) in Ho12, Hl12.
  fold (fetch net segments (fst r2) f1) in Ho21, Hl21.
  fold (fetch net segments fs f2) in Ho12, Hl12.
  fold (fetch net segments fs f1) in Ho21, Hl21.
  fold r1 in Ho21, Hl21. fold r2 in Ho12, Hl12.
  set (r12 := fetch net segments (fst r1) f2) in *.
  set (r21 := fetch net segments (fst r2) f1) in *.
  rewrite Ho12, Ho21.
  split; [|split]; cbn [on_disk downloaded segment_info].
  - apply disk_eq; [congruence|]. intros p.
    destruct (decide (p = fut_file f2)) as [->|Hp2].
    + rewrite Hl12. symmetry. now apply Hfr21, not_eq_sym.
    + rewrite Hfr12 by exact Hp2.
      destruct (decide (p = fut_file f1)) as [->|Hp1].
      * now rewrite Hl21.
      * rewrite Hfr21, Hfr1, Hfr2 by assumption. reflexivity.
  - now apply step_info_comm.
  - rewrite <- !app_assoc. apply Permutation_app_head, Permutation_app_comm.
Qed.

(** The second loop over a permutation of distinct futures ends in the same
    state, the order of the list aside. *)
Lemma complete_permutation (net : nat -> network) (segments : list string)
    (output_dir : string) (l l' : list future) :
  l ≡ₚ l' ->
  NoDup (fut_index <$> l) ->
  NoDup (fut_file <$> l) ->
  forall st st',
    same_run st st' ->
    same_run (fold_left (complete_step net segments output_dir) l st)
             (fold_left (complete_step net segments output_dir) l' st').
Proof.
  induction 1 as [|x l l' Hp IH|x y l|l l' l'' Hp1 IH1 Hp2 IH2];
    intros Hni Hnf st st' Hst.
  - exact Hst.
  - cbn [fold_left]. cbn in Hni, Hnf.
    apply NoDup_cons in Hni as [_ Hni]. apply NoDup_cons in Hnf as [_ Hnf].
    apply IH; [assumption..|]. now apply step_same_run.
  - cbn [fold_left]. cbn in Hni, Hnf.
    apply NoDup_cons in Hni as [Hi _]. apply NoDup_cons in Hnf as [Hf _].
    apply fold_same_run.
    etransitivity; [apply step_swap|].
    + intros Heq. apply Hi. rewrite Heq. now left.
    + intros Heq. apply Hf. rewrite Heq. now left.
    + now apply step_same_run, step_same_run.
  - etransitivity; [apply IH1; eassumption|].
    apply IH2; [now rewrite <- Hp1..|reflexivity].
Qed.

(** A list sorted by key, with no key twice, is the only one among its
    permutations. *)
Lemma sorted_unique (l1 : list (nat * string)) :
  forall l2,
    StronglySorted key_le l1 -> StronglySorted key_le l2 ->
    l1 ≡ₚ l2 -> NoDup (fst <$> l1) -> l1 = l2.
Proof.
  induction l1 as [|x t1 IH]; intros l2 Hs1 Hs2 Hp Hnd.
  - symmetry. now apply Permutation_nil.
  - destruct l2 as [|y t2].
    { symmetry in Hp. now apply Permutation_nil_cons in Hp. }
    apply StronglySorted_inv in Hs1 as [Hs1 Hx].
    apply StronglySorted_inv in Hs2 as [Hs2 Hy].
    rewrite Forall_forall in Hx. rewrite Forall_forall in Hy.
    cbn in Hnd. apply NoDup_cons in Hnd as [Hfresh Hnd].
    assert (Hyin : y ∈ x :: t1) by (rewrite Hp; now left).
    assert (Hxin : x ∈ y :: t2) by (rewrite <- Hp; now left).
    assert (Hxy : x = y).
    { apply elem_of_cons in Hyin as [->|Hyin]; [reflexivity|].
      apply elem_of_cons in Hxin as [->|Hxin]; [reflexivity|].
      exfalso. apply Hfresh.
      pose proof (Hx y Hyin) as H1. pose proof (Hy x Hxin) as H2.
      unfold key_le in *.
      replace (fst x) with (fst y) by lia.
      apply list_elem_of_fmap. eauto. }
    subst y. f_equal. apply IH; try assumption.
    now apply Permutation_cons_inv in Hp.
Qed.

Lemma sorted_by_key_unique (l l' : list (nat * string)) :
  l ≡ₚ l' -> NoDup (fst <$> l) -> sorted_by_key l = sorted_by_key l'.
Proof.
  intros Hp Hnd. apply sorted_unique; try apply sorted_by_key_sorted.
  - now rewrite !sorted_by_key_perm.
  - now rewrite sorted_by_key_perm.
Qed.

(** The futures of the first loop are for different segments and write
    to different files. *)
Lemma dispatched_distinct (fs : disk) (info : pyval) (output_dir : string)
    (segments : list string) (d : dispatched) :
  dispatch fs info output_dir 0 segments (Dispatched [] 0 []) = Ok d ->
  NoDup (fut_index <$> future_to_index d)
  /\ NoDup (fut_file <$> future_to_index d).
Proof.
  intros Hd.
  destruct (dispatch_spec _ _ _ _ _ _ _ Hd)
    as (X & Y & _ & HY & Hseq & _ & HFY).
  cbn in HY. rewrite HY.
  assert (Hnd : NoDup (fut_index <$> Y)).
  { assert (H : NoDup ((fst <$> X) ++ (fut_index <$> Y))%list).
    { rewrite Hseq. apply NoDup_ListNoDup, seq_NoDup. }
    now apply NoDup_app in H as (_ & _ & H). }
  split; [exact Hnd|].
  assert (Hfiles : fut_file <$> Y
                   = segment_filename output_dir <$> (fut_index <$> Y)).
  { rewrite <- list_fmap_compose. apply Forall_fmap_ext_1.
    eapply Forall_impl; [exact HFY|]. now intros f (_ & Hf & _). }
  rewrite Hfiles. apply NoDup_fmap_2; [|exact Hnd].
  intros i j. apply segment_filename_inj.
Qed.

(** Whatever the order in which the downloads complete, the scheduler
    leaves the same disk and returns the same list. *)
Lemma completion_order_irrelevant (net : nat -> network)
    (as_completed as_completed' : list future -> list future) (fs : disk)
    (segments : list string) (output_dir : string) (num_threads : Z) :
  (forall l, as_completed l ≡ₚ l) ->
  (forall l, as_completed' l ≡ₚ l) ->
  download_segments_in_parallel net as_completed fs segments output_dir
    num_threads
  = download_segments_in_parallel net as_completed' fs segments output_dir
      num_threads.
Proof.
  intros Hp Hp'. unfold download_segments_in_parallel.
  destruct (makedirs fs output_dir); cbn [bind]; [|reflexivity].
  destruct (load_segment_info fs (path_join output_dir "segment_info.json"))
    as [info|]; cbn [bind]; [|reflexivity].
  destruct (num_threads <=? 0)%Z; [reflexivity|].
  destruct (dispatch fs info output_dir 0 segments (Dispatched [] 0 []))
    as [d|] eqn:Hd; cbn [bind]; [|reflexivity].
  destruct (dispatched_distinct _ _ _ _ _ Hd) as [Hni Hnf].
  destruct (complete_permutation net segments output_dir
              (as_completed (future_to_index d))
              (as_completed' (future_to_index d)))
    with (st := Progress fs (downloaded_segments d) info)
         (st' := Progress fs (downloaded_segments d) info)
    as (Hdisk & Hinfo & Hlist).
  { now rewrite Hp, Hp'. }
  { now rewrite Hp. }
  { now rewrite Hp. }
  { reflexivity. }
  destruct (completed_keys net fs info segments output_dir d
              (as_completed (future_to_index d)) Hd (Hp _)) as [Hnd _].
  rewrite Hdisk, Hinfo. do 2 f_equal.
  now apply sorted_by_key_unique.
Qed.

(** ** The theorems at work *)


Lemma extract_segments_resolution_witness :
  exists segments,
    extract_segments demo_manifest "/v/index.m3u8" = Ok segments
    /\ forall (k : nat) (line : string),
         segment_lines
           (universal_newlines
              (lines ["#EXTM3U"; "seg0.ts"; ""; "  sub/seg1.ts ";
                      "https://cdn/seg2.ts"])) !! k = Some line ->
         (startswith (strip line) "http" = true ->
          segments !! k = Some (strip line))
         /\ (startswith (strip line) "http" = false ->
             segments !! k
             = Some (path_join (dirname "/v/index.m3u8") (strip line))).
Proof.
  apply (extract_segments_resolution demo_manifest "/v/index.m3u8").
  - vm_compute. reflexivity.
  - vm_compute. reflexivity.
Defined.


Lemma download_segment_network_failure_witness :
  let net : network := fun _ => Response 200 (Some "8") ["AB"; "CD"] false in
  exists fs',
    download_segment net demo_disk "http://cdn.example/a/0.ts"
      "/t/segment_00000.ts" 1 3 = (fs', Ok None)
    /\ files fs' !! "/t/segment_00000.ts" = None
    /\ (forall p, p <> "/t/segment_00000.ts" ->
          files fs' !! p = files demo_disk !! p)
    /\ documents fs' = documents demo_disk.
Proof.
  intros net.
  apply (download_segment_network_failure net demo_disk
           "http://cdn.example/a/0.ts" "/t/segment_00000.ts" 1 3).
  vm_compute. reflexivity.
Defined.

Lemma skip_iff_already_done_witness :
  exists d,
    dispatch demo_disk demo_ledger "/t" 0 demo_segments (Dispatched [] 0 [])
    = Ok d
    /\ (~ dispatched_for d 0 <-> is_already_done demo_disk demo_ledger "/t" 0)
    /\ ((0, segment_filename "/t" 0) ∈ downloaded_segments d
        <-> is_already_done demo_disk demo_ledger "/t" 0).
Proof.
  eexists. split; [vm_compute; reflexivity|].
  apply (skip_iff_already_done demo_disk demo_ledger "/t" demo_segments).
  - vm_compute. reflexivity.
  - vm_compute. lia.
Defined.

Lemma merge_input_strictly_sorted_witness :
  exists fs' out,
    download_segments_in_parallel demo_net (@rev future) demo_disk
      demo_segments "/t" 8 = Ok (fs', out)
    /\ StronglySorted lt (fst <$> out)
    /\ NoDup (fst <$> out)
    /\ forall i, i ∈ (fst <$> out) -> i < length demo_segments.
Proof.
  eexists _, _. split; [vm_compute; reflexivity|].
  eapply (merge_input_strictly_sorted demo_net (@rev future) demo_disk
            demo_segments "/t" 8).
  - intros l. symmetry. apply Permutation_rev.
  - vm_compute. reflexivity.
Defined.

Lemma ledger_absent_or_undecodable_witness :
  download_segments_in_parallel demo_net (@rev future) damaged_disk
    demo_segments "/t" 8 = Raise JSONDecodeError
  /\ (load_segment_info (Disk (files demo_disk) ∅) (segment_info_file "/t")
      = Ok (PyDict ∅)
      /\ exists fs' out,
           download_segments_in_parallel demo_net (@rev future)
             (Disk (files demo_disk) ∅) demo_segments "/t" 8 = Ok (fs', out)).
Proof.
  split.
  - apply (ledger_absent_or_undecodable demo_net (@rev future) damaged_disk
             demo_segments "/t" 8).
    + reflexivity.
    + lia.
  - assert (Hn : (0 < 8)%Z) by lia.
    pose proof (ledger_absent_or_undecodable demo_net (@rev future)
                  (Disk (files demo_disk) ∅) demo_segments "/t" 8
                  eq_refl Hn) as H.
    cbn [documents] in H. rewrite lookup_empty in H. exact H.
Defined.

(** C6, as stated, fails: with a ledger document that does not decode the
    scheduler raises, where the same run directory without the document
    is served. *)
Lemma undecodable_ledger_aborts_the_run :
  download_segments_in_parallel demo_net (@rev future) damaged_disk
    demo_segments "/t" 8 = Raise JSONDecodeError
  /\ exists fs' out,
       download_segments_in_parallel demo_net (@rev future)
         (Disk (files damaged_disk) ∅) demo_segments "/t" 8 = Ok (fs', out).
Proof.
  split; [vm_compute; reflexivity|].
  eexists _, _. vm_compute. reflexivity.
Qed.

Lemma ledger_keys_loaded_or_in_range_witness :
  exists fs' out info d info',
    download_segments_in_parallel demo_net (@rev future) demo_disk
      demo_segments "/t" 8 = Ok (fs', out)
    /\ load_segment_info demo_disk (segment_info_file "/t") = Ok info
    /\ dispatch demo_disk info "/t" 0 demo_segments (Dispatched [] 0 []) = Ok d
    /\ (forall done rest k,
          rev (future_to_index d) = (done ++ rest)%list ->
          k ∈ ledger_keys
                (segment_info
                   (fold_left (complete_step demo_net demo_segments "/t") done
                      (Progress demo_disk (downloaded_segments d) info))) ->
          k ∈ ledger_keys info \/ in_index_range (length demo_segments) k)
    /\ documents fs' !! segment_info_file "/t" = Some (Decoded info')
    /\ (forall k, k ∈ ledger_keys info' ->
          k ∈ ledger_keys info \/ in_index_range (length demo_segments) k)
    /\ ((forall k, k ∈ ledger_keys info ->
           in_index_range (length demo_segments) k) ->
        forall k, k ∈ ledger_keys info' ->
          in_index_range (length demo_segments) k).
Proof.
  eexists _, _.
  assert (Hrun : download_segments_in_parallel demo_net (@rev future)
                   demo_disk demo_segments "/t" 8 = Ok _)
    by (vm_compute; reflexivity).
  destruct (ledger_keys_loaded_or_in_range _ _ _ _ _ _ _ _ Hrun)
    as (info & d & info' & H).
  exists info, d, info'. split; [exact Hrun|exact H].
Defined.

(** C7, as stated, fails: key [7] of the ledger loaded stands for no index
    of a list of three locators, and is in the ledger written at the
    end. *)
Lemma ledger_key_out_of_range_persists :
  exists fs' out info',
    download_segments_in_parallel demo_net (@rev future) demo_disk
      demo_segments "/t" 8 = Ok (fs', out)
    /\ documents fs' !! segment_info_file "/t" = Some (Decoded info')
    /\ "7" ∈ ledger_keys info'
    /\ ~ in_index_range (length demo_segments) "7".
Proof.
  eexists _, _, _. split; [vm_compute; reflexivity|].
  split; [vm_compute; reflexivity|]. split.
  - cbn [ledger_keys]. apply elem_of_dom. eexists. vm_compute. reflexivity.
  - intros (i & Hi & Heq). cbn in Hi.
    destruct i as [|[|[|i]]]; try (vm_compute in Heq; discriminate). lia.
Qed.

Lemma ledger_entries_kept_witness :
  exists fs' out info info',
    download_segments_in_parallel demo_net (@rev future) demo_disk
      demo_segments "/t" 8 = Ok (fs', out)
    /\ load_segment_info demo_disk (segment_info_file "/t") = Ok info
    /\ documents fs' !! segment_info_file "/t" = Some (Decoded info')
    /\ ledger_keys info ⊆ ledger_keys info'
    /\ (forall k, ~ in_index_range (length demo_segments) k ->
          ledger_lookup info' k = ledger_lookup info k)
    /\ (forall i, i ∉ (fst <$> out) ->
          ledger_lookup info' (str i) = ledger_lookup info (str i)).
Proof.
  eexists _, _.
  assert (Hrun : download_segments_in_parallel demo_net (@rev future)
                   demo_disk demo_segments "/t" 8 = Ok _)
    by (vm_compute; reflexivity).
  destruct (ledger_entries_kept _ _ _ _ _ _ _ _ Hrun) as (info & info' & H).
  exists info, info'. split; [exact Hrun|exact H].
Defined.

(** * Further properties *)

(** ** [calculate_file_md5] *)

Lemma take_drop_str (n : nat) (s : string) : take_str n s ++ drop_str n s = s.
Proof.
  revert s. induction n as [|n IH]; intros [|c s]; try reflexivity.
  cbn [take_str drop_str]. rewrite append_cons. now f_equal.
Qed.

Lemma drop_str_length (n : nat) (s : string) :
  String.length (drop_str n s) = String.length s - n.
Proof.
  revert s. induction n as [|n IH]; intros [|c s]; cbn; auto. 
Qed.

Lemma take_str_empty (n : nat) (s : string) :
  take_str n s = EmptyString -> n = 0 \/ s = EmptyString.
Proof. destruct n, s; cbn; auto. discriminate. Qed.

Lemma fold_md5_update (blocks : list string) (fed : string) :
  fold_left md5_update blocks fed = fed ++ String.concat "" blocks.
Proof.
  revert fed. induction blocks as [|b l IH]; intros fed.
  - cbn. now rewrite append_empty_r.
  - cbn [fold_left]. rewrite IH, concat_empty_cons. unfold md5_update.
    apply append_assoc.
Qed.

(** Reading in blocks of a positive size loses nothing of the data. *)
Lemma read_blocks_concat (size : nat) :
  0 < size ->
  forall (fuel : nat) (data : string),
    String.length data < fuel ->
    String.concat "" (read_blocks fuel size data) = data.
Proof.
  intros Hsize. induction fuel as [|fuel IH]; intros data Hlen; [lia|].
  cbn [read_blocks].
  destruct (take_str size data) as [|c block] eqn:Htake.
  - apply take_str_empty in Htake as [->| ->]; [lia|reflexivity].
  - rewrite concat_empty_cons, IH.
    + rewrite <- Htake. apply take_drop_str.
    + rewrite drop_str_length.
      destruct data as [|c' data']; [destruct size; discriminate|].
      cbn [String.length] in *. lia.
Qed.

(** X1. [calculate_file_md5] reads the file in blocks of 4096 bytes until a
    read returns nothing; whatever the size of the file (empty, a multiple
    of the block size or not), the digest it returns is the digest of the
    whole file. *)
Theorem calculate_file_md5_whole_file (fs : disk) (filename : string) :
  calculate_file_md5_blocks fs filename = calculate_file_md5 fs filename.
Proof.
  unfold calculate_file_md5_blocks, calculate_file_md5.
  destruct (files fs !! filename) as [data|]; [|reflexivity].
  rewrite fold_md5_update, read_blocks_concat by lia.
  reflexivity.
Qed.

Lemma le_bytes_spec (n : nat) (x : Z) :
  length (MD5.le_bytes n x) = n
  /\ Forall (fun b => (0 <= b < 256)%Z) (MD5.le_bytes n x).
Proof.
  revert x. induction n as [|n IH]; intros x; cbn.
  - split; [reflexivity|constructor].
  - destruct (IH (x / 256)%Z) as [Hl Hf]. split; [now rewrite Hl|].
    constructor; [apply Z.mod_pos_bound; lia|exact Hf].
Qed.

Lemma digest_bytes_spec (msg : list Z) :
  length (MD5.digest_bytes msg) = 16
  /\ Forall (fun b => (0 <= b < 256)%Z) (MD5.digest_bytes msg).
Proof.
  unfold MD5.digest_bytes.
  destruct (fold_left MD5.process_block _ _) as [a b c d].
  rewrite !length_app, !Forall_app.
  destruct (le_bytes_spec 4 a) as [-> ?], (le_bytes_spec 4 b) as [-> ?],
    (le_bytes_spec 4 c) as [-> ?], (le_bytes_spec 4 d) as [-> ?].
  auto.
Qed.

Lemma hex_digit_lower (n : Z) :
  (0 <= n < 16)%Z -> is_lower_hex (MD5.hex_digit n) = true.
Proof.
  intros Hn. rewrite <- (Z2Nat.id n) by lia.
  assert (Hk : Z.to_nat n < 16) by lia. revert Hk.
  generalize (Z.to_nat n) as k. intros k Hk.
  do 16 (destruct k as [|k]; [reflexivity|]). lia.
Qed.

Lemma hex_spec (bs : list Z) :
  Forall (fun b => (0 <= b < 256)%Z) bs ->
  String.length (MD5.hex bs) = 2 * length bs
  /\ Forall (fun c => is_lower_hex c = true)
       (list_ascii_of_string (MD5.hex bs)).
Proof.
  induction 1 as [|b bs Hb _ [IHl IHf]]; cbn [MD5.hex].
  - split; [reflexivity|constructor].
  - split; [cbn [String.length length]; lia|].
    cbn [list_ascii_of_string].
    constructor; [apply hex_digit_lower|constructor; [apply hex_digit_lower|exact IHf]].
    + split; [apply Z.div_pos; lia|apply Z.div_lt_upper_bound; lia].
    + apply Z.mod_pos_bound. lia.
Qed.

(** A digest is not the empty string. *)
Lemma hexdigest_truthy (data : string) : truthy (MD5.hexdigest data) = true.
Proof.
  unfold MD5.hexdigest.
  destruct (digest_bytes_spec (MD5.bytes_of_string data)) as [Hl _].
  destruct (MD5.digest_bytes _); [discriminate|reflexivity].
Qed.

(** X2. For every file that is there, [calculate_file_md5] returns a
    string of 32 lower-case hexadecimal digits; in particular the string
    is not empty, so the test [if md5:] of the scheduler never drops a
    download that returned a digest. *)
Theorem calculate_file_md5_shape (fs : disk) (filename data : string) :
  files fs !! filename = Some data ->
  exists md5,
    calculate_file_md5 fs filename = Ok md5
    /\ String.length md5 = 32
    /\ Forall (fun c => is_lower_hex c = true) (list_ascii_of_string md5)
    /\ truthy md5 = true.
Proof.
  intros Hf. unfold calculate_file_md5. rewrite Hf. eexists.
  split; [reflexivity|].
  destruct (digest_bytes_spec (MD5.bytes_of_string data)) as [Hl Hb].
  destruct (hex_spec _ Hb) as [Hlen Hhex].
  unfold MD5.hexdigest. rewrite Hlen, Hl.
  split; [reflexivity|]. split; [exact Hhex|apply hexdigest_truthy].
Qed.

Lemma calculate_file_md5_shape_witness :
  exists md5,
    calculate_file_md5 demo_disk "/t/segment_00000.ts" = Ok md5
    /\ String.length md5 = 32
    /\ Forall (fun c => is_lower_hex c = true) (list_ascii_of_string md5)
    /\ truthy md5 = true.
Proof.
  apply (calculate_file_md5_shape demo_disk "/t/segment_00000.ts" "ABCD").
  vm_compute. reflexivity.
Defined.

(** ** [download_segment] *)

Lemma int_of_str_raises (s : string) (e : exn) :
  int_of_str s = Raise e -> e = ValueError.
Proof.
  unfold int_of_str.
  destruct (rstrip_by isspace_int (lstrip_by isspace_int s)) as [|c t].
  - cbn. now intros [= <-].
  - destruct (Ascii.eqb c "-") eqn:Hm.
    + apply Ascii.eqb_eq in Hm as ->.
      destruct (int_digits 0 false t); cbn; [discriminate|now intros [= <-]].
    + destruct (Ascii.eqb c "+") eqn:Hp.
      * apply Ascii.eqb_eq in Hp as ->.
        destruct (int_digits 0 false t); [discriminate|now intros [= <-]].
      * assert (Hgen : (let unsigned (t0 : string) : result Z :=
                          match int_digits 0 false t0 with
                          | Some z => Ok z
                          | None => Raise ValueError
                          end in unsigned (String c t)) = Raise e ->
                       e = ValueError).
        { cbv zeta beta. destruct (int_digits 0 false (String c t));
            [discriminate|now intros [= <-]]. }
        intros H. apply Hgen. rewrite <- H.
        destruct c as [[] [] [] [] [] [] [] []]; try reflexivity;
          cbn in Hm, Hp; congruence.
Qed.

Lemma total_size_raises (cl : option string) (e : exn) :
  total_size_of cl = Raise e -> e = ValueError.
Proof. destruct cl; [apply int_of_str_raises|discriminate]. Qed.

(** What a call of [download_segment] leaves and returns, case by case. *)
Lemma download_segment_outcome (net : network) (fs : disk)
    (url path : string) (i n : nat) :
  match snd (download_segment net fs url path i n) with
  | Ok (Some md5) =>
      exists data,
        files (fst (download_segment net fs url path i n)) !! path = Some data
        /\ md5 = MD5.hexdigest data
  | Ok None =>
      files (fst (download_segment net fs url path i n)) !! path = None
  | Raise e =>
      e = ValueError /\ fst (download_segment net fs url path i n) = fs
  end.
Proof.
  assert (Hrm : forall fs0 : disk,
            files (fst (on_request_exception fs0 path)) !! path = None
            /\ snd (on_request_exception fs0 path) = Ok None).
  { intros fs0. rewrite on_request_exception_removes. cbn.
    now rewrite lookup_delete_eq. }
  assert (Hst : forall (data : string) (b : bool),
            match
              snd (if b
                   then (write_file fs path data,
                         try md5 := calculate_file_md5 (write_file fs path data) path in
                         Ok (Some md5))
                   else on_request_exception (write_file fs path data) path)
            with
            | Ok (Some md5) =>
                exists data0,
                  files
                    (fst (if b
                          then (write_file fs path data,
                                try md5 := calculate_file_md5 (write_file fs path data) path in
                                Ok (Some md5))
                          else on_request_exception (write_file fs path data) path))
                  !! path = Some data0
                  /\ md5 = MD5.hexdigest data0
            | Ok None =>
                files
                  (fst (if b
                        then (write_file fs path data,
                              try md5 := calculate_file_md5 (write_file fs path data) path in
                              Ok (Some md5))
                        else on_request_exception (write_file fs path data) path))
                !! path = None
            | Raise e =>
                e = ValueError
                /\ fst (if b
                        then (write_file fs path data,
                              try md5 := calculate_file_md5 (write_file fs path data) path in
                              Ok (Some md5))
                        else on_request_exception (write_file fs path data) path)
                   = fs
            end).
  { intros data [|].
    - rewrite md5_of_written. cbn. exists data.
      now rewrite lookup_insert_eq.
    - destruct (Hrm (write_file fs path data)) as [H1 H2].
      now rewrite H2. }
  unfold download_segment.
  destruct (net url) as [|status cl chunks intact].
  { destruct (Hrm fs) as [H1 H2]. now rewrite H2. }
  destruct (raise_for_status status).
  2:{ destruct (Hrm fs) as [H1 H2]. now rewrite H2. }
  destruct (total_size_of cl) as [total|e] eqn:Hcl.
  2:{ cbn. split; [now apply total_size_raises in Hcl|reflexivity]. }
  destruct (files fs !! path) as [old|] eqn:Hold; [|apply Hst].
  destruct (total <=? Z.of_nat (String.length old))%Z; [|apply Hst].
  unfold calculate_file_md5. rewrite Hold. cbn. eauto.
Qed.

(** X3. Whatever the network does, a call of [download_segment] ends in
    one of three ways: it returns a digest, and that is the digest of the
    file it leaves at the target path; it returns [None], and no file is
    left at the target path; or it raises, the exception is the
    [ValueError] of a [content-length] header that is not a number, and the
    disk is as it was. *)
Theorem download_segment_result_matches_disk (net : network) (fs : disk)
    (url path : string) (i n : nat) (fs' : disk)
    (r : result (option string)) :
  download_segment net fs url path i n = (fs', r) ->
  match r with
  | Ok (Some md5) =>
      exists data, files fs' !! path = Some data /\ md5 = MD5.hexdigest data
  | Ok None => files fs' !! path = None
  | Raise e => e = ValueError /\ fs' = fs
  end.
Proof.
  intros H. pose proof (download_segment_outcome net fs url path i n) as Hout.
  rewrite H in Hout. exact Hout.
Qed.

Lemma download_segment_result_matches_disk_witness :
  exists data,
    files (one_file "/t/segment_00000.ts" "ABCD") !! "/t/segment_00000.ts"
    = Some data
    /\ "cb08ca4a7bb5f9683c19133a84872ca7" = MD5.hexdigest data.
Proof.
  apply (download_segment_result_matches_disk (serves ["AB"; "CD"]) (Disk ∅ ∅)
           "http://h/0.ts" "/t/segment_00000.ts" 1 1
           (one_file "/t/segment_00000.ts" "ABCD")
           (Ok (Some "cb08ca4a7bb5f9683c19133a84872ca7"))).
  vm_compute. reflexivity.
Defined.

(** X4. When the response has no error status and its [content-length] is
    a number, a file at the target path that is at least that long is taken
    to be the segment: the body is not read, the disk is left as it is
    (whatever the file holds), and the digest of the file is returned. *)
Theorem download_segment_keeps_complete_file (net : network) (fs : disk)
    (url path : string) (i n : nat) (status : Z) (cl : option string)
    (chunks : list string) (intact : bool) (total : Z) (old : string) :
  net url = Response status cl chunks intact ->
  is_error_status status = false ->
  total_size_of cl = Ok total ->
  files fs !! path = Some old ->
  (total <= Z.of_nat (String.length old))%Z ->
  download_segment net fs url path i n
  = (fs, Ok (Some (MD5.hexdigest old))).
Proof.
  intros Hnet Hst Hcl Hold Hle. unfold download_segment, raise_for_status.
  rewrite Hnet, Hst, Hcl, Hold.
  destruct (Z.leb_spec total (Z.of_nat (String.length old))); [|lia].
  unfold calculate_file_md5. now rewrite Hold.
Qed.

Lemma download_segment_keeps_complete_file_witness :
  let net : network := fun _ => Response 200 (Some "3") ["xyz"] false in
  download_segment net demo_disk "http://cdn.example/a/0.ts"
    "/t/segment_00000.ts" 1 3
  = (demo_disk, Ok (Some (MD5.hexdigest "ABCD"))).
Proof.
  intros net.
  apply (download_segment_keeps_complete_file net demo_disk
           "http://cdn.example/a/0.ts" "/t/segment_00000.ts" 1 3 200
           (Some "3") ["xyz"] false 3 "ABCD").
  - reflexivity.
  - reflexivity.
  - reflexivity.
  - vm_compute. reflexivity.
  - vm_compute. discriminate.
Defined.

(** X5. When there is no file at the target path, the response has no error
    status, its [content-length] (if any) is a number and the stream ends
    normally, the file written is the body: the pieces in the order they
    came, however the body was cut into pieces, and whatever size the
    header announced. The digest returned is the digest of the body. *)
Theorem download_segment_fresh (net : network) (fs : disk)
    (url path : string) (i n : nat) (status : Z) (cl : option string)
    (chunks : list string) (total : Z) :
  net url = Response status cl chunks true ->
  is_error_status status = false ->
  total_size_of cl = Ok total ->
  files fs !! path = None ->
  download_segment net fs url path i n
  = (write_file fs path (String.concat "" chunks),
     Ok (Some (MD5.hexdigest (String.concat "" chunks)))).
Proof.
  intros Hnet Hst Hcl Hnone. unfold download_segment, raise_for_status.
  rewrite Hnet, Hst, Hcl, Hnone.
  now rewrite write_chunks_fst, md5_of_written.
Qed.

Lemma download_segment_fresh_witness :
  let net : network := fun _ => Response 200 (Some "99") ["AB"; ""; "CD"] true in
  download_segment net (Disk ∅ ∅) "http://cdn.example/a/0.ts"
    "/t/segment_00000.ts" 1 3
  = (write_file (Disk ∅ ∅) "/t/segment_00000.ts"
       (String.concat "" ["AB"; ""; "CD"]),
     Ok (Some (MD5.hexdigest (String.concat "" ["AB"; ""; "CD"])))).
Proof.
  intros net.
  apply (download_segment_fresh net (Disk ∅ ∅) "http://cdn.example/a/0.ts"
           "/t/segment_00000.ts" 1 3 200 (Some "99") ["AB"; ""; "CD"] 99).
  - reflexivity.
  - reflexivity.
  - reflexivity.
  - vm_compute. reflexivity.
Defined.

(** X6. A [content-length] header that is not a number is not handled:
    when the status is no error status, [int] raises [ValueError], the
    exception leaves [download_segment] (the handler is for
    [RequestException] only), and nothing on the disk is touched: a file at
    the target path stays. *)
Theorem download_segment_bad_length (net : network) (fs : disk)
    (url path : string) (i n : nat) (status : Z) (h : string)
    (chunks : list string) (intact : bool) (e : exn) :
  net url = Response status (Some h) chunks intact ->
  is_error_status status = false ->
  int_of_str h = Raise e ->
  download_segment net fs url path i n = (fs, Raise ValueError).
Proof.
  intros Hnet Hst Hh. unfold download_segment, raise_for_status.
  rewrite Hnet, Hst. cbn [total_size_of]. rewrite Hh.
  now rewrite (int_of_str_raises _ _ Hh).
Qed.

Lemma download_segment_bad_length_witness :
  let net : network := fun _ => Response 200 (Some "4 bytes") ["ABCD"] true in
  download_segment net demo_disk "http://cdn.example/a/0.ts"
    "/t/segment_00000.ts" 1 3 = (demo_disk, Raise ValueError).
Proof.
  intros net.
  apply (download_segment_bad_length net demo_disk "http://cdn.example/a/0.ts"
           "/t/segment_00000.ts" 1 3 200 "4 bytes" ["ABCD"] true ValueError).
  - reflexivity.
  - reflexivity.
  - vm_compute. reflexivity.
Defined.

(** X7. A call of [download_segment] changes nothing but the file at its
    target path: every other file and every document is as before; and what
    it returns, and the file it leaves, are the same on any two disks that
    agree on that one file. *)
Theorem download_segment_own_file_only (net : network) (fs fs2 : disk)
    (url path : string) (i n : nat) :
  files fs !! path = files fs2 !! path ->
  documents (fst (download_segment net fs url path i n)) = documents fs
  /\ (forall p, p <> path ->
        files (fst (download_segment net fs url path i n)) !! p
        = files fs !! p)
  /\ snd (download_segment net fs url path i n)
     = snd (download_segment net fs2 url path i n)
  /\ files (fst (download_segment net fs url path i n)) !! path
     = files (fst (download_segment net fs2 url path i n)) !! path.
Proof.
  intros H.
  destruct (download_segment_frame net fs url path i n) as [Hd Hf].
  destruct (download_segment_local net fs fs2 url path i n H) as [Hs Hp].
  auto.
Qed.

Lemma download_segment_own_file_only_witness :
  let fs2 := write_file demo_disk "/t/other.bin" "zz" in
  documents (fst (download_segment (demo_net 2) demo_disk "u"
                    "/t/segment_00002.ts" 3 3)) = documents demo_disk
  /\ (forall p, p <> "/t/segment_00002.ts" ->
        files (fst (download_segment (demo_net 2) demo_disk "u"
                      "/t/segment_00002.ts" 3 3)) !! p
        = files demo_disk !! p)
  /\ snd (download_segment (demo_net 2) demo_disk "u" "/t/segment_00002.ts" 3 3)
     = snd (download_segment (demo_net 2) fs2 "u" "/t/segment_00002.ts" 3 3)
  /\ files (fst (download_segment (demo_net 2) demo_disk "u"
                   "/t/segment_00002.ts" 3 3)) !! "/t/segment_00002.ts"
     = files (fst (download_segment (demo_net 2) fs2 "u"
                     "/t/segment_00002.ts" 3 3)) !! "/t/segment_00002.ts".
Proof.
  intros fs2.
  apply (download_segment_own_file_only (demo_net 2) demo_disk fs2 "u"
           "/t/segment_00002.ts" 3 3).
  vm_compute. reflexivity.
Defined.

(** ** [download_segments_in_parallel]: each download on its own *)

(** The second loop over futures with different files: every download goes
    as it would on the disk [fs0] the loop started from, as far as the
    files of the futures go. *)
Lemma complete_fold_independent (net : nat -> network)
    (segments : list string) (output_dir : string) (fs0 : disk)
    (futs : list future) :
  NoDup (fut_file <$> futs) ->
  forall st : progress,
    (forall f, f ∈ futs ->
       files (on_disk st) !! fut_file f = files fs0 !! fut_file f) ->
    let final := fold_left (complete_step net segments output_dir) futs st in
    downloaded final
    = (downloaded st
       ++ (futs ≫= fun f =>
             step_added output_dir f (snd (fetch net segments fs0 f))))%list
    /\ segment_info final
       = fold_left
           (fun info f =>
              step_info segments f (snd (fetch net segments fs0 f)) info)
           futs (segment_info st)
    /\ documents (on_disk final) = documents (on_disk st)
    /\ (forall f, f ∈ futs ->
          files (on_disk final) !! fut_file f
          = files (fst (fetch net segments fs0 f)) !! fut_file f)
    /\ (forall p, p ∉ (fut_file <$> futs) ->
          files (on_disk final) !! p = files (on_disk st) !! p).
Proof.
  induction futs as [|f futs IH]; intros Hnd st Hagree; cbn [fold_left].
  - cbn. rewrite app_nil_r. repeat split; try reflexivity.
    intros f Hf. now apply elem_of_nil in Hf.
  - cbn in Hnd. apply NoDup_cons in Hnd as [Hfresh Hnd].
    destruct (download_segment_frame (net (fut_index f)) (on_disk st)
                (fut_url f) (fut_file f) (S (fut_index f)) (length segments))
      as [Hdoc Hfr].
    destruct (download_segment_local (net (fut_index f)) (on_disk st) fs0
                (fut_url f) (fut_file f) (S (fut_index f)) (length segments))
      as [Hsnd Hown]; [apply Hagree; now left|].
    fold (fetch net segments (on_disk st) f) in Hdoc, Hfr, Hsnd, Hown.
    fold (fetch net segments fs0 f) in Hsnd, Hown.
    specialize (IH Hnd (complete_step net segments output_dir st f)).
    rewrite complete_step_parts in IH |- *.
    cbn [on_disk downloaded segment_info] in IH.
    destruct IH as (Hd & Hi & Hdocs & Hfiles & Hrest).
    { intros f' Hf'. rewrite Hfr.
      - apply Hagree. now right.
      - intros Heq. apply Hfresh. rewrite <- Heq.
        apply list_elem_of_fmap. eauto. }
    split; [|split; [|split; [|split]]].
    + rewrite Hd, Hsnd, <- app_assoc. reflexivity.
    + rewrite Hi, Hsnd. reflexivity.
    + now rewrite Hdocs.
    + intros f' [->|Hf']%elem_of_cons.
      * now rewrite Hrest, Hown.
      * now apply Hfiles.
    + intros p Hp. cbn in Hp. apply not_elem_of_cons in Hp as [Hne Hp].
      rewrite Hrest by exact Hp. now apply Hfr.
Qed.

(** A run that returns, taken apart: the segments [X] the first loop
    skipped, the futures [Z] in the order they completed, and what the
    second loop made of them. *)
Lemma scheduler_anatomy (net : nat -> network)
    (as_completed : list future -> list future) (fs : disk)
    (segments : list string) (output_dir : string) (num_threads : Z)
    (fs' : disk) (out : list (nat * string)) :
  (forall l, as_completed l ≡ₚ l) ->
  download_segments_in_parallel net as_completed fs segments output_dir
    num_threads = Ok (fs', out) ->
  exists (info : pyval) (X : list (nat * string)) (Z : list future),
    load_segment_info fs (segment_info_file output_dir) = Ok info
    /\ ((fst <$> X) ++ (fut_index <$> Z))%list ≡ₚ seq 0 (length segments)
    /\ Forall (fun x => is_already_done fs info output_dir (fst x)
                        /\ snd x = segment_filename output_dir (fst x)) X
    /\ Forall (fun f => ~ is_already_done fs info output_dir (fut_index f)
                        /\ fut_file f = segment_filename output_dir (fut_index f)
                        /\ segments !! fut_index f = Some (fut_url f)) Z
    /\ out = sorted_by_key
               (X ++ (Z ≫= fun f =>
                        step_added output_dir f (snd (fetch net segments fs f))))
    /\ documents fs'
       = <[segment_info_file output_dir :=
             Decoded
               (fold_left
                  (fun info f =>
                     step_info segments f (snd (fetch net segments fs f)) info)
                  Z info)]> (documents fs)
    /\ (forall f, f ∈ Z ->
          files fs' !! fut_file f
          = files (fst (fetch net segments fs f)) !! fut_file f)
    /\ (forall p, p ∉ (fut_file <$> Z) -> files fs' !! p = files fs !! p).
Proof.
  intros Hperm Hrun.
  destruct (scheduler_returns _ _ _ _ _ _ _ _ Hrun)
    as (info & d & Hload & Hd & -> & ->).
  destruct (dispatch_spec _ _ _ _ _ _ _ Hd)
    as (X & Y & HX & HY & Hseq & HFX & HFY).
  cbn in HX, HY.
  destruct (dispatched_distinct _ _ _ _ _ Hd) as [_ Hnf].
  set (Z := as_completed (future_to_index d)).
  assert (HZ : Z ≡ₚ Y) by (unfold Z; now rewrite Hperm, HY).
  destruct (complete_fold_independent net segments output_dir fs Z)
    with (st := Progress fs (downloaded_segments d) info)
    as (Hdl & Hinfo & Hdocs & Hfiles & Hrest).
  { unfold Z. now rewrite Hperm. }
  { reflexivity. }
  cbn [on_disk downloaded segment_info] in *.
  exists info, X, Z. split; [exact Hload|].
  split; [now rewrite HZ|].
  split; [exact HFX|].
  split.
  { rewrite HZ. eapply Forall_impl; [exact HFY|].
    intros f (Hn & Hf & k & Hk & Hu). cbn in Hk. now subst k. }
  split; [now rewrite Hdl, HX|].
  split; [cbn; now rewrite Hdocs, Hinfo|].
  split; [exact Hfiles|exact Hrest].
Qed.

(** The second loop lists a future exactly when its download returned a
    digest. *)
Lemma step_result_fetch (net : nat -> network) (segments : list string)
    (fs : disk) (f : future) :
  step_result (snd (fetch net segments fs f))
  = match snd (fetch net segments fs f) with
    | Ok (Some md5) => Some md5
    | _ => None
    end.
Proof.
  unfold fetch.
  pose proof (download_segment_outcome (net (fut_index f)) fs (fut_url f)
                (fut_file f) (S (fut_index f)) (length segments)) as H.
  destruct (snd (download_segment _ _ _ _ _ _)) as [[md5|]|e]; try reflexivity.
  destruct H as (data & _ & ->). cbn. now rewrite hexdigest_truthy.
Qed.

Lemma step_added_elem (net : nat -> network) (segments : list string)
    (fs : disk) (output_dir : string) (f : future) (x : nat * string) :
  x ∈ step_added output_dir f (snd (fetch net segments fs f))
  <-> (exists md5, snd (fetch net segments fs f) = Ok (Some md5))
      /\ x = completed_entry output_dir (fut_index f).
Proof.
  unfold step_added. rewrite step_result_fetch.
  destruct (snd (fetch net segments fs f)) as [[md5|]|e].
  - rewrite list_elem_of_singleton. split; [eauto|now intros [_ ->]].
  - split; [intros H; now apply elem_of_nil in H|intros [[? [=]] _]].
  - split; [intros H; now apply elem_of_nil in H|intros [[? [=]] _]].
Qed.

(** The facts about the parts of a run that the theorems below share. *)
Lemma partition_cases (X : list (nat * string)) (Z : list future) (n i : nat) :
  ((fst <$> X) ++ (fut_index <$> Z))%list ≡ₚ seq 0 n ->
  (i < n <-> i ∈ (fst <$> X) \/ i ∈ (fut_index <$> Z))
  /\ (i ∈ (fst <$> X) -> i ∈ (fut_index <$> Z) -> False)
  /\ NoDup (fut_index <$> Z).
Proof.
  intros Hp.
  assert (Hnd : NoDup ((fst <$> X) ++ (fut_index <$> Z))%list).
  { rewrite Hp. apply NoDup_ListNoDup, seq_NoDup. }
  apply NoDup_app in Hnd as (_ & Hdis & HndZ).
  split; [|split; [apply Hdis|exact HndZ]].
  rewrite <- elem_of_app, Hp, list_elem_of_In, in_seq. lia.
Qed.

(** X8. A segment is in the list the scheduler returns exactly when it was
    already done at the start, or its own download, taken on the disk as it
    was at the start, returns a digest. So the failure of one download
    removes that segment from the result and changes nothing for the
    others. *)
Theorem result_is_done_or_fetched (net : nat -> network)
    (as_completed : list future -> list future) (fs : disk)
    (segments : list string) (output_dir : string) (num_threads : Z)
    (fs' : disk) (out : list (nat * string)) :
  (forall l, as_completed l ≡ₚ l) ->
  download_segments_in_parallel net as_completed fs segments output_dir
    num_threads = Ok (fs', out) ->
  exists info,
    load_segment_info fs (segment_info_file output_dir) = Ok info
    /\ forall i,
         i ∈ (fst <$> out)
         <-> i < length segments
             /\ (is_already_done fs info output_dir i
                 \/ fetch_succeeds net segments fs output_dir i).
Proof.
  intros Hperm Hrun.
  destruct (scheduler_anatomy _ _ _ _ _ _ _ _ Hperm Hrun)
    as (info & X & Z & Hload & Hseq & HFX & HFZ & -> & _).
  exists info. split; [exact Hload|]. intros i.
  destruct (partition_cases X Z (length segments) i Hseq)
    as (Hrange & Hdis & _).
  rewrite Forall_forall in HFX. rewrite Forall_forall in HFZ.
  rewrite (fmap_Permutation fst _ _ (sorted_by_key_perm _)), fmap_app,
    elem_of_app.
  split.
  - intros [Hx|Hz].
    + split; [apply Hrange; now left|]. left.
      apply list_elem_of_fmap in Hx as (x & -> & Hx). now apply HFX.
    + apply list_elem_of_fmap in Hz as (x & -> & Hx).
      apply list_elem_of_bind in Hx as (f & Hx & Hf).
      apply step_added_elem in Hx as [[md5 Hmd5] ->]. cbn.
      destruct (HFZ f Hf) as (_ & Hfile & Hurl).
      split.
      * apply Hrange. right. apply list_elem_of_fmap. eauto.
      * right. exists (fut_url f), md5. split; [exact Hurl|].
        unfold fetch in Hmd5. now rewrite <- Hfile.
  - intros [Hi [Hdone|(url & md5 & Hurl & Hmd5)]].
    + apply Hrange in Hi as [Hx|Hz]; [now left|].
      apply list_elem_of_fmap in Hz as (f & -> & Hf).
      now destruct (HFZ f Hf) as (Hn & _).
    + apply Hrange in Hi as [Hx|Hz]; [now left|]. right.
      apply list_elem_of_fmap in Hz as (f & -> & Hf).
      destruct (HFZ f Hf) as (_ & Hfile & Hurl').
      rewrite Hurl in Hurl'. injection Hurl' as ->.
      apply list_elem_of_fmap. exists (completed_entry output_dir (fut_index f)).
      split; [reflexivity|].
      apply list_elem_of_bind. exists f. split; [|exact Hf].
      apply step_added_elem. split; [|reflexivity].
      exists md5. unfold fetch. now rewrite Hfile.
Qed.

Lemma result_is_done_or_fetched_witness :
  exists fs' out info,
    download_segments_in_parallel demo_net (@rev future) demo_disk
      demo_segments "/t" 8 = Ok (fs', out)
    /\ load_segment_info demo_disk (segment_info_file "/t") = Ok info
    /\ forall i,
         i ∈ (fst <$> out)
         <-> i < length demo_segments
             /\ (is_already_done demo_disk info "/t" i
                 \/ fetch_succeeds demo_net demo_segments demo_disk "/t" i).
Proof.
  eexists _, _.
  assert (Hrun : download_segments_in_parallel demo_net (@rev future)
                   demo_disk demo_segments "/t" 8 = Ok _)
    by (vm_compute; reflexivity).
  assert (Hperm : forall l : list future, rev l ≡ₚ l)
    by (intros l; symmetry; apply Permutation_rev).
  destruct (result_is_done_or_fetched _ _ _ _ _ _ _ _ Hperm Hrun)
    as (info & H).
  exists info. split; [exact Hrun|exact H].
Defined.

(** X9. Every entry of the list the scheduler returns is a pair of an
    index and the segment file name of that index in the run directory,
    and that file is on the disk the scheduler leaves. *)
Theorem result_files_exist (net : nat -> network)
    (as_completed : list future -> list future) (fs : disk)
    (segments : list string) (output_dir : string) (num_threads : Z)
    (fs' : disk) (out : list (nat * string)) :
  (forall l, as_completed l ≡ₚ l) ->
  download_segments_in_parallel net as_completed fs segments output_dir
    num_threads = Ok (fs', out) ->
  forall i p,
    (i, p) ∈ out ->
    p = segment_filename output_dir i /\ is_Some (files fs' !! p).
Proof.
  intros Hperm Hrun i p Hin.
  destruct (scheduler_anatomy _ _ _ _ _ _ _ _ Hperm Hrun)
    as (info & X & Z & Hload & Hseq & HFX & HFZ & -> & _ & Hfiles & Hrest).
  rewrite Forall_forall in HFX. rewrite Forall_forall in HFZ.
  rewrite sorted_by_key_perm in Hin. apply elem_of_app in Hin as [Hx|Hz].
  - destruct (HFX _ Hx) as [Hdone Hp]. cbn in Hdone, Hp. split; [exact Hp|].
    pose proof Hdone as (l & e & data & _ & _ & Hdata & _).
    rewrite Hrest; [subst p; eauto|].
    intros (f & Hf & HfZ)%list_elem_of_fmap.
    destruct (HFZ f HfZ) as (Hn & Hfile & _).
    rewrite Hfile in Hf. subst p. apply segment_filename_inj in Hf. subst i.
    now apply Hn.
  - apply list_elem_of_bind in Hz as (f & Hx & Hf).
    apply step_added_elem in Hx as [[md5 Hmd5] [= -> ->]].
    destruct (HFZ f Hf) as (_ & Hfile & _).
    split; [reflexivity|]. rewrite <- Hfile, Hfiles by exact Hf.
    unfold fetch in *.
    pose proof (download_segment_outcome (net (fut_index f)) fs (fut_url f)
                  (fut_file f) (S (fut_index f)) (length segments)) as Hout.
    rewrite Hmd5 in Hout. destruct Hout as (data & -> & _). eauto.
Qed.

Lemma result_files_exist_witness :
  exists fs' out,
    download_segments_in_parallel demo_net (@rev future) demo_disk
      demo_segments "/t" 8 = Ok (fs', out)
    /\ forall i p,
         (i, p) ∈ out ->
         p = segment_filename "/t" i /\ is_Some (files fs' !! p).
Proof.
  eexists _, _. split; [vm_compute; reflexivity|].
  eapply (result_files_exist demo_net (@rev future) demo_disk demo_segments
            "/t" 8).
  - intros l. symmetry. apply Permutation_rev.
  - vm_compute. reflexivity.
Defined.

(** X10. The scheduler writes nothing but the segment files of the
    segments it fetches and the ledger document: every file that is not the
    segment file of an index of the list, the file of every segment that
    was already done, and every document but the ledger are as they
    were. *)
Theorem scheduler_writes_run_directory_only (net : nat -> network)
    (as_completed : list future -> list future) (fs : disk)
    (segments : list string) (output_dir : string) (num_threads : Z)
    (fs' : disk) (out : list (nat * string)) :
  (forall l, as_completed l ≡ₚ l) ->
  download_segments_in_parallel net as_completed fs segments output_dir
    num_threads = Ok (fs', out) ->
  exists info,
    load_segment_info fs (segment_info_file output_dir) = Ok info
    /\ (forall p,
          (forall i, i < length segments ->
             ~ is_already_done fs info output_dir i ->
             p <> segment_filename output_dir i) ->
          files fs' !! p = files fs !! p)
    /\ (forall q, q <> segment_info_file output_dir ->
          documents fs' !! q = documents fs !! q).
Proof.
  intros Hperm Hrun.
  destruct (scheduler_anatomy _ _ _ _ _ _ _ _ Hperm Hrun)
    as (info & X & Z & Hload & Hseq & _ & HFZ & _ & Hdocs & _ & Hrest).
  rewrite Forall_forall in HFZ.
  exists info. split; [exact Hload|]. split.
  - intros p Hp. apply Hrest.
    intros (f & -> & Hf)%list_elem_of_fmap.
    destruct (HFZ f Hf) as (Hn & Hfile & _).
    apply (Hp (fut_index f)); [|exact Hn|exact Hfile].
    apply (partition_cases X Z (length segments) (fut_index f) Hseq).
    right. apply list_elem_of_fmap. eauto.
  - intros q Hq. rewrite Hdocs. now apply lookup_insert_ne.
Qed.

Lemma scheduler_writes_run_directory_only_witness :
  exists fs' out info,
    download_segments_in_parallel demo_net (@rev future) demo_disk
      demo_segments "/t" 8 = Ok (fs', out)
    /\ load_segment_info demo_disk (segment_info_file "/t") = Ok info
    /\ (forall p,
          (forall i, i < length demo_segments ->
             ~ is_already_done demo_disk info "/t" i ->
             p <> segment_filename "/t" i) ->
          files fs' !! p = files demo_disk !! p)
    /\ (forall q, q <> segment_info_file "/t" ->
          documents fs' !! q = documents demo_disk !! q).
Proof.
  eexists _, _.
  assert (Hrun : download_segments_in_parallel demo_net (@rev future)
                   demo_disk demo_segments "/t" 8 = Ok _)
    by (vm_compute; reflexivity).
  assert (Hperm : forall l : list future, rev l ≡ₚ l)
    by (intros l; symmetry; apply Permutation_rev).
  destruct (scheduler_writes_run_directory_only _ _ _ _ _ _ _ _ Hperm Hrun)
    as (info & H).
  exists info. split; [exact Hrun|exact H].
Defined.

(** ** [download_segments_in_parallel]: the state it leaves *)

Lemma NoDup_fmap_same {A B} (g : A -> B) (l : list A) (x y : A) :
  NoDup (g <$> l) -> x ∈ l -> y ∈ l -> g x = g y -> x = y.
Proof.
  induction l as [|a l IH]; cbn; intros Hnd Hx Hy Hg.
  - now apply elem_of_nil in Hx.
  - apply NoDup_cons in Hnd as [Ha Hnd].
    apply elem_of_cons in Hx as [->|Hx]; apply elem_of_cons in Hy as [->|Hy].
    + reflexivity.
    + exfalso. apply Ha. rewrite Hg. apply list_elem_of_fmap. eauto.
    + exfalso. apply Ha. rewrite <- Hg. apply list_elem_of_fmap. eauto.
    + now apply IH.
Qed.

(** The ledger after the second loop, for a ledger that is a [dict]: the
    entry of every future whose download returned a digest, and the
    entries loaded under all other keys. *)
Lemma fold_step_info_dict (net : nat -> network) (segments : list string)
    (fs : disk) (futs : list future) :
  NoDup (fut_index <$> futs) ->
  forall l0 : gmap string pyval,
  exists l',
    fold_left
      (fun info f => step_info segments f (snd (fetch net segments fs f)) info)
      futs (PyDict l0) = PyDict l'
    /\ (forall f md5 url,
          f ∈ futs ->
          snd (fetch net segments fs f) = Ok (Some md5) ->
          segments !! fut_index f = Some url ->
          l' !! str (fut_index f) = Some (ledger_entry url md5))
    /\ (forall k,
          (forall f md5, f ∈ futs ->
             snd (fetch net segments fs f) = Ok (Some md5) ->
             k <> str (fut_index f)) ->
          l' !! k = l0 !! k).
Proof.
  induction futs as [|f futs IH]; intros Hnd l0; cbn [fold_left].
  - exists l0. split; [reflexivity|]. split; [|reflexivity].
    intros f md5 url Hf. now apply elem_of_nil in Hf.
  - cbn in Hnd. apply NoDup_cons in Hnd as [Hfresh Hnd].
    assert (Hstep : exists l1,
              step_info segments f (snd (fetch net segments fs f)) (PyDict l0)
              = PyDict l1
              /\ (forall md5 url,
                    snd (fetch net segments fs f) = Ok (Some md5) ->
                    segments !! fut_index f = Some url ->
                    l1 = <[str (fut_index f) := ledger_entry url md5]> l0)
              /\ ((forall md5, snd (fetch net segments fs f) <> Ok (Some md5)) ->
                  l1 = l0)
              /\ forall k, k <> str (fut_index f) -> l1 !! k = l0 !! k).
    { unfold step_info, record_segment. rewrite step_result_fetch.
      destruct (snd (fetch net segments fs f)) as [[md5|]|e].
      - destruct (segments !! fut_index f) as [url|]; cbn.
        + eexists. split; [reflexivity|]. split; [|split].
          * now intros ? ? [= <-] [= <-].
          * intros H. now destruct (H md5).
          * intros k Hk. now apply lookup_insert_ne.
        + exists l0. split; [reflexivity|]. split; [discriminate|]. auto.
      - exists l0. split; [reflexivity|]. split; [discriminate|]. auto.
      - exists l0. split; [reflexivity|]. split; [discriminate|]. auto. }
    destruct Hstep as (l1 & -> & Hins & Hkeep & Hother).
    destruct (IH Hnd l1) as (l' & -> & Ha & Hb).
    exists l'. split; [reflexivity|]. split.
    + intros f' md5 url [->|Hf']%elem_of_cons Hmd5 Hurl.
      * rewrite Hb.
        -- rewrite (Hins md5 url Hmd5 Hurl). apply lookup_insert_eq.
        -- intros f'' md5' Hf'' _ Heq. apply (inj pretty) in Heq.
           apply Hfresh. rewrite Heq. apply list_elem_of_fmap. eauto.
      * now apply (Ha f' md5 url).
    + intros k Hk. rewrite Hb.
      * destruct (snd (fetch net segments fs f)) as [[md5|]|e] eqn:Hr.
        -- apply Hother. apply (Hk f md5); [now left|exact Hr].
        -- rewrite Hkeep; [reflexivity|discriminate].
        -- rewrite Hkeep; [reflexivity|discriminate].
      * intros f' md5 Hf'. apply Hk. now right.
Qed.

Lemma is_already_done_dict (fs : disk) (l : gmap string pyval)
    (output_dir : string) (i : nat) :
  is_already_done fs (PyDict l) output_dir i
  <-> exists entry data,
        l !! str i = Some (PyDict entry)
        /\ files fs !! segment_filename output_dir i = Some data
        /\ entry !! "md5" = Some (PyStr (MD5.hexdigest data)).
Proof.
  unfold is_already_done. split.
  - intros (l' & e & data & [= <-] & H). eauto.
  - intros (e & data & H). exists l, e, data. auto.
Qed.

(** Whether a segment is done depends on its ledger entry and its file. *)
Lemma is_already_done_same (fs fs' : disk) (l l' : gmap string pyval)
    (output_dir : string) (i : nat) :
  l' !! str i = l !! str i ->
  files fs' !! segment_filename output_dir i
  = files fs !! segment_filename output_dir i ->
  is_already_done fs' (PyDict l') output_dir i
  <-> is_already_done fs (PyDict l) output_dir i.
Proof.
  intros Hl Hf. rewrite !is_already_done_dict, Hl, Hf. reflexivity.
Qed.

(** The run taken apart as in [scheduler_anatomy], for a ledger that is a
    [dict]: in the state left behind, the segments that are done are those
    of the result. *)
Lemma left_state_done (net : nat -> network)
    (as_completed : list future -> list future) (fs : disk)
    (segments : list string) (output_dir : string) (num_threads : Z)
    (fs' : disk) (out : list (nat * string)) (l0 : gmap string pyval) :
  (forall l, as_completed l ≡ₚ l) ->
  load_segment_info fs (segment_info_file output_dir) = Ok (PyDict l0) ->
  download_segments_in_parallel net as_completed fs segments output_dir
    num_threads = Ok (fs', out) ->
  exists l',
    documents fs' !! segment_info_file output_dir = Some (Decoded (PyDict l'))
    /\ forall i, i < length segments ->
         (is_already_done fs' (PyDict l') output_dir i <-> i ∈ (fst <$> out)).
Proof.
  intros Hperm Hload0 Hrun.
  destruct (scheduler_anatomy _ _ _ _ _ _ _ _ Hperm Hrun)
    as (info & X & Z & Hload & Hseq & HFX & HFZ & -> & Hdocs & Hfiles & Hrest).
  rewrite Hload0 in Hload. injection Hload as <-.
  rewrite Forall_forall in HFX. rewrite Forall_forall in HFZ.
  assert (HndZ : NoDup (fut_index <$> Z))
    by apply (partition_cases X Z (length segments) 0 Hseq).
  destruct (fold_step_info_dict net segments fs Z HndZ l0)
    as (l' & Hfold & Ha & Hb).
  rewrite Hfold in Hdocs.
  exists l'. split; [rewrite Hdocs; apply lookup_insert_eq|].
  intros i Hi.
  destruct (partition_cases X Z (length segments) i Hseq)
    as (Hrange & Hdis & _).
  assert (Hout : i ∈ (fst <$> sorted_by_key
                        (X ++ (Z ≫= fun f =>
                                 step_added output_dir f
                                   (snd (fetch net segments fs f)))))
                 <-> i ∈ (fst <$> X)
                     \/ exists f md5, f ∈ Z /\ fut_index f = i
                          /\ snd (fetch net segments fs f) = Ok (Some md5)).
  { rewrite (fmap_Permutation fst _ _ (sorted_by_key_perm _)), fmap_app,
      elem_of_app.
    apply or_iff_compat_l. rewrite list_elem_of_fmap. split.
    - intros (x & -> & Hx). apply list_elem_of_bind in Hx as (f & Hx & Hf).
      apply step_added_elem in Hx as [[md5 Hmd5] ->]. eauto.
    - intros (f & md5 & Hf & <- & Hmd5).
      exists (completed_entry output_dir (fut_index f)).
      split; [reflexivity|]. apply list_elem_of_bind. exists f.
      split; [|exact Hf]. apply step_added_elem. eauto. }
  rewrite Hout. clear Hout.
  apply Hrange in Hi as [Hx|Hz].
  - (* skipped by the first loop *)
    assert (Hnot : forall f, f ∈ Z -> fut_index f <> i).
    { intros f Hf <-. apply (Hdis Hx). apply list_elem_of_fmap. eauto. }
    assert (Hdone : is_already_done fs (PyDict l0) output_dir i).
    { apply list_elem_of_fmap in Hx as (x & -> & Hx). now apply HFX. }
    split; [now left|]. intros _.
    apply (is_already_done_same fs fs' l0 l'); [| |exact Hdone].
    + apply Hb. intros f md5 Hf _ Heq. apply (inj pretty) in Heq.
      now apply (Hnot f Hf).
    + apply Hrest. intros (f & Hp & Hf)%list_elem_of_fmap.
      destruct (HFZ f Hf) as (_ & Hfile & _). rewrite Hfile in Hp.
      apply segment_filename_inj in Hp. now apply (Hnot f Hf).
  - (* fetched *)
    pose proof Hz as Hz'.
    apply list_elem_of_fmap in Hz' as (f & -> & Hf).
    destruct (HFZ f Hf) as (Hn & Hfile & Hurl).
    assert (Hsame : forall f', f' ∈ Z -> fut_index f' = fut_index f -> f' = f).
    { intros f' Hf' Heq. now apply (NoDup_fmap_same fut_index Z). }
    pose proof (download_segment_outcome (net (fut_index f)) fs (fut_url f)
                  (fut_file f) (S (fut_index f)) (length segments)) as Hpost.
    fold (fetch net segments fs f) in Hpost.
    specialize (Hfiles f Hf). rewrite Hfile in Hfiles.
    destruct (snd (fetch net segments fs f)) as [[md5|]|e] eqn:Hr.
    + destruct Hpost as (data & Hdata & ->).
      split; [intros _; right; eauto|]. intros _.
      apply is_already_done_dict. eexists _, data.
      split; [apply (Ha f _ _ Hf Hr Hurl)|].
      split; [rewrite Hfiles, <- Hfile; exact Hdata|].
      unfold ledger_entry. rewrite lookup_insert_ne by discriminate.
      apply lookup_insert_eq.
    + split.
      * intros Hd. apply is_already_done_dict in Hd as (? & ? & _ & Hd & _).
        rewrite Hfiles, <- Hfile, Hpost in Hd. discriminate.
      * intros [Hx|(f' & md5 & Hf' & Heq & Hmd5)]; [now destruct (Hdis Hx)|].
        apply Hsame in Heq; [|exact Hf']. subst f'. congruence.
    + destruct Hpost as [_ Hfs]. split.
      * intros Hd. exfalso. apply Hn.
        apply (is_already_done_same fs' fs l' l0); [| |exact Hd].
        -- symmetry. apply Hb. intros f' md5 Hf' Hmd5 Heq.
           apply (inj pretty) in Heq. symmetry in Heq.
           apply Hsame in Heq; [|exact Hf']. subst f'. congruence.
        -- now rewrite Hfiles, Hfs.
      * intros [Hx|(f' & md5 & Hf' & Heq & Hmd5)]; [now destruct (Hdis Hx)|].
        apply Hsame in Heq; [|exact Hf']. subst f'. congruence.
Qed.

(** X11. After a run that loaded a ledger that is a [dict] (or none), the
    ledger document and the files the scheduler leaves agree with the list
    it returned: a segment has a ledger entry whose digest is the digest of
    its file on the disk exactly when it is in the list. So the next run
    skips the segments of the list and fetches the others. *)
Theorem left_state_agrees_with_result (net : nat -> network)
    (as_completed : list future -> list future) (fs : disk)
    (segments : list string) (output_dir : string) (num_threads : Z)
    (fs' : disk) (out : list (nat * string)) (l0 : gmap string pyval) :
  (forall l, as_completed l ≡ₚ l) ->
  load_segment_info fs (segment_info_file output_dir) = Ok (PyDict l0) ->
  download_segments_in_parallel net as_completed fs segments output_dir
    num_threads = Ok (fs', out) ->
  exists info',
    load_segment_info fs' (segment_info_file output_dir) = Ok info'
    /\ forall i, i < length segments ->
         (is_already_done fs' info' output_dir i <-> i ∈ (fst <$> out)).
Proof.
  intros Hperm Hload Hrun.
  destruct (left_state_done _ _ _ _ _ _ _ _ _ Hperm Hload Hrun)
    as (l' & Hdoc & H).
  exists (PyDict l'). split; [|exact H].
  unfold load_segment_info. now rewrite Hdoc.
Qed.

Lemma left_state_agrees_with_result_witness :
  exists fs' out info',
    download_segments_in_parallel demo_net (@rev future) demo_disk
      demo_segments "/t" 8 = Ok (fs', out)
    /\ load_segment_info fs' (segment_info_file "/t") = Ok info'
    /\ forall i, i < length demo_segments ->
         (is_already_done fs' info' "/t" i <-> i ∈ (fst <$> out)).
Proof.
  eexists _, _.
  assert (Hrun : download_segments_in_parallel demo_net (@rev future)
                   demo_disk demo_segments "/t" 8 = Ok _)
    by (vm_compute; reflexivity).
  assert (Hperm : forall l : list future, rev l ≡ₚ l)
    by (intros l; symmetry; apply Permutation_rev).
  assert (Hload : load_segment_info demo_disk (segment_info_file "/t")
                  = Ok (PyDict _)) by (vm_compute; reflexivity).
  destruct (left_state_agrees_with_result _ _ _ _ _ _ _ _ _ Hperm Hload Hrun)
    as (info' & H).
  exists info'. split; [exact Hrun|exact H].
Defined.

(** ** [download_segments_in_parallel]: running it again *)

Lemma already_done_computes (fs : disk) (info : pyval) (output_dir : string)
    (i : nat) :
  is_already_done fs info output_dir i ->
  already_downloaded fs info output_dir i = Ok true.
Proof.
  intros (l & e & data & -> & Hl & Hf & Hm). unfold already_downloaded.
  cbn [py_contains bind].
  rewrite (bool_decide_eq_true_2 (is_Some (l !! str i))) by eauto.
  rewrite bool_decide_eq_true_2 by eauto.
  cbn [andb py_getitem bind]. rewrite Hl. cbn [py_getitem bind].
  rewrite Hm. cbn [bind]. unfold calculate_file_md5. rewrite Hf. cbn.
  now rewrite String.eqb_refl.
Qed.

(** When every segment is done, the first loop lists them all and submits
    nothing. *)
Lemma dispatch_all_done (fs : disk) (info : pyval) (output_dir : string)
    (segments : list string) :
  forall (i : nat) (st : dispatched),
    (forall k, k < length segments ->
       is_already_done fs info output_dir (i + k)) ->
    dispatch fs info output_dir i segments st
    = Ok (Dispatched
            (downloaded_segments st
               ++ (completed_entry output_dir <$> seq i (length segments)))
            (skipped_counter st + length segments)
            (future_to_index st)).
Proof.
  induction segments as [|seg rest IH]; intros i st Hall.
  - cbn. rewrite app_nil_r, Nat.add_0_r. now destruct st.
  - cbn [dispatch]. unfold dispatch_step.
    rewrite already_done_computes
      by (specialize (Hall 0); rewrite Nat.add_0_r in Hall; apply Hall; cbn; lia).
    cbn [bind]. rewrite IH.
    + cbn [downloaded_segments skipped_counter future_to_index length seq fmap
             list_fmap].
      rewrite <- app_assoc. do 2 f_equal. lia.
    + intros k Hk. replace (S i + k) with (i + S k) by lia.
      apply Hall. cbn. lia.
Qed.

Lemma json_dump_same (fs : disk) (path : string) (v : pyval) :
  documents fs !! path = Some (Decoded v) -> json_dump fs path v = fs.
Proof.
  destruct fs as [f d]. unfold json_dump. cbn. intros H. f_equal.
  now apply insert_id.
Qed.

(** X12. When a run that loaded a ledger that is a [dict] (or none) has
    obtained every segment, running the scheduler again on the disk it
    left, whatever the network and the number of threads (positive), makes
    no fetch: it returns the same list and leaves the disk as it is. *)
Theorem second_run_changes_nothing (net net' : nat -> network)
    (as_completed as_completed' : list future -> list future) (fs : disk)
    (segments : list string) (output_dir : string) (num_threads num_threads' : Z)
    (fs' : disk) (out : list (nat * string)) (l0 : gmap string pyval) :
  (forall l, as_completed l ≡ₚ l) ->
  (forall l, as_completed' l ≡ₚ l) ->
  load_segment_info fs (segment_info_file output_dir) = Ok (PyDict l0) ->
  download_segments_in_parallel net as_completed fs segments output_dir
    num_threads = Ok (fs', out) ->
  length out = length segments ->
  (0 < num_threads')%Z ->
  download_segments_in_parallel net' as_completed' fs' segments output_dir
    num_threads' = Ok (fs', out).
Proof.
  intros Hperm Hperm' Hload Hrun Hlen Hn.
  destruct (left_state_done _ _ _ _ _ _ _ _ _ Hperm Hload Hrun)
    as (l' & Hdoc & Hdone).
  destruct (scheduler_returns _ _ _ _ _ _ _ _ Hrun)
    as (info & d & _ & Hd & _ & Hout).
  destruct (completed_keys net fs info segments output_dir d
              (as_completed (future_to_index d)) Hd (Hperm _))
    as [Hnd Hrange].
  destruct (dispatch_spec _ _ _ _ _ _ _ Hd) as (X & Y & HX & _ & _ & HFX & _).
  destruct (complete_spec net segments output_dir
              (as_completed (future_to_index d))
              (Progress fs (downloaded_segments d) info))
    as (L & HL & _).
  cbn [downloaded] in HL. cbn in HX.
  set (D := downloaded (fold_left _ _ _)) in *. clearbody D.
  (* the list covers every index *)
  assert (Hkeys : fst <$> D ≡ₚ seq 0 (length segments)).
  { apply submseteq_length_Permutation.
    - apply NoDup_submseteq; [exact Hnd|].
      intros i Hi. apply list_elem_of_In, in_seq. specialize (Hrange i Hi). lia.
    - rewrite length_seq, length_fmap, <- Hlen, Hout.
      now rewrite (Permutation_length (sorted_by_key_perm D)). }
  assert (Hshape : D = completed_entry output_dir <$> (fst <$> D)).
  { rewrite HL, HX, !fmap_app. f_equal.
    - clear -HFX. induction HFX as [|[j p] X [_ Hp] _ IH]; [reflexivity|].
      cbn in *. subst p. now rewrite <- IH.
    - rewrite <- !list_fmap_compose. apply list_fmap_ext. now intros. }
  assert (Hall : forall k, k < length segments ->
                   is_already_done fs' (PyDict l') output_dir (0 + k)).
  { intros k Hk. apply Hdone; [exact Hk|].
    rewrite Hout, (fmap_Permutation fst _ _ (sorted_by_key_perm D)), Hkeys.
    apply list_elem_of_In, in_seq. lia. }
  assert (Hmk : makedirs fs' output_dir = Ok tt).
  { rewrite (makedirs_agree fs fs');
      [exact (scheduler_returns_dir _ _ _ _ _ _ _ Hrun)|].
    intros p Hp.
    destruct (scheduler_anatomy _ _ _ _ _ _ _ _ Hperm Hrun)
      as (info0 & X0 & Z0 & _ & _ & _ & HFZ & _ & _ & _ & Hrest).
    apply Hrest. intros (f & Hf & HfZ)%list_elem_of_fmap.
    rewrite Forall_forall in HFZ. destruct (HFZ f HfZ) as (_ & Hfile & _).
    rewrite Hfile in Hf. subst p.
    pose proof (segment_filename_longer output_dir (fut_index f)). lia. }
  unfold download_segments_in_parallel, load_segment_info.
  rewrite Hmk. cbn [bind].
  fold (segment_info_file output_dir). rewrite Hdoc. cbn [bind].
  destruct (Z.leb_spec num_threads' 0); [lia|].
  rewrite (dispatch_all_done fs' (PyDict l') output_dir segments 0
             (Dispatched [] 0 []) Hall).
  cbn [bind downloaded_segments future_to_index app].
  assert (Hnil : as_completed' [] = []).
  { apply Permutation_nil. symmetry. apply Hperm'. }
  rewrite Hnil. cbn [fold_left on_disk segment_info downloaded].
  rewrite (json_dump_same _ _ _ Hdoc). do 2 f_equal.
  rewrite Hout. apply sorted_by_key_unique.
  - rewrite Hshape. now apply fmap_Permutation.
  - rewrite <- list_fmap_compose.
    assert (Hid : fst ∘ completed_entry output_dir <$> seq 0 (length segments)
                  = seq 0 (length segments)).
    { clear. induction (seq 0 (length segments)); cbn; congruence. }
    rewrite Hid. apply NoDup_ListNoDup, seq_NoDup.
Qed.

Lemma second_run_changes_nothing_witness :
  exists fs' out,
    download_segments_in_parallel (fun _ => serves ["AB"; "CD"]) (@rev future)
      demo_disk demo_segments "/t" 8 = Ok (fs', out)
    /\ download_segments_in_parallel demo_net (fun l => l) fs' demo_segments
         "/t" 2 = Ok (fs', out).
Proof.
  eexists _, _.
  assert (Hrun : download_segments_in_parallel (fun _ => serves ["AB"; "CD"])
                   (@rev future) demo_disk demo_segments "/t" 8 = Ok _)
    by (vm_compute; reflexivity).
  split; [exact Hrun|].
  eapply (second_run_changes_nothing (fun _ => serves ["AB"; "CD"]) demo_net
            (@rev future) (fun l => l) demo_disk demo_segments "/t" 8 2).
  - intros l. symmetry. apply Permutation_rev.
  - intros l. reflexivity.
  - vm_compute. reflexivity.
  - exact Hrun.
  - vm_compute. reflexivity.
  - lia.
Defined.

(** ** [download_segments_in_parallel]: order and threads *)

(** X13. Neither the order in which the downloads complete nor the
    number of threads, as long as it is positive, changes what the
    scheduler returns and the disk it leaves. *)
Theorem result_independent_of_order_and_threads (net : nat -> network)
    (as_completed as_completed' : list future -> list future) (fs : disk)
    (segments : list string) (output_dir : string)
    (num_threads num_threads' : Z) :
  (forall l, as_completed l ≡ₚ l) ->
  (forall l, as_completed' l ≡ₚ l) ->
  (0 < num_threads)%Z ->
  (0 < num_threads')%Z ->
  download_segments_in_parallel net as_completed fs segments output_dir
    num_threads
  = download_segments_in_parallel net as_completed' fs segments output_dir
      num_threads'.
Proof.
  intros Hp Hp' Hn Hn'.
  rewrite (completion_order_irrelevant net as_completed as_completed' fs
             segments output_dir num_threads Hp Hp').
  unfold download_segments_in_parallel.
  destruct (makedirs fs output_dir); cbn [bind]; [|reflexivity].
  destruct (load_segment_info _ _); cbn [bind]; [|reflexivity].
  destruct (Z.leb_spec num_threads 0); [lia|].
  destruct (Z.leb_spec num_threads' 0); [lia|]. reflexivity.
Qed.

Lemma result_independent_of_order_and_threads_witness :
  download_segments_in_parallel demo_net (@rev future) demo_disk
    demo_segments "/t" 8
  = download_segments_in_parallel demo_net (fun l => l) demo_disk
      demo_segments "/t" 1.
Proof.
  apply (result_independent_of_order_and_threads demo_net (@rev future)
           (fun l => l) demo_disk demo_segments "/t" 8 1).
  - intros l. symmetry. apply Permutation_rev.
  - intros l. reflexivity.
  - lia.
  - lia.
Defined.

(** ** [extract_id_from_m3u8] *)

Example extract_id_ex1 :
  extract_id_from_m3u8
    (one_file "/v/index.m3u8"
       (lines ["#EXTM3U"; "#EXTINF:10,";
               "https://cdn.example/hls_ab12cd_1080_7/seg_0.ts"]))
    "/v/index.m3u8"
  = Some "ab12cd_1080".
Proof. vm_compute. reflexivity. Qed.

Example extract_id_ex2 :
  extract_id_from_m3u8 (Disk ∅ ∅) "/v/index.m3u8" = None.
Proof. reflexivity. Qed.

(** A manifest that does not decode gives no identifier, whatever its
    lines hold. *)
Example extract_id_ex3 :
  extract_id_from_m3u8
    (one_file "/v/index.m3u8"
       (bytes [233; 10] ++ "http://x/v_ab_1_2/s.ts" ++ bytes [10]))
    "/v/index.m3u8"
  = None.
Proof. vm_compute. reflexivity. Qed.

Lemma span_spec (p : ascii -> bool) (s : string) :
  s = fst (span p s) ++ snd (span p s)
  /\ all_chars p (fst (span p s)) = true
  /\ match snd (span p s) with
     | String x _ => p x = false
     | EmptyString => True
     end.
Proof.
  induction s as [|c s (IH1 & IH2 & IH3)]; cbn [span].
  - repeat split.
  - destruct (p c) eqn:Hc; cbn [fst snd].
    + rewrite append_cons. split; [now f_equal|]. split; [|exact IH3].
      unfold all_chars in *. cbn. now rewrite Hc.
    + repeat split. exact Hc.
Qed.

(** A run of the class followed by a character outside it is what [span]
    takes. *)
Lemma span_app (p : ascii -> bool) (a : string) (x : ascii) (r : string) :
  all_chars p a = true -> p x = false ->
  span p (a ++ String x r) = (a, String x r).
Proof.
  intros Ha Hx. induction a as [|c a IH].
  - change ("" ++ String x r) with (String x r). cbn [span]. now rewrite Hx.
  - unfold all_chars in Ha. cbn in Ha. apply andb_prop in Ha as [Hc Ha].
    rewrite append_cons. cbn [span]. rewrite Hc, IH by exact Ha. reflexivity.
Qed.

Lemma expect_spec (c : ascii) (s r : string) :
  expect c s = Some r <-> s = String c r.
Proof.
  destruct s as [|x s]; cbn; [split; discriminate|].
  destruct (Ascii.eqb x c) eqn:Hx.
  - apply Ascii.eqb_eq in Hx as ->. split; congruence.
  - apply Ascii.eqb_neq in Hx. split; [discriminate|congruence].
Qed.

Lemma match_id_at_sound (s group : string) :
  match_id_at s = Some group ->
  exists a b c suf,
    id_occurrence (String "_" s) "" a b c suf
    /\ group = a ++ "_" ++ b ++ "_" ++ c.
Proof.
  unfold match_id_at.
  destruct (span_spec not_underscore s) as (Hs & Ha & _).
  destruct (truthy (fst (span not_underscore s))) eqn:Hta; [|discriminate].
  destruct (expect "_" (snd (span not_underscore s))) as [r2|] eqn:He1;
    [|discriminate].
  apply expect_spec in He1.
  destruct (span_spec is_ascii_digit r2) as (Hr2 & Hb & _).
  cbv zeta.
  destruct (truthy (fst (span is_ascii_digit r2))) eqn:Htb; [|discriminate].
  destruct (expect "_" (snd (span is_ascii_digit r2))) as [r4|] eqn:He2;
    [|discriminate].
  apply expect_spec in He2.
  destruct (span_spec is_ascii_digit r4) as (Hr4 & Hc & _).
  destruct (truthy (fst (span is_ascii_digit r4))) eqn:Htc; [|discriminate].
  destruct (expect "/" (snd (span is_ascii_digit r4))) as [suf|] eqn:He3;
    [|discriminate].
  apply expect_spec in He3.
  intros [= <-].
  exists (fst (span not_underscore s)), (fst (span is_ascii_digit r2)),
         (fst (span is_ascii_digit r4)), suf.
  split; [|reflexivity].
  unfold id_occurrence. repeat split; try assumption.
  change (String "_" s
          = String "_"
              (fst (span not_underscore s)
               ++ String "_"
                    (fst (span is_ascii_digit r2)
                     ++ String "_"
                          (fst (span is_ascii_digit r4) ++ String "/" suf)))).
  congruence.
Qed.

Lemma match_id_at_complete (a b c suf : string) :
  truthy a = true -> all_chars not_underscore a = true ->
  truthy b = true -> all_chars is_ascii_digit b = true ->
  truthy c = true -> all_chars is_ascii_digit c = true ->
  match_id_at (a ++ "_" ++ b ++ "_" ++ c ++ "/" ++ suf)
  = Some (a ++ "_" ++ b ++ "_" ++ c).
Proof.
  intros Hta Ha Htb Hb Htc Hc.
  change (match_id_at
            (a ++ String "_" (b ++ String "_" (c ++ String "/" suf)))
          = Some (a ++ String "_" (b ++ String "_" c))).
  unfold match_id_at.
  rewrite (span_app not_underscore a "_") by (exact Ha || reflexivity).
  cbn [fst snd expect]. rewrite Hta, Ascii.eqb_refl.
  rewrite (span_app is_ascii_digit b "_") by (exact Hb || reflexivity).
  cbn [fst snd expect]. rewrite Htb, Ascii.eqb_refl.
  rewrite (span_app is_ascii_digit c "/") by (exact Hc || reflexivity).
  cbn [fst snd expect]. rewrite Htc, Ascii.eqb_refl. reflexivity.
Qed.

Lemma re_search_id_sound (line group : string) :
  re_search_id line = Some group ->
  exists pre a b c suf,
    id_occurrence line pre a b c suf /\ group = a ++ "_" ++ b ++ "_" ++ c.
Proof.
  induction line as [|ch rest IH]; [discriminate|]. cbn [re_search_id].
  destruct (if Ascii.eqb ch "_" then match_id_at rest else None)
    as [g|] eqn:Hm.
  - intros [= <-]. destruct (Ascii.eqb ch "_") eqn:Hch; [|discriminate].
    apply Ascii.eqb_eq in Hch as ->.
    destruct (match_id_at_sound _ _ Hm) as (a & b & c & suf & Hocc & ->).
    exists "", a, b, c, suf. auto.
  - intros H. destruct (IH H) as (pre & a & b & c & suf & Hocc & ->).
    exists (String ch pre), a, b, c, suf. split; [|reflexivity].
    destruct Hocc as (-> & Hrest). split; [|exact Hrest].
    now rewrite append_cons.
Qed.

Lemma re_search_id_complete (line pre a b c suf : string) :
  id_occurrence line pre a b c suf ->
  exists group, re_search_id line = Some group.
Proof.
  intros (-> & Hta & Ha & Htb & Hb & Htc & Hc).
  induction pre as [|ch pre IH].
  - change (exists group,
              re_search_id
                (String "_" (a ++ "_" ++ b ++ "_" ++ c ++ "/" ++ suf))
              = Some group).
    cbn [re_search_id]. rewrite Ascii.eqb_refl.
    rewrite match_id_at_complete by assumption. eauto.
  - rewrite append_cons. cbn [re_search_id].
    destruct (if Ascii.eqb ch "_" then _ else None); eauto.
Qed.

Lemma break_at_app (a r : string) :
  all_chars not_underscore a = true ->
  break_at "_" (a ++ String "_" r) = Some (a, r).
Proof.
  intros Ha. induction a as [|x a IH]; [reflexivity|].
  unfold all_chars in Ha. cbn in Ha. apply andb_prop in Ha as [Hx Ha].
  rewrite append_cons. cbn [break_at].
  unfold not_underscore in Hx. apply negb_true_iff in Hx. rewrite Hx.
  now rewrite IH.
Qed.

Lemma digits_no_underscore (b : string) :
  all_chars is_ascii_digit b = true -> all_chars not_underscore b = true.
Proof.
  unfold all_chars. induction b as [|x b IH]; [reflexivity|]. cbn.
  intros [Hx Hb]%andb_prop. rewrite IH by exact Hb.
  rewrite andb_true_r. unfold not_underscore.
  destruct (Ascii.eqb x "_") eqn:E; [|reflexivity].
  apply Ascii.eqb_eq in E. subst x. discriminate.
Qed.

(** The identifier of a match [a_b_c] is [a_b]. *)
Lemma id_of_match_parts (a b c : string) :
  all_chars not_underscore a = true ->
  all_chars is_ascii_digit b = true ->
  id_of_match (a ++ "_" ++ b ++ "_" ++ c) = a ++ "_" ++ b.
Proof.
  intros Ha Hb. unfold id_of_match.
  change (String.concat "_"
            (firstn 2 (py_split "_" 2 (a ++ String "_" (b ++ String "_" c))))
          = a ++ String "_" b).
  cbn [py_split].
  rewrite break_at_app by exact Ha.
  rewrite break_at_app by now apply digits_no_underscore.
  reflexivity.
Qed.

(** The match [re.search] returns is the one that starts first. *)
Lemma re_search_id_leftmost (line group : string) :
  re_search_id line = Some group ->
  exists pre a b c suf,
    id_occurrence line pre a b c suf
    /\ group = a ++ "_" ++ b ++ "_" ++ c
    /\ forall pre' a' b' c' suf',
         id_occurrence line pre' a' b' c' suf' ->
         String.length pre <= String.length pre'.
Proof.
  induction line as [|ch rest IH]; [discriminate|]. cbn [re_search_id].
  destruct (if Ascii.eqb ch "_" then match_id_at rest else None)
    as [g|] eqn:Hm.
  - intros [= <-]. destruct (Ascii.eqb ch "_") eqn:Hch; [|discriminate].
    apply Ascii.eqb_eq in Hch as ->.
    destruct (match_id_at_sound _ _ Hm) as (a & b & c & suf & Hocc & ->).
    exists "", a, b, c, suf. split; [exact Hocc|]. split; [reflexivity|].
    intros. cbn. lia.
  - intros H. destruct (IH H) as (pre & a & b & c & suf & Hocc & -> & Hmin).
    exists (String ch pre), a, b, c, suf. split; [|split; [reflexivity|]].
    + destruct Hocc as (-> & Hrest). split; [|exact Hrest].
      now rewrite append_cons.
    + intros pre' a' b' c' suf' (Heq & Hta & Ha & Htb & Hb & Htc & Hc).
      destruct pre' as [|ch' pre''].
      * exfalso.
        change (String ch rest
                = String "_" (a' ++ "_" ++ b' ++ "_" ++ c' ++ "/" ++ suf'))
          in Heq.
        injection Heq as -> ->. cbn in Hm.
        rewrite match_id_at_complete in Hm by assumption. discriminate.
      * rewrite append_cons in Heq. injection Heq as -> ->.
        cbn [String.length]. apply le_n_S.
        apply (Hmin pre'' a' b' c' suf'). unfold id_occurrence. auto 10.
Qed.

Lemma all_chars_cons (p : ascii -> bool) (x : ascii) (r : string) :
  all_chars p (String x r) = p x && all_chars p r.
Proof. reflexivity. Qed.

Lemma not_underscore_code (x : ascii) :
  code x <> 95 -> not_underscore x = true.
Proof.
  intros H. unfold not_underscore.
  destruct (Ascii.eqb_spec x "_") as [->|]; [|reflexivity].
  exfalso. apply H. reflexivity.
Qed.

Lemma isspace1_code (a : ascii) : isspace1 a = true -> code a <> 95.
Proof.
  unfold isspace1, between.
  rewrite ?orb_true_iff, ?andb_true_iff, ?Nat.leb_le. lia.
Qed.

Lemma isspace2_code (a b : ascii) :
  isspace2 a b = true -> code a <> 95 /\ code b <> 95.
Proof.
  unfold isspace2.
  rewrite ?orb_true_iff, ?andb_true_iff, ?orb_true_iff, ?Nat.eqb_eq. lia.
Qed.

Lemma isspace3_code (a b c : ascii) :
  isspace3 a b c = true -> code a <> 95 /\ code b <> 95 /\ code c <> 95.
Proof.
  unfold isspace3, between.
  rewrite ?orb_true_iff, ?andb_true_iff, ?orb_true_iff, ?andb_true_iff,
    ?Nat.eqb_eq, ?Nat.leb_le.
  lia.
Qed.

(** White space has no underscore in it. *)
Lemma blank_no_underscore (s : string) :
  is_blank s = true -> all_chars not_underscore s = true.
Proof.
  induction s as [s IH] using string_length_ind.
  destruct s as [|a r1]; [reflexivity|]. cbn [is_blank].
  destruct (isspace1 a) eqn:H1.
  { intros H. rewrite all_chars_cons, IH by (exact H || (cbn; lia)).
    now rewrite (not_underscore_code a (isspace1_code a H1)). }
  destruct r1 as [|b r2]; [discriminate|].
  destruct (isspace2 a b) eqn:H2.
  { intros H. destruct (isspace2_code a b H2) as [Ha Hb].
    rewrite !all_chars_cons, IH by (exact H || (cbn; lia)).
    now rewrite (not_underscore_code a Ha), (not_underscore_code b Hb). }
  destruct r2 as [|c r3]; [discriminate|].
  intros [H3 H]%andb_true_iff.
  destruct (isspace3_code a b c H3) as (Ha & Hb & Hc).
  rewrite !all_chars_cons, IH by (exact H || (cbn; lia)).
  now rewrite (not_underscore_code a Ha), (not_underscore_code b Hb),
    (not_underscore_code c Hc).
Qed.

Lemma occurrence_not_blank (line pre a b c suf : string) :
  id_occurrence line pre a b c suf -> is_blank line = false.
Proof.
  intros (-> & _).
  destruct (is_blank (pre ++ "_" ++ a ++ "_" ++ b ++ "_" ++ c ++ "/" ++ suf))
    eqn:B; [|reflexivity].
  apply blank_no_underscore in B. exfalso. revert B.
  induction pre as [|x pre IH].
  - discriminate.
  - rewrite append_cons, all_chars_cons.
    intros [_ H]%andb_true_iff. auto.
Qed.

Lemma extract_id_line_some (line id : string) :
  extract_id_line line = Some id ->
  is_blank line = false
  /\ startswith line "#" = false
  /\ exists pre a b c suf,
       id_occurrence line pre a b c suf
       /\ id = a ++ "_" ++ b
       /\ forall pre' a' b' c' suf',
            id_occurrence line pre' a' b' c' suf' ->
            String.length pre <= String.length pre'.
Proof.
  unfold extract_id_line. rewrite truthy_strip.
  destruct (is_blank line); [discriminate|].
  destruct (startswith line "#"); [discriminate|]. cbn.
  destruct (re_search_id line) as [g|] eqn:Hg; [|discriminate].
  intros [= <-]. split; [reflexivity|]. split; [reflexivity|].
  destruct (re_search_id_leftmost _ _ Hg)
    as (pre & a & b & c & suf & Hocc & -> & Hmin).
  exists pre, a, b, c, suf. split; [exact Hocc|]. split; [|exact Hmin].
  destruct Hocc as (_ & _ & Ha & _ & Hb & _).
  now apply id_of_match_parts.
Qed.

Lemma extract_id_lines_some (ls : list string) (id : string) :
  extract_id_lines ls = Some id ->
  exists k line,
    ls !! k = Some line
    /\ extract_id_line line = Some id
    /\ forall j line', j < k -> ls !! j = Some line' ->
         extract_id_line line' = None.
Proof.
  induction ls as [|l ls IH]; [discriminate|]. cbn [extract_id_lines].
  destruct (extract_id_line l) as [i|] eqn:Hl.
  - intros [= <-]. exists 0, l. split; [reflexivity|]. split; [exact Hl|].
    intros j line' Hj. lia.
  - intros H. destruct (IH H) as (k & line & Hk & Hline & Hbefore).
    exists (S k), line. split; [exact Hk|]. split; [exact Hline|].
    intros [|j] line' Hj Hlook.
    + cbn in Hlook. now injection Hlook as <-.
    + apply (Hbefore j); [lia|exact Hlook].
Qed.

(** X14. When [extract_id_from_m3u8] returns an identifier, the manifest
    is there and the identifier is [a_b], read off the first line, neither
    blank nor beginning with [#], that has an occurrence of the pattern: an
    underscore, a part [a] without underscore, an underscore, digits [b],
    an underscore, digits, a slash. The occurrence is the one that starts
    first in that line. So an identifier has one underscore, a first part
    that is not empty, and digits after the underscore. *)
Theorem extract_id_sound (fs : disk) (m3u8_filename id : string) :
  extract_id_from_m3u8 fs m3u8_filename = Some id ->
  exists data k line pre a b c suf,
    files fs !! m3u8_filename = Some data
    /\ readlines (universal_newlines data) !! k = Some line
    /\ is_blank line = false
    /\ startswith line "#" = false
    /\ id_occurrence line pre a b c suf
    /\ id = a ++ "_" ++ b
    /\ (forall pre' a' b' c' suf',
          id_occurrence line pre' a' b' c' suf' ->
          String.length pre <= String.length pre')
    /\ (forall j line', j < k ->
          readlines (universal_newlines data) !! j = Some line' ->
          extract_id_line line' = None).
Proof.
  unfold extract_id_from_m3u8, open_text.
  destruct (files fs !! m3u8_filename) as [data|]; [|discriminate].
  destruct (valid_utf8 data); [|discriminate].
  intros H. apply extract_id_lines_some in H as (k & line & Hk & Hline & Hb).
  apply extract_id_line_some in Hline
    as (Hblank & Hhash & pre & a & b & c & suf & Hocc & -> & Hmin).
  exists data, k, line, pre, a, b, c, suf. auto 10.
Qed.

Lemma extract_id_sound_witness :
  exists data k line pre a b c suf,
    files (one_file "/v/index.m3u8"
             (lines ["#EXTM3U"; "https://cdn.example/hls_ab12cd_1080_7/seg_0.ts"]))
      !! "/v/index.m3u8" = Some data
    /\ readlines (universal_newlines data) !! k = Some line
    /\ is_blank line = false
    /\ startswith line "#" = false
    /\ id_occurrence line pre a b c suf
    /\ "ab12cd_1080" = a ++ "_" ++ b
    /\ (forall pre' a' b' c' suf',
          id_occurrence line pre' a' b' c' suf' ->
          String.length pre <= String.length pre')
    /\ (forall j line', j < k ->
          readlines (universal_newlines data) !! j = Some line' ->
          extract_id_line line' = None).
Proof.
  apply (extract_id_sound
           (one_file "/v/index.m3u8"
              (lines ["#EXTM3U"; "https://cdn.example/hls_ab12cd_1080_7/seg_0.ts"]))
           "/v/index.m3u8" "ab12cd_1080").
  vm_compute. reflexivity.
Defined.

(** X15. [extract_id_from_m3u8] finds an identifier whenever there is one
    to find: if the manifest is text (its bytes decode) and some line of
    it that does not begin with [#] has an occurrence of the pattern, the
    function does not return [None]. *)
Theorem extract_id_complete (fs : disk) (m3u8_filename data : string)
    (line pre a b c suf : string) :
  files fs !! m3u8_filename = Some data ->
  valid_utf8 data = true ->
  line ∈ readlines (universal_newlines data) ->
  startswith line "#" = false ->
  id_occurrence line pre a b c suf ->
  exists id, extract_id_from_m3u8 fs m3u8_filename = Some id.
Proof.
  intros Hf Hv Hin Hhash Hocc. unfold extract_id_from_m3u8, open_text.
  rewrite Hf, Hv. induction Hin as [line ls|line l ls Hin IH];
    cbn [extract_id_lines].
  - unfold extract_id_line.
    rewrite truthy_strip, (occurrence_not_blank _ _ _ _ _ _ Hocc), Hhash.
    destruct (re_search_id_complete _ _ _ _ _ _ Hocc) as [g ->]. cbn. eauto.
  - destruct (extract_id_line l); eauto.
Qed.

Lemma extract_id_complete_witness :
  exists id,
    extract_id_from_m3u8
      (one_file "/v/index.m3u8"
         (lines ["#EXTM3U"; "x/seg_0.ts"; "y/v_ab_1_2/s.ts"]))
      "/v/index.m3u8" = Some id.
Proof.
  apply (extract_id_complete
           (one_file "/v/index.m3u8"
              (lines ["#EXTM3U"; "x/seg_0.ts"; "y/v_ab_1_2/s.ts"]))
           "/v/index.m3u8"
           (lines ["#EXTM3U"; "x/seg_0.ts"; "y/v_ab_1_2/s.ts"])
           "y/v_ab_1_2/s.ts" "y/v" "ab" "1" "2" "s.ts").
  - vm_compute. reflexivity.
  - vm_compute. reflexivity.
  - vm_compute. do 2 right. left.
  - reflexivity.
  - vm_compute. repeat split; reflexivity.
Defined.

(** ** [merge_segments_to_mp4] *)

Lemma all_chars_app (p : ascii -> bool) (a b : string) :
  all_chars p (a ++ b) = all_chars p a && all_chars p b.
Proof.
  unfold all_chars. induction a as [|x a IH]; [reflexivity|].
  rewrite append_cons. cbn. rewrite IH. apply andb_assoc.
Qed.

Lemma readlines_line (body rest : string) :
  all_chars no_line_feed body = true ->
  readlines (body ++ String LF rest)
  = (body ++ String LF "") :: readlines rest.
Proof.
  induction body as [|c body IH]; intros Hb.
  - reflexivity.
  - cbn in Hb. apply andb_true_iff in Hb as [Hc Hb]. rewrite !append_cons.
    cbn [readlines]. unfold no_line_feed in Hc.
    destruct (Ascii.eqb c LF); [discriminate|].
    now rewrite (IH Hb).
Qed.

Lemma concat_line_readlines (seg rest : string) :
  all_chars no_line_feed seg = true ->
  readlines (concat_line seg ++ rest) = concat_line seg :: readlines rest.
Proof.
  intros Hseg. unfold concat_line.
  replace (("file '" ++ seg ++ "'" ++ String LF "") ++ rest)
    with (("file '" ++ seg ++ "'") ++ String LF rest).
  - rewrite readlines_line.
    + now rewrite !append_assoc.
    + rewrite !all_chars_app, Hseg. reflexivity.
  - rewrite !append_assoc. reflexivity.
Qed.

(** X16. The list file [merge_segments_to_mp4] writes has one line for
    each segment it was given, in the order of the list, and the line of a
    segment is [file '<path>'] with its line feed; this for paths that
    have no line feed in them. *)
Theorem concat_list_lines (segments : list (nat * string)) :
  Forall (fun x => all_chars no_line_feed (snd x) = true) segments ->
  readlines (concat_list segments)
  = List.map (fun x => concat_line (snd x)) segments
  /\ length (readlines (concat_list segments)) = length segments.
Proof.
  intros H.
  assert (Hl : readlines (concat_list segments)
               = List.map (fun x => concat_line (snd x)) segments).
  { unfold concat_list. induction H as [|x l Hx Hl IH]; [reflexivity|].
    cbn [List.map]. rewrite concat_empty_cons.
    rewrite concat_line_readlines by exact Hx. now rewrite IH. }
  split; [exact Hl|]. rewrite Hl. apply length_map.
Qed.

Lemma concat_list_lines_witness :
  Forall (fun x => all_chars no_line_feed (snd x) = true)
    [(0, "/t/segment_00000.ts"); (2, "/t/segment_00002.ts")]
  /\ readlines
       (concat_list [(0, "/t/segment_00000.ts"); (2, "/t/segment_00002.ts")])
     = ["file '/t/segment_00000.ts'" ++ String LF "";
        "file '/t/segment_00002.ts'" ++ String LF ""].
Proof.
  assert (H : Forall (fun x => all_chars no_line_feed (snd x) = true)
                [(0, "/t/segment_00000.ts"); (2, "/t/segment_00002.ts")]).
  { repeat constructor. }
  split; [exact H|].
  exact (proj1 (concat_list_lines
                  [(0, "/t/segment_00000.ts"); (2, "/t/segment_00002.ts")]
                  H)).
Defined.

(** X17. Whatever the program does, [merge_segments_to_mp4] leaves no
    list file in the working directory (one that was there before is
    lost), and every other file is as the program left it. An exit code
    of the program, zero or not, is not reported to the caller: the call
    raises only when the program could not be run, or when the list file
    is gone by the time it is to be removed. *)
Theorem merge_leaves_no_list_file (run : program) (fs : disk)
    (segments : list (nat * string)) (output_file : string)
    (ffmpeg_options : option (list string)) :
  let ran :=
    run (ffmpeg_command output_file ffmpeg_options)
      (write_file fs concat_filename (concat_list segments)) in
  let merged :=
    merge_segments_to_mp4 run fs segments output_file ffmpeg_options in
  files (fst merged) !! concat_filename = None
  /\ (forall p, p <> concat_filename ->
        files (fst merged) !! p = files (fst ran) !! p)
  /\ documents (fst merged) = documents (fst ran)
  /\ (forall code,
        snd ran = Exited code ->
        is_Some (files (fst ran) !! concat_filename) ->
        snd merged = Ok tt)
  /\ (forall e,
        snd merged = Raise e ->
        snd ran = NotRun e
        \/ (files (fst ran) !! concat_filename = None
            /\ e = FileNotFoundError)).
Proof.
  cbv zeta. unfold merge_segments_to_mp4.
  destruct (run (ffmpeg_command output_file ffmpeg_options)
              (write_file fs concat_filename (concat_list segments)))
    as [fs2 ended].
  cbn [fst snd].
  destruct (files fs2 !! concat_filename) as [old|] eqn:Hold; cbn [fst snd].
  - split; [apply lookup_delete_eq|].
    split; [intros p Hp; cbn; now rewrite lookup_delete_ne|].
    split; [reflexivity|].
    split.
    + intros code -> _. reflexivity.
    + intros e He. left. destruct ended; [discriminate|]. congruence.
  - split; [exact Hold|]. split; [reflexivity|]. split; [reflexivity|].
    split.
    + intros code _ [x Hx]. discriminate.
    + intros e [= <-]. right. split; reflexivity.
Qed.

(** ** [m3u8_to_mp4] *)

Lemma truthy_app_r (a b : string) : truthy b = true -> truthy (a ++ b) = true.
Proof. intros H. destruct a; [exact H|reflexivity]. Qed.

Lemma endswith_char_app (a b : string) (c : ascii) :
  truthy b = true -> endswith_char (a ++ b) c = endswith_char b c.
Proof.
  intros H. induction a as [|x a IH]; [reflexivity|].
  rewrite append_cons. pose proof (truthy_app_r a b H) as Ht.
  destruct (a ++ b) as [|y r] eqn:E; [discriminate|].
  rewrite <- IH. reflexivity.
Qed.

Lemma prefix_app (a b : string) : String.prefix a (a ++ b) = true.
Proof.
  induction a as [|x a IH]; [now destruct b|].
  rewrite append_cons. cbn [String.prefix].
  destruct (ascii_dec x x); [exact IH|congruence].
Qed.

Lemma path_join_plain (a b : string) :
  startswith b "/" = false ->
  truthy a = true ->
  endswith_char a sep = false ->
  path_join a b = a ++ "/" ++ b.
Proof. intros Hb Ha He. unfold path_join. now rewrite Hb, Ha, He. Qed.

Lemma below_path_join (dir name : string) :
  startswith name "/" = false ->
  truthy dir = true ->
  endswith_char dir sep = false ->
  below dir (path_join dir name) = true.
Proof.
  intros Hn Hd He. rewrite path_join_plain by assumption.
  unfold below, startswith. rewrite <- (append_assoc dir "/" name).
  apply prefix_app.
Qed.

Lemma digits_end (b : string) :
  all_chars is_ascii_digit b = true -> endswith_char b sep = false.
Proof.
  induction b as [|c b IH]; [reflexivity|]. intros H.
  cbn in H. apply andb_true_iff in H as [Hc Hb].
  destruct b as [|y r].
  - cbn. destruct (Ascii.eqb_spec c sep) as [->|]; [discriminate|reflexivity].
  - exact (IH Hb).
Qed.

(** The identifier of the run is not empty and does not end with a
    slash. *)
Lemma video_id_shape (fs : disk) (m3u8_filename : string) :
  truthy (video_id_of fs m3u8_filename) = true
  /\ endswith_char (video_id_of fs m3u8_filename) sep = false.
Proof.
  unfold video_id_of.
  destruct (extract_id_from_m3u8 fs m3u8_filename) as [id|] eqn:E;
    [|split; reflexivity].
  destruct (truthy id) eqn:T; [|split; reflexivity].
  split; [exact T|].
  unfold extract_id_from_m3u8 in E.
  destruct (open_text fs m3u8_filename) as [text|]; [|discriminate].
  apply extract_id_lines_some in E as (k & line & _ & Hline & _).
  apply extract_id_line_some in Hline
    as (_ & _ & pre & a & b & c & suf & Hocc & -> & _).
  destruct Hocc as (_ & _ & _ & Hb & Hd & _).
  rewrite endswith_char_app by reflexivity.
  destruct b as [|y r]; [discriminate|].
  change (endswith_char (String y r) sep = false).
  now apply digits_end.
Qed.

(** The run directory is [<cwd>/tmp/m3u8_segments_<id>]: its name is not
    empty and does not end with a slash. *)
Lemma run_directory_shape (cwd : string) (fs : disk) (m3u8_filename : string) :
  truthy (run_directory cwd fs m3u8_filename) = true
  /\ endswith_char (run_directory cwd fs m3u8_filename) sep = false.
Proof.
  destruct (video_id_shape fs m3u8_filename) as [Hid Hend].
  unfold run_directory.
  assert (Hinner : truthy (path_join cwd "tmp") = true
                   /\ endswith_char (path_join cwd "tmp") sep = false).
  { unfold path_join. change (startswith "tmp" "/") with false. cbv iota.
    destruct (negb (truthy cwd) || endswith_char cwd sep).
    - split; [now apply truthy_app_r|]. now rewrite endswith_char_app.
    - split; [now apply truthy_app_r|]. now rewrite endswith_char_app. }
  destruct Hinner as [Hi He].
  rewrite path_join_plain by (reflexivity || assumption).
  split; [now apply truthy_app_r|].
  rewrite endswith_char_app by reflexivity.
  change (endswith_char ("m3u8_segments_" ++ video_id_of fs m3u8_filename) sep
          = false).
  now rewrite endswith_char_app.
Qed.

(** X18. Without the manifest, [extract_id_from_m3u8] returns [None] (it
    swallows the error), and [m3u8_to_mp4] then raises
    [FileNotFoundError], out of [extract_segments], whatever its other
    arguments. *)
Theorem m3u8_to_mp4_missing_manifest (net : nat -> network)
    (as_completed : list future -> list future) (run : program)
    (cwd : string) (fs : disk) (m3u8_filename : string)
    (output_mp4 : option string) (num_threads : Z) (keep_segments : bool)
    (ffmpeg_options : option (list string)) :
  files fs !! m3u8_filename = None ->
  extract_id_from_m3u8 fs m3u8_filename = None
  /\ m3u8_to_mp4 net as_completed run cwd fs m3u8_filename output_mp4
       num_threads keep_segments ffmpeg_options
     = Raise FileNotFoundError.
Proof.
  intros H.
  unfold m3u8_to_mp4, extract_segments, extract_id_from_m3u8, open_text.
  rewrite H. split; reflexivity.
Qed.

Lemma m3u8_to_mp4_missing_manifest_witness :
  m3u8_to_mp4 demo_net (fun l => l) demo_program "/w" demo_disk
    "/v/index.m3u8" None 8 true None
  = Raise FileNotFoundError.
Proof.
  apply (m3u8_to_mp4_missing_manifest demo_net (fun l => l) demo_program
           "/w" demo_disk "/v/index.m3u8" None 8 true None).
  vm_compute. reflexivity.
Defined.

Lemma rmtree_below (fs : disk) (dir p : string) :
  below dir p = true ->
  files (rmtree fs dir) !! p = None /\ documents (rmtree fs dir) !! p = None.
Proof.
  intros H. unfold rmtree. cbn [files documents].
  split; apply map_lookup_filter_None; right; intros x _ Hp;
    change (below dir p = false) in Hp; congruence.
Qed.

Lemma rmtree_absent (fs : disk) (dir p : string) :
  files fs !! p = None -> files (rmtree fs dir) !! p = None.
Proof.
  intros H. unfold rmtree. cbn [files].
  apply map_lookup_filter_None. now left.
Qed.

(** X19. With a manifest that is text (its bytes decode), a run
    directory that can be made, a ledger document in it that is absent or
    of the shape the scheduler writes, a positive number of threads and a
    program that ends with an exit code and keeps the list file,
    [m3u8_to_mp4] returns normally, with no list file left: whatever the
    network does to the segments, and whatever code the program exits
    with. *)
Theorem m3u8_to_mp4_returns (net : nat -> network)
    (as_completed : list future -> list future) (run : program)
    (cwd : string) (fs : disk) (m3u8_filename data : string)
    (output_mp4 : option string) (num_threads : Z) (keep_segments : bool)
    (ffmpeg_options : option (list string)) (info : pyval) :
  files fs !! m3u8_filename = Some data ->
  valid_utf8 data = true ->
  makedirs fs (run_directory cwd fs m3u8_filename) = Ok tt ->
  load_segment_info fs
    (segment_info_file (run_directory cwd fs m3u8_filename)) = Ok info ->
  well_formed_ledger info ->
  (0 < num_threads)%Z ->
  (forall command d,
     is_Some (files d !! concat_filename) ->
     is_Some (files (fst (run command d)) !! concat_filename)) ->
  (forall command d, exists code, snd (run command d) = Exited code) ->
  exists fs',
    m3u8_to_mp4 net as_completed run cwd fs m3u8_filename output_mp4
      num_threads keep_segments ffmpeg_options = Ok fs'
    /\ files fs' !! concat_filename = None.
Proof.
  intros Hm Hv Hdir Hload Hwf Hn Hkeep Hexit.
  destruct (scheduler_total net as_completed fs
              (fold_left (extract_line (dirname m3u8_filename))
                 (readlines (universal_newlines data)) [])
              (run_directory cwd fs m3u8_filename) num_threads info
              Hdir Hload Hwf Hn) as (fs1 & out & Hrun).
  unfold m3u8_to_mp4, extract_segments, open_text. rewrite Hm, Hv.
  cbn [bind]. rewrite Hdir. cbn [bind].
  rewrite Hrun. cbn [bind fst snd].
  unfold merge_segments_to_mp4.
  set (command := ffmpeg_command _ _).
  set (fs2 := write_file fs1 concat_filename (concat_list out)).
  destruct (Hkeep command fs2) as [old Hold].
  { unfold fs2, write_file. cbn [files]. rewrite lookup_insert_eq. eauto. }
  destruct (Hexit command fs2) as [code Hcode].
  rewrite Hold, Hcode. cbn [fst snd bind].
  eexists. split; [reflexivity|].
  assert (Hgone : files (remove_file (fst (run command fs2)) concat_filename)
                    !! concat_filename = None)
    by apply lookup_delete_eq.
  destruct keep_segments; [exact Hgone|]. now apply rmtree_absent.
Qed.

Lemma demo_program_keeps (command : list string) (d : disk) :
  is_Some (files d !! concat_filename) ->
  is_Some (files (fst (demo_program command d)) !! concat_filename).
Proof.
  intros H. unfold demo_program.
  destruct (command !! 12) as [o|]; cbn [fst]; [|exact H].
  unfold write_file. cbn [files].
  destruct (decide (o = concat_filename)) as [->|Hne].
  - rewrite lookup_insert_eq. eauto.
  - now rewrite lookup_insert_ne.
Qed.

Lemma demo_program_exits (command : list string) (d : disk) :
  exists code, snd (demo_program command d) = Exited code.
Proof.
  unfold demo_program. destruct (command !! 12); cbn [snd]; eauto.
Qed.

Lemma m3u8_to_mp4_returns_witness :
  exists fs',
    m3u8_to_mp4 (fun _ _ => NoResponse) (@rev future) demo_program "/w"
      demo_job "/v/index.m3u8" None 8 true None = Ok fs'
    /\ files fs' !! concat_filename = None.
Proof.
  apply (m3u8_to_mp4_returns (fun _ _ => NoResponse) (@rev future)
           demo_program "/w" demo_job "/v/index.m3u8"
           (lines ["#EXTM3U"; "http://cdn.example/v_abc_12_3/0.ts";
                   "http://cdn.example/v_abc_12_3/1.ts"; ""])
           None 8 true None (PyDict ∅)).
  - vm_compute. reflexivity.
  - vm_compute. reflexivity.
  - vm_compute. reflexivity.
  - vm_compute. reflexivity.
  - apply map_Forall_empty.
  - lia.
  - exact demo_program_keeps.
  - exact demo_program_exits.
Defined.

(** X20. After a call of [m3u8_to_mp4] with [keep_segments] false that
    returns, nothing is left below the run directory: no segment file and
    no ledger document. No segment is already done for a later run,
    whatever ledger it would be given, and the ledger it loads is empty. *)
Theorem m3u8_to_mp4_discards_run_directory (net : nat -> network)
    (as_completed : list future -> list future) (run : program)
    (cwd : string) (fs : disk) (m3u8_filename : string)
    (output_mp4 : option string) (num_threads : Z)
    (ffmpeg_options : option (list string)) (fs' : disk) :
  m3u8_to_mp4 net as_completed run cwd fs m3u8_filename output_mp4
    num_threads false ffmpeg_options = Ok fs' ->
  let output_dir := run_directory cwd fs m3u8_filename in
  (forall p,
     below output_dir p = true ->
     files fs' !! p = None /\ documents fs' !! p = None)
  /\ (forall i, files fs' !! segment_filename output_dir i = None)
  /\ load_segment_info fs' (segment_info_file output_dir) = Ok (PyDict ∅)
  /\ (forall info i, ~ is_already_done fs' info output_dir i).
Proof.
  intros H output_dir.
  destruct (run_directory_shape cwd fs m3u8_filename) as [Ht He].
  unfold m3u8_to_mp4 in H.
  destruct (extract_segments fs m3u8_filename) as [segments|];
    [|discriminate].
  cbn [bind] in H. fold output_dir in H.
  destruct (makedirs fs output_dir); [|discriminate]. cbn [bind] in H.
  destruct (download_segments_in_parallel net as_completed fs segments
              output_dir num_threads) as [downloaded|]; [|discriminate].
  cbn [bind] in H.
  destruct (snd (merge_segments_to_mp4 _ _ _ _ _)); [|discriminate].
  cbn [bind] in H. injection H as <-.
  assert (Hfile : forall i,
             files (rmtree
                      (fst (merge_segments_to_mp4 run (fst downloaded)
                              (snd downloaded)
                              match output_mp4 with
                              | Some name => name
                              | None => video_id_of fs m3u8_filename ++ ".mp4"
                              end ffmpeg_options)) output_dir)
               !! segment_filename output_dir i = None).
  { intros i. apply rmtree_below. unfold segment_filename.
    now apply below_path_join. }
  split; [intros p Hp; now apply rmtree_below|].
  split; [exact Hfile|].
  split.
  - unfold load_segment_info.
    assert (Hdoc : below output_dir (segment_info_file output_dir) = true).
    { unfold segment_info_file. now apply below_path_join. }
    apply (rmtree_below
             (fst (merge_segments_to_mp4 run (fst downloaded)
                     (snd downloaded)
                     match output_mp4 with
                     | Some name => name
                     | None => video_id_of fs m3u8_filename ++ ".mp4"
                     end ffmpeg_options))) in Hdoc as [_ ->].
    reflexivity.
  - intros info i (l & e & d & _ & _ & Hf & _).
    rewrite Hfile in Hf. discriminate.
Qed.

Lemma m3u8_to_mp4_discards_run_directory_witness :
  exists fs',
    m3u8_to_mp4 (fun _ => serves ["AB"; "CD"]) (@rev future) demo_program
      "/w" demo_job "/v/index.m3u8" None 8 false None = Ok fs'
    /\ files fs' !! "/w/tmp/m3u8_segments_abc_12/segment_00000.ts" = None
    /\ files fs' !! "abc_12.mp4" = Some "mp4".
Proof.
  eexists. split; [vm_compute; reflexivity|].
  split; [|vm_compute; reflexivity].
  refine (proj1 (proj2 (m3u8_to_mp4_discards_run_directory
                          (fun _ => serves ["AB"; "CD"]) (@rev future)
                          demo_program "/w" demo_job "/v/index.m3u8" None 8
                          None _ _)) 0).
  vm_compute. reflexivity.
Defined.
